(** * CarletonCalendar: the course-text parser and the ICS generator

    A shallow embedding of [AutoCalendarV4.py] (functions [parseCourses],
    [parseDays], [parseDateRange], [parseTimeRange], [getFirstOccurrence],
    [formatDateTime], [generateVTimezone], [generateICS]) together with the
    parts of the Python runtime those functions call: [str] methods,
    [re.split], [datetime.strptime], [strftime] and date arithmetic.

    Conventions.
    - A Python [str] is a [string]; each [ascii] is one code point in the
      range 0..255 (Latin-1).  Whitespace, line boundaries and case
      mappings are the ones CPython uses for these code points.  Where
      the result of [parseDays] depends on characters beyond that range,
      module [Unicode] gives the function on all code points.
    - A Python exception is a value of [exn]; code that can raise returns a
      [result].
    - A [datetime.date] is represented by its proleptic Gregorian ordinal,
      the number CPython itself goes through for [weekday()] and for
      [date + timedelta].
    - The month names and the AM/PM markers of [strptime] are those of the
      C / English locale. *)

From Stdlib Require Import ZArith NArith List String Ascii Bool Lia.
Import ListNotations.

Local Open Scope string_scope.
Local Open Scope list_scope.
Local Open Scope Z_scope.

(* ===================================================================== *)
(** ** Exceptions *)
(* ===================================================================== *)

Module Exc.

Inductive exn : Type :=
| ValueError
| IndexError
| AttributeError
| OverflowError
| ZoneInfoNotFoundError.

Inductive result (A : Type) : Type :=
| Ok (a : A)
| Raise (e : exn).

Arguments Ok {A} a.
Arguments Raise {A} e.

Definition bind {A B : Type} (c : result A) (k : A -> result B) : result B :=
  match c with
  | Ok a => k a
  | Raise e => Raise e
  end.

End Exc.
Export Exc.

Declare Scope result_scope.
Delimit Scope result_scope with result.
Notation "x <- c ;; k" := (bind c (fun x => k))
  (at level 61, c at next level, right associativity) : result_scope.

(* ===================================================================== *)
(** ** Python [str] and [list] operations *)
(* ===================================================================== *)

Module Py.

Definition code (c : ascii) : Z := Z.of_nat (nat_of_ascii c).
Definition chr (n : Z) : ascii := ascii_of_nat (Z.to_nat n).

Definition in_range (lo hi : Z) (c : ascii) : bool :=
  (lo <=? code c) && (code c <=? hi).

(** [c.isspace()], also the class [\s] of [re] on [str] patterns:
    TAB LF VT FF CR, FS GS RS US, SPACE, NEL (0x85), NBSP (0xA0). *)
Definition isspace (c : ascii) : bool :=
  in_range 9 13 c || in_range 28 32 c || (code c =? 133) || (code c =? 160).

(** The line boundaries of [str.splitlines]: LF VT FF CR, FS GS RS, NEL. *)
Definition islinebreak (c : ascii) : bool :=
  in_range 10 13 c || in_range 28 30 c || (code c =? 133).

(** The class [\d] of [re]: the decimal digits. *)
Definition isdigit (c : ascii) : bool := in_range 48 57 c.

(** [c.lower()]: A-Z and the Latin-1 capitals 0xC0-0xDE (not 0xD7). *)
Definition lower_char (c : ascii) : ascii :=
  if in_range 65 90 c || (in_range 192 222 c && negb (code c =? 215))
  then chr (code c + 32) else c.

(** [c.upper()].  The result can be two characters: 0xDF (sharp s) becomes
    "SS".  The capitals of 0xB5 (micro sign) and 0xFF (y diaeresis) are
    U+039C and U+0178, outside the 8-bit range; they are left as they are
    here, and everywhere else the result is that of Python (lemma
    [upper_char_codes]).  Neither form is whitespace, a digit, a key of
    a table or a character of a date or time format, so [parseDays] and
    [parseTimeRange] do not tell the difference.  [capitalize] does: for
    a meeting type that begins with one of the two characters the code
    writes the capital beyond 0xFF in the DESCRIPTION line of the event,
    the model the character itself. *)
Definition upper_char (c : ascii) : string :=
  if code c =? 223 then "SS"
  else if in_range 97 122 c || (in_range 224 254 c && negb (code c =? 247))
  then String (chr (code c - 32)) EmptyString
  else String c EmptyString.

(** [c.title()], used by [capitalize] for the first character: as
    [upper], but 0xDF becomes "Ss". *)
Definition title_char (c : ascii) : string :=
  if code c =? 223 then "Ss" else upper_char c.

Fixpoint lower (s : string) : string :=
  match s with
  | EmptyString => EmptyString
  | String c s' => String (lower_char c) (lower s')
  end.

Fixpoint upper (s : string) : string :=
  match s with
  | EmptyString => EmptyString
  | String c s' => (upper_char c ++ upper s')%string
  end.

(** [s.capitalize()]: first character title-cased, the rest lower-cased. *)
Definition capitalize (s : string) : string :=
  match s with
  | EmptyString => EmptyString
  | String c s' => (title_char c ++ lower s')%string
  end.

Fixpoint lstrip (s : string) : string :=
  match s with
  | EmptyString => EmptyString
  | String c s' => if isspace c then lstrip s' else s
  end.

Fixpoint rstrip (s : string) : string :=
  match s with
  | EmptyString => EmptyString
  | String c s' =>
      match rstrip s' with
      | EmptyString => if isspace c then EmptyString else String c EmptyString
      | r => String c r
      end
  end.

(** [s.strip()] *)
Definition strip (s : string) : string := rstrip (lstrip s).

(** [s.startswith(p)] *)
Fixpoint startswith (p s : string) : bool :=
  match p, s with
  | EmptyString, _ => true
  | String a p', String b s' => Ascii.eqb a b && startswith p' s'
  | String _ _, EmptyString => false
  end.

(** [sub in s] *)
Fixpoint contains (sub s : string) : bool :=
  startswith sub s ||
  match s with
  | EmptyString => false
  | String _ s' => contains sub s'
  end.

(** Puts a character in front of the first field of a split under
    construction. *)
Definition push (c : ascii) (fields : list string) : list string :=
  match fields with
  | [] => [String c EmptyString]
  | f :: rest => String c f :: rest
  end.

(** [s.split(sep)] for a non-empty [sep]: the occurrences of [sep] are
    taken from the left and do not overlap.  [skip] counts the characters
    of an occurrence that are still to be passed over. *)
Fixpoint split_from (sep : string) (skip : nat) (s : string) : list string :=
  match s with
  | EmptyString => [EmptyString]
  | String c s' =>
      match skip with
      | S k => split_from sep k s'
      | O =>
          if startswith sep s
          then EmptyString :: split_from sep (String.length sep - 1) s'
          else push c (split_from sep 0 s')
      end
  end.

Definition split (sep s : string) : list string := split_from sep 0 s.

(** [s.splitlines()]: no empty last line after a final boundary, and
    CR LF is one boundary ([after_cr] remembers a CR just seen). *)
Fixpoint splitlines_from (after_cr : bool) (s : string) : list string :=
  match s with
  | EmptyString => []
  | String c s' =>
      if after_cr && (code c =? 10) then splitlines_from false s'
      else if islinebreak c then EmptyString :: splitlines_from (code c =? 13) s'
      else push c (splitlines_from false s')
  end.

Definition splitlines (s : string) : list string := splitlines_from false s.

(** [sep.join(l)] *)
Fixpoint join (sep : string) (l : list string) : string :=
  match l with
  | [] => EmptyString
  | [x] => x
  | x :: rest => (x ++ sep ++ join sep rest)%string
  end.

(** [l.index(x)]: the first position of [x], or [ValueError]. *)
Fixpoint index (l : list string) (x : string) : result nat :=
  match l with
  | [] => Raise ValueError
  | y :: l' => if String.eqb y x then Ok O
               else (i <- index l' x ;; Ok (S i))%result
  end.

(** [l[i]] for [i >= 0]: the element, or [IndexError]. *)
Definition getitem (l : list string) (i : nat) : result string :=
  match nth_error l i with
  | Some x => Ok x
  | None => Raise IndexError
  end.

(** [int(s)] on a string of decimal digits, with whitespace allowed
    around them. *)
Definition digit_value (c : ascii) : Z := code c - 48.

Definition int (s : string) : Z :=
  fold_left (fun acc c => 10 * acc + digit_value c)
            (list_ascii_of_string (strip s)) 0.

(** Decimal output: one digit, and a number below 100 on two digits (the
    zero-padded fields of [strftime]). *)
Definition digit (n : Z) : ascii := chr (48 + n).

Definition pad2 (n : Z) : string :=
  String (digit (n / 10 mod 10)) (String (digit (n mod 10)) EmptyString).

Definition pad4 (n : Z) : string :=
  (pad2 (n / 100) ++ pad2 n)%string.

(** A number in 0..9999 without leading zeros. *)
Definition unpadded (n : Z) : string :=
  if n <? 10 then String (digit n) EmptyString
  else if n <? 100 then pad2 n
  else if n <? 1000 then String (digit (n / 100)) (pad2 n)
  else pad4 n.

End Py.

(* ===================================================================== *)
(** ** Python [str] on all code points: what [parseDays] calls *)
(* ===================================================================== *)

(** The strings of module [Py] stop at code point 255.  [parseDays]
    depends on [str.upper()] beyond that range, so its operations are
    given here on strings of arbitrary code points as well. *)

Module Unicode.

(** A [str]: the list of its code points. *)
Definition ustr : Type := list N.

(** The code points of a string of module [Py]. *)
Definition codes (s : string) : ustr := map N_of_ascii (list_ascii_of_string s).

(** [c.isspace()]: the 29 whitespace characters of Unicode. *)
Definition isspace (c : N) : bool :=
  ((9 <=? c) && (c <=? 13) || (28 <=? c) && (c <=? 32) || (c =? 133) || (c =? 160)
   || (c =? 5760) || (8192 <=? c) && (c <=? 8202) || (c =? 8232) || (c =? 8233)
   || (c =? 8239) || (c =? 8287) || (c =? 12288))%N.

Fixpoint lstrip (s : ustr) : ustr :=
  match s with
  | [] => []
  | c :: s' => if isspace c then lstrip s' else s
  end.

Fixpoint rstrip (s : ustr) : ustr :=
  match s with
  | [] => []
  | c :: s' =>
      match rstrip s' with
      | [] => if isspace c then [] else [c]
      | r => c :: r
      end
  end.

(** [s.strip()] *)
Definition strip (s : ustr) : ustr := rstrip (lstrip s).

Fixpoint assoc {A : Type} (c : N) (t : list (N * A)) : option A :=
  match t with
  | [] => None
  | (k, v) :: rest => if N.eqb k c then Some v else assoc c rest
  end.

(** [c.upper()] for every code point that it changes, as CPython 3.11
    has it (Unicode 14.0): the simple upper-case mappings and the
    unconditional special casings, which give up to three code points
    (223, sharp s, gives "SS").  [str.upper()] does not look at the
    neighbours of a character. *)
Definition upper_table : list (N * list N) :=
  [(97, [65]); (98, [66]); (99, [67]); (100, [68]); (101, [69]);
   (102, [70]); (103, [71]); (104, [72]); (105, [73]); (106, [74]);
   (107, [75]); (108, [76]); (109, [77]); (110, [78]); (111, [79]);
   (112, [80]); (113, [81]); (114, [82]); (115, [83]); (116, [84]);
   (117, [85]); (118, [86]); (119, [87]); (120, [88]); (121, [89]);
   (122, [90]); (181, [924]); (223, [83; 83]); (224, [192]); (225, [193]);
   (226, [194]); (227, [195]); (228, [196]); (229, [197]); (230, [198]);
   (231, [199]); (232, [200]); (233, [201]); (234, [202]); (235, [203]);
   (236, [204]); (237, [205]); (238, [206]); (239, [207]); (240, [208]);
   (241, [209]); (242, [210]); (243, [211]); (244, [212]); (245, [213]);
   (246, [214]); (248, [216]); (249, [217]); (250, [218]); (251, [219]);
   (252, [220]); (253, [221]); (254, [222]); (255, [376]); (257, [256]);
   (259, [258]); (261, [260]); (263, [262]); (265, [264]); (267, [266]);
   (269, [268]); (271, [270]); (273, [272]); (275, [274]); (277, [276]);
   (279, [278]); (281, [280]); (283, [282]); (285, [284]); (287, [286]);
   (289, [288]); (291, [290]); (293, [292]); (295, [294]); (297, [296]);
   (299, [298]); (301, [300]); (303, [302]); (305, [73]); (307, [306]);
   (309, [308]); (311, [310]); (314, [313]); (316, [315]); (318, [317]);
   (320, [319]); (322, [321]); (324, [323]); (326, [325]); (328, [327]);
   (329, [700; 78]); (331, [330]); (333, [332]); (335, [334]); (337, [336]);
   (339, [338]); (341, [340]); (343, [342]); (345, [344]); (347, [346]);
   (349, [348]); (351, [350]); (353, [352]); (355, [354]); (357, [356]);
   (359, [358]); (361, [360]); (363, [362]); (365, [364]); (367, [366]);
   (369, [368]); (371, [370]); (373, [372]); (375, [374]); (378, [377]);
   (380, [379]); (382, [381]); (383, [83]); (384, [579]); (387, [386]);
   (389, [388]); (392, [391]); (396, [395]); (402, [401]); (405, [502]);
   (409, [408]); (410, [573]); (414, [544]); (417, [416]); (419, [418]);
   (421, [420]); (424, [423]); (429, [428]); (432, [431]); (436, [435]);
   (438, [437]); (441, [440]); (445, [444]); (447, [503]); (453, [452]);
   (454, [452]); (456, [455]); (457, [455]); (459, [458]); (460, [458]);
   (462, [461]); (464, [463]); (466, [465]); (468, [467]); (470, [469]);
   (472, [471]); (474, [473]); (476, [475]); (477, [398]); (479, [478]);
   (481, [480]); (483, [482]); (485, [484]); (487, [486]); (489, [488]);
   (491, [490]); (493, [492]); (495, [494]); (496, [74; 780]); (498, [497]);
   (499, [497]); (501, [500]); (505, [504]); (507, [506]); (509, [508]);
   (511, [510]); (513, [512]); (515, [514]); (517, [516]); (519, [518]);
   (521, [520]); (523, [522]); (525, [524]); (527, [526]); (529, [528]);
   (531, [530]); (533, [532]); (535, [534]); (537, [536]); (539, [538]);
   (541, [540]); (543, [542]); (547, [546]); (549, [548]); (551, [550]);
   (553, [552]); (555, [554]); (557, [556]); (559, [558]); (561, [560]);
   (563, [562]); (572, [571]); (575, [11390]); (576, [11391]); (578, [577]);
   (583, [582]); (585, [584]); (587, [586]); (589, [588]); (591, [590]);
   (592, [11375]); (593, [11373]); (594, [11376]); (595, [385]); (596, [390]);
   (598, [393]); (599, [394]); (601, [399]); (603, [400]); (604, [42923]);
   (608, [403]); (609, [42924]); (611, [404]); (613, [42893]); (614, [42922]);
   (616, [407]); (617, [406]); (618, [42926]); (619, [11362]); (620, [42925]);
   (623, [412]); (625, [11374]); (626, [413]); (629, [415]); (637, [11364]);
   (640, [422]); (642, [42949]); (643, [425]); (647, [42929]); (648, [430]);
   (649, [580]); (650, [433]); (651, [434]); (652, [581]); (658, [439]);
   (669, [42930]); (670, [42928]); (837, [921]); (881, [880]); (883, [882]);
   (887, [886]); (891, [1021]); (892, [1022]); (893, [1023]); (912, [921; 776; 769]);
   (940, [902]); (941, [904]); (942, [905]); (943, [906]); (944, [933; 776; 769]);
   (945, [913]); (946, [914]); (947, [915]); (948, [916]); (949, [917]);
   (950, [918]); (951, [919]); (952, [920]); (953, [921]); (954, [922]);
   (955, [923]); (956, [924]); (957, [925]); (958, [926]); (959, [927]);
   (960, [928]); (961, [929]); (962, [931]); (963, [931]); (964, [932]);
   (965, [933]); (966, [934]); (967, [935]); (968, [936]); (969, [937]);
   (970, [938]); (971, [939]); (972, [908]); (973, [910]); (974, [911]);
   (976, [914]); (977, [920]); (981, [934]); (982, [928]); (983, [975]);
   (985, [984]); (987, [986]); (989, [988]); (991, [990]); (993, [992]);
   (995, [994]); (997, [996]); (999, [998]); (1001, [1000]); (1003, [1002]);
   (1005, [1004]); (1007, [1006]); (1008, [922]); (1009, [929]); (1010, [1017]);
   (1011, [895]); (1013, [917]); (1016, [1015]); (1019, [1018]); (1072, [1040]);
   (1073, [1041]); (1074, [1042]); (1075, [1043]); (1076, [1044]); (1077, [1045]);
   (1078, [1046]); (1079, [1047]); (1080, [1048]); (1081, [1049]); (1082, [1050]);
   (1083, [1051]); (1084, [1052]); (1085, [1053]); (1086, [1054]); (1087, [1055]);
   (1088, [1056]); (1089, [1057]); (1090, [1058]); (1091, [1059]); (1092, [1060]);
   (1093, [1061]); (1094, [1062]); (1095, [1063]); (1096, [1064]); (1097, [1065]);
   (1098, [1066]); (1099, [1067]); (1100, [1068]); (1101, [1069]); (1102, [1070]);
   (1103, [1071]); (1104, [1024]); (1105, [1025]); (1106, [1026]); (1107, [1027]);
   (1108, [1028]); (1109, [1029]); (1110, [1030]); (1111, [1031]); (1112, [1032]);
   (1113, [1033]); (1114, [1034]); (1115, [1035]); (1116, [1036]); (1117, [1037]);
   (1118, [1038]); (1119, [1039]); (1121, [1120]); (1123, [1122]); (1125, [1124]);
   (1127, [1126]); (1129, [1128]); (1131, [1130]); (1133, [1132]); (1135, [1134]);
   (1137, [1136]); (1139, [1138]); (1141, [1140]); (1143, [1142]); (1145, [1144]);
   (1147, [1146]); (1149, [1148]); (1151, [1150]); (1153, [1152]); (1163, [1162]);
   (1165, [1164]); (1167, [1166]); (1169, [1168]); (1171, [1170]); (1173, [1172]);
   (1175, [1174]); (1177, [1176]); (1179, [1178]); (1181, [1180]); (1183, [1182]);
   (1185, [1184]); (1187, [1186]); (1189, [1188]); (1191, [1190]); (1193, [1192]);
   (1195, [1194]); (1197, [1196]); (1199, [1198]); (1201, [1200]); (1203, [1202]);
   (1205, [1204]); (1207, [1206]); (1209, [1208]); (1211, [1210]); (1213, [1212]);
   (1215, [1214]); (1218, [1217]); (1220, [1219]); (1222, [1221]); (1224, [1223]);
   (1226, [1225]); (1228, [1227]); (1230, [1229]); (1231, [1216]); (1233, [1232]);
   (1235, [1234]); (1237, [1236]); (1239, [1238]); (1241, [1240]); (1243, [1242]);
   (1245, [1244]); (1247, [1246]); (1249, [1248]); (1251, [1250]); (1253, [1252]);
   (1255, [1254]); (1257, [1256]); (1259, [1258]); (1261, [1260]); (1263, [1262]);
   (1265, [1264]); (1267, [1266]); (1269, [1268]); (1271, [1270]); (1273, [1272]);
   (1275, [1274]); (1277, [1276]); (1279, [1278]); (1281, [1280]); (1283, [1282]);
   (1285, [1284]); (1287, [1286]); (1289, [1288]); (1291, [1290]); (1293, [1292]);
   (1295, [1294]); (1297, [1296]); (1299, [1298]); (1301, [1300]); (1303, [1302]);
   (1305, [1304]); (1307, [1306]); (1309, [1308]); (1311, [1310]); (1313, [1312]);
   (1315, [1314]); (1317, [1316]); (1319, [1318]); (1321, [1320]); (1323, [1322]);
   (1325, [1324]); (1327, [1326]); (1377, [1329]); (1378, [1330]); (1379, [1331]);
   (1380, [1332]); (1381, [1333]); (1382, [1334]); (1383, [1335]); (1384, [1336]);
   (1385, [1337]); (1386, [1338]); (1387, [1339]); (1388, [1340]); (1389, [1341]);
   (1390, [1342]); (1391, [1343]); (1392, [1344]); (1393, [1345]); (1394, [1346]);
   (1395, [1347]); (1396, [1348]); (1397, [1349]); (1398, [1350]); (1399, [1351]);
   (1400, [1352]); (1401, [1353]); (1402, [1354]); (1403, [1355]); (1404, [1356]);
   (1405, [1357]); (1406, [1358]); (1407, [1359]); (1408, [1360]); (1409, [1361]);
   (1410, [1362]); (1411, [1363]); (1412, [1364]); (1413, [1365]); (1414, [1366]);
   (1415, [1333; 1362]); (4304, [7312]); (4305, [7313]); (4306, [7314]); (4307, [7315]);
   (4308, [7316]); (4309, [7317]); (4310, [7318]); (4311, [7319]); (4312, [7320]);
   (4313, [7321]); (4314, [7322]); (4315, [7323]); (4316, [7324]); (4317, [7325]);
   (4318, [7326]); (4319, [7327]); (4320, [7328]); (4321, [7329]); (4322, [7330]);
   (4323, [7331]); (4324, [7332]); (4325, [7333]); (4326, [7334]); (4327, [7335]);
   (4328, [7336]); (4329, [7337]); (4330, [7338]); (4331, [7339]); (4332, [7340]);
   (4333, [7341]); (4334, [7342]); (4335, [7343]); (4336, [7344]); (4337, [7345]);
   (4338, [7346]); (4339, [7347]); (4340, [7348]); (4341, [7349]); (4342, [7350]);
   (4343, [7351]); (4344, [7352]); (4345, [7353]); (4346, [7354]); (4349, [7357]);
   (4350, [7358]); (4351, [7359]); (5112, [5104]); (5113, [5105]); (5114, [5106]);
   (5115, [5107]); (5116, [5108]); (5117, [5109]); (7296, [1042]); (7297, [1044]);
   (7298, [1054]); (7299, [1057]); (7300, [1058]); (7301, [1058]); (7302, [1066]);
   (7303, [1122]); (7304, [42570]); (7545, [42877]); (7549, [11363]); (7566, [42950]);
   (7681, [7680]); (7683, [7682]); (7685, [7684]); (7687, [7686]); (7689, [7688]);
   (7691, [7690]); (7693, [7692]); (7695, [7694]); (7697, [7696]); (7699, [7698]);
   (7701, [7700]); (7703, [7702]); (7705, [7704]); (7707, [7706]); (7709, [7708]);
   (7711, [7710]); (7713, [7712]); (7715, [7714]); (7717, [7716]); (7719, [7718]);
   (7721, [7720]); (7723, [7722]); (7725, [7724]); (7727, [7726]); (7729, [7728]);
   (7731, [7730]); (7733, [7732]); (7735, [7734]); (7737, [7736]); (7739, [7738]);
   (7741, [7740]); (7743, [7742]); (7745, [7744]); (7747, [7746]); (7749, [7748]);
   (7751, [7750]); (7753, [7752]); (7755, [7754]); (7757, [7756]); (7759, [7758]);
   (7761, [7760]); (7763, [7762]); (7765, [7764]); (7767, [7766]); (7769, [7768]);
   (7771, [7770]); (7773, [7772]); (7775, [7774]); (7777, [7776]); (7779, [7778]);
   (7781, [7780]); (7783, [7782]); (7785, [7784]); (7787, [7786]); (7789, [7788]);
   (7791, [7790]); (7793, [7792]); (7795, [7794]); (7797, [7796]); (7799, [7798]);
   (7801, [7800]); (7803, [7802]); (7805, [7804]); (7807, [7806]); (7809, [7808]);
   (7811, [7810]); (7813, [7812]); (7815, [7814]); (7817, [7816]); (7819, [7818]);
   (7821, [7820]); (7823, [7822]); (7825, [7824]); (7827, [7826]); (7829, [7828]);
   (7830, [72; 817]); (7831, [84; 776]); (7832, [87; 778]); (7833, [89; 778]); (7834, [65; 702]);
   (7835, [7776]); (7841, [7840]); (7843, [7842]); (7845, [7844]); (7847, [7846]);
   (7849, [7848]); (7851, [7850]); (7853, [7852]); (7855, [7854]); (7857, [7856]);
   (7859, [7858]); (7861, [7860]); (7863, [7862]); (7865, [7864]); (7867, [7866]);
   (7869, [7868]); (7871, [7870]); (7873, [7872]); (7875, [7874]); (7877, [7876]);
   (7879, [7878]); (7881, [7880]); (7883, [7882]); (7885, [7884]); (7887, [7886]);
   (7889, [7888]); (7891, [7890]); (7893, [7892]); (7895, [7894]); (7897, [7896]);
   (7899, [7898]); (7901, [7900]); (7903, [7902]); (7905, [7904]); (7907, [7906]);
   (7909, [7908]); (7911, [7910]); (7913, [7912]); (7915, [7914]); (7917, [7916]);
   (7919, [7918]); (7921, [7920]); (7923, [7922]); (7925, [7924]); (7927, [7926]);
   (7929, [7928]); (7931, [7930]); (7933, [7932]); (7935, [7934]); (7936, [7944]);
   (7937, [7945]); (7938, [7946]); (7939, [7947]); (7940, [7948]); (7941, [7949]);
   (7942, [7950]); (7943, [7951]); (7952, [7960]); (7953, [7961]); (7954, [7962]);
   (7955, [7963]); (7956, [7964]); (7957, [7965]); (7968, [7976]); (7969, [7977]);
   (7970, [7978]); (7971, [7979]); (7972, [7980]); (7973, [7981]); (7974, [7982]);
   (7975, [7983]); (7984, [7992]); (7985, [7993]); (7986, [7994]); (7987, [7995]);
   (7988, [7996]); (7989, [7997]); (7990, [7998]); (7991, [7999]); (8000, [8008]);
   (8001, [8009]); (8002, [8010]); (8003, [8011]); (8004, [8012]); (8005, [8013]);
   (8016, [933; 787]); (8017, [8025]); (8018, [933; 787; 768]); (8019, [8027]); (8020, [933; 787; 769]);
   (8021, [8029]); (8022, [933; 787; 834]); (8023, [8031]); (8032, [8040]); (8033, [8041]);
   (8034, [8042]); (8035, [8043]); (8036, [8044]); (8037, [8045]); (8038, [8046]);
   (8039, [8047]); (8048, [8122]); (8049, [8123]); (8050, [8136]); (8051, [8137]);
   (8052, [8138]); (8053, [8139]); (8054, [8154]); (8055, [8155]); (8056, [8184]);
   (8057, [8185]); (8058, [8170]); (8059, [8171]); (8060, [8186]); (8061, [8187]);
   (8064, [7944; 921]); (8065, [7945; 921]); (8066, [7946; 921]); (8067, [7947; 921]); (8068, [7948; 921]);
   (8069, [7949; 921]); (8070, [7950; 921]); (8071, [7951; 921]); (8072, [7944; 921]); (8073, [7945; 921]);
   (8074, [7946; 921]); (8075, [7947; 921]); (8076, [7948; 921]); (8077, [7949; 921]); (8078, [7950; 921]);
   (8079, [7951; 921]); (8080, [7976; 921]); (8081, [7977; 921]); (8082, [7978; 921]); (8083, [7979; 921]);
   (8084, [7980; 921]); (8085, [7981; 921]); (8086, [7982; 921]); (8087, [7983; 921]); (8088, [7976; 921]);
   (8089, [7977; 921]); (8090, [7978; 921]); (8091, [7979; 921]); (8092, [7980; 921]); (8093, [7981; 921]);
   (8094, [7982; 921]); (8095, [7983; 921]); (8096, [8040; 921]); (8097, [8041; 921]); (8098, [8042; 921]);
   (8099, [8043; 921]); (8100, [8044; 921]); (8101, [8045; 921]); (8102, [8046; 921]); (8103, [8047; 921]);
   (8104, [8040; 921]); (8105, [8041; 921]); (8106, [8042; 921]); (8107, [8043; 921]); (8108, [8044; 921]);
   (8109, [8045; 921]); (8110, [8046; 921]); (8111, [8047; 921]); (8112, [8120]); (8113, [8121]);
   (8114, [8122; 921]); (8115, [913; 921]); (8116, [902; 921]); (8118, [913; 834]); (8119, [913; 834; 921]);
   (8124, [913; 921]); (8126, [921]); (8130, [8138; 921]); (8131, [919; 921]); (8132, [905; 921]);
   (8134, [919; 834]); (8135, [919; 834; 921]); (8140, [919; 921]); (8144, [8152]); (8145, [8153]);
   (8146, [921; 776; 768]); (8147, [921; 776; 769]); (8150, [921; 834]); (8151, [921; 776; 834]); (8160, [8168]);
   (8161, [8169]); (8162, [933; 776; 768]); (8163, [933; 776; 769]); (8164, [929; 787]); (8165, [8172]);
   (8166, [933; 834]); (8167, [933; 776; 834]); (8178, [8186; 921]); (8179, [937; 921]); (8180, [911; 921]);
   (8182, [937; 834]); (8183, [937; 834; 921]); (8188, [937; 921]); (8526, [8498]); (8560, [8544]);
   (8561, [8545]); (8562, [8546]); (8563, [8547]); (8564, [8548]); (8565, [8549]);
   (8566, [8550]); (8567, [8551]); (8568, [8552]); (8569, [8553]); (8570, [8554]);
   (8571, [8555]); (8572, [8556]); (8573, [8557]); (8574, [8558]); (8575, [8559]);
   (8580, [8579]); (9424, [9398]); (9425, [9399]); (9426, [9400]); (9427, [9401]);
   (9428, [9402]); (9429, [9403]); (9430, [9404]); (9431, [9405]); (9432, [9406]);
   (9433, [9407]); (9434, [9408]); (9435, [9409]); (9436, [9410]); (9437, [9411]);
   (9438, [9412]); (9439, [9413]); (9440, [9414]); (9441, [9415]); (9442, [9416]);
   (9443, [9417]); (9444, [9418]); (9445, [9419]); (9446, [9420]); (9447, [9421]);
   (9448, [9422]); (9449, [9423]); (11312, [11264]); (11313, [11265]); (11314, [11266]);
   (11315, [11267]); (11316, [11268]); (11317, [11269]); (11318, [11270]); (11319, [11271]);
   (11320, [11272]); (11321, [11273]); (11322, [11274]); (11323, [11275]); (11324, [11276]);
   (11325, [11277]); (11326, [11278]); (11327, [11279]); (11328, [11280]); (11329, [11281]);
   (11330, [11282]); (11331, [11283]); (11332, [11284]); (11333, [11285]); (11334, [11286]);
   (11335, [11287]); (11336, [11288]); (11337, [11289]); (11338, [11290]); (11339, [11291]);
   (11340, [11292]); (11341, [11293]); (11342, [11294]); (11343, [11295]); (11344, [11296]);
   (11345, [11297]); (11346, [11298]); (11347, [11299]); (11348, [11300]); (11349, [11301]);
   (11350, [11302]); (11351, [11303]); (11352, [11304]); (11353, [11305]); (11354, [11306]);
   (11355, [11307]); (11356, [11308]); (11357, [11309]); (11358, [11310]); (11359, [11311]);
   (11361, [11360]); (11365, [570]); (11366, [574]); (11368, [11367]); (11370, [11369]);
   (11372, [11371]); (11379, [11378]); (11382, [11381]); (11393, [11392]); (11395, [11394]);
   (11397, [11396]); (11399, [11398]); (11401, [11400]); (11403, [11402]); (11405, [11404]);
   (11407, [11406]); (11409, [11408]); (11411, [11410]); (11413, [11412]); (11415, [11414]);
   (11417, [11416]); (11419, [11418]); (11421, [11420]); (11423, [11422]); (11425, [11424]);
   (11427, [11426]); (11429, [11428]); (11431, [11430]); (11433, [11432]); (11435, [11434]);
   (11437, [11436]); (11439, [11438]); (11441, [11440]); (11443, [11442]); (11445, [11444]);
   (11447, [11446]); (11449, [11448]); (11451, [11450]); (11453, [11452]); (11455, [11454]);
   (11457, [11456]); (11459, [11458]); (11461, [11460]); (11463, [11462]); (11465, [11464]);
   (11467, [11466]); (11469, [11468]); (11471, [11470]); (11473, [11472]); (11475, [11474]);
   (11477, [11476]); (11479, [11478]); (11481, [11480]); (11483, [11482]); (11485, [11484]);
   (11487, [11486]); (11489, [11488]); (11491, [11490]); (11500, [11499]); (11502, [11501]);
   (11507, [11506]); (11520, [4256]); (11521, [4257]); (11522, [4258]); (11523, [4259]);
   (11524, [4260]); (11525, [4261]); (11526, [4262]); (11527, [4263]); (11528, [4264]);
   (11529, [4265]); (11530, [4266]); (11531, [4267]); (11532, [4268]); (11533, [4269]);
   (11534, [4270]); (11535, [4271]); (11536, [4272]); (11537, [4273]); (11538, [4274]);
   (11539, [4275]); (11540, [4276]); (11541, [4277]); (11542, [4278]); (11543, [4279]);
   (11544, [4280]); (11545, [4281]); (11546, [4282]); (11547, [4283]); (11548, [4284]);
   (11549, [4285]); (11550, [4286]); (11551, [4287]); (11552, [4288]); (11553, [4289]);
   (11554, [4290]); (11555, [4291]); (11556, [4292]); (11557, [4293]); (11559, [4295]);
   (11565, [4301]); (42561, [42560]); (42563, [42562]); (42565, [42564]); (42567, [42566]);
   (42569, [42568]); (42571, [42570]); (42573, [42572]); (42575, [42574]); (42577, [42576]);
   (42579, [42578]); (42581, [42580]); (42583, [42582]); (42585, [42584]); (42587, [42586]);
   (42589, [42588]); (42591, [42590]); (42593, [42592]); (42595, [42594]); (42597, [42596]);
   (42599, [42598]); (42601, [42600]); (42603, [42602]); (42605, [42604]); (42625, [42624]);
   (42627, [42626]); (42629, [42628]); (42631, [42630]); (42633, [42632]); (42635, [42634]);
   (42637, [42636]); (42639, [42638]); (42641, [42640]); (42643, [42642]); (42645, [42644]);
   (42647, [42646]); (42649, [42648]); (42651, [42650]); (42787, [42786]); (42789, [42788]);
   (42791, [42790]); (42793, [42792]); (42795, [42794]); (42797, [42796]); (42799, [42798]);
   (42803, [42802]); (42805, [42804]); (42807, [42806]); (42809, [42808]); (42811, [42810]);
   (42813, [42812]); (42815, [42814]); (42817, [42816]); (42819, [42818]); (42821, [42820]);
   (42823, [42822]); (42825, [42824]); (42827, [42826]); (42829, [42828]); (42831, [42830]);
   (42833, [42832]); (42835, [42834]); (42837, [42836]); (42839, [42838]); (42841, [42840]);
   (42843, [42842]); (42845, [42844]); (42847, [42846]); (42849, [42848]); (42851, [42850]);
   (42853, [42852]); (42855, [42854]); (42857, [42856]); (42859, [42858]); (42861, [42860]);
   (42863, [42862]); (42874, [42873]); (42876, [42875]); (42879, [42878]); (42881, [42880]);
   (42883, [42882]); (42885, [42884]); (42887, [42886]); (42892, [42891]); (42897, [42896]);
   (42899, [42898]); (42900, [42948]); (42903, [42902]); (42905, [42904]); (42907, [42906]);
   (42909, [42908]); (42911, [42910]); (42913, [42912]); (42915, [42914]); (42917, [42916]);
   (42919, [42918]); (42921, [42920]); (42933, [42932]); (42935, [42934]); (42937, [42936]);
   (42939, [42938]); (42941, [42940]); (42943, [42942]); (42945, [42944]); (42947, [42946]);
   (42952, [42951]); (42954, [42953]); (42961, [42960]); (42967, [42966]); (42969, [42968]);
   (42998, [42997]); (43859, [42931]); (43888, [5024]); (43889, [5025]); (43890, [5026]);
   (43891, [5027]); (43892, [5028]); (43893, [5029]); (43894, [5030]); (43895, [5031]);
   (43896, [5032]); (43897, [5033]); (43898, [5034]); (43899, [5035]); (43900, [5036]);
   (43901, [5037]); (43902, [5038]); (43903, [5039]); (43904, [5040]); (43905, [5041]);
   (43906, [5042]); (43907, [5043]); (43908, [5044]); (43909, [5045]); (43910, [5046]);
   (43911, [5047]); (43912, [5048]); (43913, [5049]); (43914, [5050]); (43915, [5051]);
   (43916, [5052]); (43917, [5053]); (43918, [5054]); (43919, [5055]); (43920, [5056]);
   (43921, [5057]); (43922, [5058]); (43923, [5059]); (43924, [5060]); (43925, [5061]);
   (43926, [5062]); (43927, [5063]); (43928, [5064]); (43929, [5065]); (43930, [5066]);
   (43931, [5067]); (43932, [5068]); (43933, [5069]); (43934, [5070]); (43935, [5071]);
   (43936, [5072]); (43937, [5073]); (43938, [5074]); (43939, [5075]); (43940, [5076]);
   (43941, [5077]); (43942, [5078]); (43943, [5079]); (43944, [5080]); (43945, [5081]);
   (43946, [5082]); (43947, [5083]); (43948, [5084]); (43949, [5085]); (43950, [5086]);
   (43951, [5087]); (43952, [5088]); (43953, [5089]); (43954, [5090]); (43955, [5091]);
   (43956, [5092]); (43957, [5093]); (43958, [5094]); (43959, [5095]); (43960, [5096]);
   (43961, [5097]); (43962, [5098]); (43963, [5099]); (43964, [5100]); (43965, [5101]);
   (43966, [5102]); (43967, [5103]); (64256, [70; 70]); (64257, [70; 73]); (64258, [70; 76]);
   (64259, [70; 70; 73]); (64260, [70; 70; 76]); (64261, [83; 84]); (64262, [83; 84]); (64275, [1348; 1350]);
   (64276, [1348; 1333]); (64277, [1348; 1339]); (64278, [1358; 1350]); (64279, [1348; 1341]); (65345, [65313]);
   (65346, [65314]); (65347, [65315]); (65348, [65316]); (65349, [65317]); (65350, [65318]);
   (65351, [65319]); (65352, [65320]); (65353, [65321]); (65354, [65322]); (65355, [65323]);
   (65356, [65324]); (65357, [65325]); (65358, [65326]); (65359, [65327]); (65360, [65328]);
   (65361, [65329]); (65362, [65330]); (65363, [65331]); (65364, [65332]); (65365, [65333]);
   (65366, [65334]); (65367, [65335]); (65368, [65336]); (65369, [65337]); (65370, [65338]);
   (66600, [66560]); (66601, [66561]); (66602, [66562]); (66603, [66563]); (66604, [66564]);
   (66605, [66565]); (66606, [66566]); (66607, [66567]); (66608, [66568]); (66609, [66569]);
   (66610, [66570]); (66611, [66571]); (66612, [66572]); (66613, [66573]); (66614, [66574]);
   (66615, [66575]); (66616, [66576]); (66617, [66577]); (66618, [66578]); (66619, [66579]);
   (66620, [66580]); (66621, [66581]); (66622, [66582]); (66623, [66583]); (66624, [66584]);
   (66625, [66585]); (66626, [66586]); (66627, [66587]); (66628, [66588]); (66629, [66589]);
   (66630, [66590]); (66631, [66591]); (66632, [66592]); (66633, [66593]); (66634, [66594]);
   (66635, [66595]); (66636, [66596]); (66637, [66597]); (66638, [66598]); (66639, [66599]);
   (66776, [66736]); (66777, [66737]); (66778, [66738]); (66779, [66739]); (66780, [66740]);
   (66781, [66741]); (66782, [66742]); (66783, [66743]); (66784, [66744]); (66785, [66745]);
   (66786, [66746]); (66787, [66747]); (66788, [66748]); (66789, [66749]); (66790, [66750]);
   (66791, [66751]); (66792, [66752]); (66793, [66753]); (66794, [66754]); (66795, [66755]);
   (66796, [66756]); (66797, [66757]); (66798, [66758]); (66799, [66759]); (66800, [66760]);
   (66801, [66761]); (66802, [66762]); (66803, [66763]); (66804, [66764]); (66805, [66765]);
   (66806, [66766]); (66807, [66767]); (66808, [66768]); (66809, [66769]); (66810, [66770]);
   (66811, [66771]); (66967, [66928]); (66968, [66929]); (66969, [66930]); (66970, [66931]);
   (66971, [66932]); (66972, [66933]); (66973, [66934]); (66974, [66935]); (66975, [66936]);
   (66976, [66937]); (66977, [66938]); (66979, [66940]); (66980, [66941]); (66981, [66942]);
   (66982, [66943]); (66983, [66944]); (66984, [66945]); (66985, [66946]); (66986, [66947]);
   (66987, [66948]); (66988, [66949]); (66989, [66950]); (66990, [66951]); (66991, [66952]);
   (66992, [66953]); (66993, [66954]); (66995, [66956]); (66996, [66957]); (66997, [66958]);
   (66998, [66959]); (66999, [66960]); (67000, [66961]); (67001, [66962]); (67003, [66964]);
   (67004, [66965]); (68800, [68736]); (68801, [68737]); (68802, [68738]); (68803, [68739]);
   (68804, [68740]); (68805, [68741]); (68806, [68742]); (68807, [68743]); (68808, [68744]);
   (68809, [68745]); (68810, [68746]); (68811, [68747]); (68812, [68748]); (68813, [68749]);
   (68814, [68750]); (68815, [68751]); (68816, [68752]); (68817, [68753]); (68818, [68754]);
   (68819, [68755]); (68820, [68756]); (68821, [68757]); (68822, [68758]); (68823, [68759]);
   (68824, [68760]); (68825, [68761]); (68826, [68762]); (68827, [68763]); (68828, [68764]);
   (68829, [68765]); (68830, [68766]); (68831, [68767]); (68832, [68768]); (68833, [68769]);
   (68834, [68770]); (68835, [68771]); (68836, [68772]); (68837, [68773]); (68838, [68774]);
   (68839, [68775]); (68840, [68776]); (68841, [68777]); (68842, [68778]); (68843, [68779]);
   (68844, [68780]); (68845, [68781]); (68846, [68782]); (68847, [68783]); (68848, [68784]);
   (68849, [68785]); (68850, [68786]); (71872, [71840]); (71873, [71841]); (71874, [71842]);
   (71875, [71843]); (71876, [71844]); (71877, [71845]); (71878, [71846]); (71879, [71847]);
   (71880, [71848]); (71881, [71849]); (71882, [71850]); (71883, [71851]); (71884, [71852]);
   (71885, [71853]); (71886, [71854]); (71887, [71855]); (71888, [71856]); (71889, [71857]);
   (71890, [71858]); (71891, [71859]); (71892, [71860]); (71893, [71861]); (71894, [71862]);
   (71895, [71863]); (71896, [71864]); (71897, [71865]); (71898, [71866]); (71899, [71867]);
   (71900, [71868]); (71901, [71869]); (71902, [71870]); (71903, [71871]); (93792, [93760]);
   (93793, [93761]); (93794, [93762]); (93795, [93763]); (93796, [93764]); (93797, [93765]);
   (93798, [93766]); (93799, [93767]); (93800, [93768]); (93801, [93769]); (93802, [93770]);
   (93803, [93771]); (93804, [93772]); (93805, [93773]); (93806, [93774]); (93807, [93775]);
   (93808, [93776]); (93809, [93777]); (93810, [93778]); (93811, [93779]); (93812, [93780]);
   (93813, [93781]); (93814, [93782]); (93815, [93783]); (93816, [93784]); (93817, [93785]);
   (93818, [93786]); (93819, [93787]); (93820, [93788]); (93821, [93789]); (93822, [93790]);
   (93823, [93791]); (125218, [125184]); (125219, [125185]); (125220, [125186]); (125221, [125187]);
   (125222, [125188]); (125223, [125189]); (125224, [125190]); (125225, [125191]); (125226, [125192]);
   (125227, [125193]); (125228, [125194]); (125229, [125195]); (125230, [125196]); (125231, [125197]);
   (125232, [125198]); (125233, [125199]); (125234, [125200]); (125235, [125201]); (125236, [125202]);
   (125237, [125203]); (125238, [125204]); (125239, [125205]); (125240, [125206]); (125241, [125207]);
   (125242, [125208]); (125243, [125209]); (125244, [125210]); (125245, [125211]); (125246, [125212]);
   (125247, [125213]); (125248, [125214]); (125249, [125215]); (125250, [125216]); (125251, [125217])]%N.

Definition upper_char (c : N) : list N :=
  match assoc c upper_table with
  | Some u => u
  | None => [c]
  end.

(** [s.upper()] *)
Definition upper (s : ustr) : ustr := flat_map upper_char s.

(** [parseDays] of [AutoCalendarV4.py] on such a string: the keys of
    [mapping] are the code points of M, T, W, R, F, S and U. *)
Definition mapping : list (N * string) :=
  [(77, "MO"); (84, "TU"); (87, "WE"); (82, "TH"); (70, "FR"); (83, "SA");
   (85, "SU")]%N.

Fixpoint decode_days (s : ustr) : list string :=
  match s with
  | [] => []
  | ch :: s' =>
      match assoc ch mapping with
      | Some v => v :: decode_days s'
      | None => decode_days s'
      end
  end.

Definition parseDays (daysStr : ustr) : list string :=
  decode_days (upper (strip daysStr)).

End Unicode.

(* ===================================================================== *)
(** ** Regular expressions: [re.split] and the matcher behind [strptime] *)
(* ===================================================================== *)

Module Re.
Import Py.

(** [re.split(r'\s{2,}', s)]: the separators are the maximal runs of two
    or more whitespace characters.  [inrun] says that the characters just
    before belong to a separator. *)
Fixpoint split_spaces_from (inrun : bool) (s : string) : list string :=
  match s with
  | EmptyString => [EmptyString]
  | String c s' =>
      if isspace c then
        if inrun then split_spaces_from true s'
        else
          match s' with
          | String d _ =>
              if isspace d then EmptyString :: split_spaces_from true s'
              else push c (split_spaces_from false s')
          | EmptyString => push c (split_spaces_from false s')
          end
      else push c (split_spaces_from false s')
  end.

Definition split_2spaces (s : string) : list string := split_spaces_from false s.

(** The fragment of regular expressions that [_strptime] builds for the
    directives and formats used here. *)
Inductive re : Type :=
| Eps                          (* the empty expression *)
| Lit (c : ascii)              (* a literal, matched ignoring case *)
| Digit                        (* \d *)
| Range (lo hi : ascii)        (* [lo-hi] *)
| Spaces                       (* \s+ *)
| Seq (r1 r2 : re)
| Alt (r1 r2 : re)
| Group (name : ascii) (r : re).   (* (?P<name>...) *)

Definition captures := list (ascii * string).

Fixpoint take (n : nat) (s : string) : string :=
  match n, s with
  | S k, String c s' => String c (take k s')
  | _, _ => EmptyString
  end.

Section Matcher.
Variable R : Type.

(** [\s+], greedy: the longest run first, then shorter ones. *)
Fixpoint match_spaces (s : string) (k : string -> option R) : option R :=
  match s with
  | String c s' =>
      if isspace c then
        match match_spaces s' k with
        | Some r => Some r
        | None => k s'
        end
      else None
  | EmptyString => None
  end.

(** A backtracking matcher in continuation style: alternatives are tried
    from the left, and the first way of matching the whole expression
    wins, as in [re.match]. *)
Fixpoint match_re (r : re) (s : string) (caps : captures)
         (k : string -> captures -> option R) : option R :=
  match r with
  | Eps => k s caps
  | Lit c =>
      match s with
      | String d s' =>
          if Ascii.eqb (lower_char c) (lower_char d) then k s' caps else None
      | EmptyString => None
      end
  | Digit =>
      match s with
      | String d s' => if isdigit d then k s' caps else None
      | EmptyString => None
      end
  | Range lo hi =>
      match s with
      | String d s' => if in_range (code lo) (code hi) d then k s' caps else None
      | EmptyString => None
      end
  | Spaces => match_spaces s (fun s' => k s' caps)
  | Seq r1 r2 => match_re r1 s caps (fun s' caps' => match_re r2 s' caps' k)
  | Alt r1 r2 =>
      match match_re r1 s caps k with
      | Some x => Some x
      | None => match_re r2 s caps k
      end
  | Group name r1 =>
      match_re r1 s caps
        (fun s' caps' =>
           k s' ((name, take (String.length s - String.length s') s) :: caps'))
  end.
End Matcher.

(** [pattern.match(s)]: the captures and the unmatched rest of [s]. *)
Definition rematch (r : re) (s : string) : option (captures * string) :=
  match_re _ r s [] (fun rest caps => Some (caps, rest)).

Fixpoint lookup (name : ascii) (caps : captures) : option string :=
  match caps with
  | [] => None
  | (n, v) :: rest => if Ascii.eqb n name then Some v else lookup name rest
  end.

(** A literal word, and a choice between expressions. *)
Fixpoint word (w : string) : re :=
  match w with
  | EmptyString => Eps
  | String c w' => Seq (Lit c) (word w')
  end.

Fixpoint alts (r : re) (rs : list re) : re :=
  match rs with
  | [] => r
  | r' :: rs' => Alt r (alts r' rs')
  end.

End Re.

(* ===================================================================== *)
(** ** [datetime]: dates, clock times, [strptime] and [strftime] *)
(* ===================================================================== *)

Module Datetime.
Import Py Re.

Definition MINYEAR : Z := 1.
Definition MAXYEAR : Z := 9999.

(** [date.max.toordinal()] *)
Definition MAXORDINAL : Z := 3652059.

Definition DAYS_IN_MONTH : list Z :=
  [-1; 31; 28; 31; 30; 31; 30; 31; 31; 30; 31; 30; 31].

Definition DAYS_BEFORE_MONTH : list Z :=
  [-1; 0; 31; 59; 90; 120; 151; 181; 212; 243; 273; 304; 334].

Definition table (t : list Z) (i : Z) : Z := nth (Z.to_nat i) t (-1).

Definition is_leap (year : Z) : bool :=
  (year mod 4 =? 0) && (negb (year mod 100 =? 0) || (year mod 400 =? 0)).

Definition days_before_year (year : Z) : Z :=
  let y := year - 1 in y * 365 + y / 4 - y / 100 + y / 400.

Definition days_in_month (year month : Z) : Z :=
  if (month =? 2) && is_leap year then 29 else table DAYS_IN_MONTH month.

Definition days_before_month (year month : Z) : Z :=
  table DAYS_BEFORE_MONTH month + (if (2 <? month) && is_leap year then 1 else 0).

Definition ymd2ord (year month day : Z) : Z :=
  days_before_year year + days_before_month year month + day.

Definition DI400Y : Z := days_before_year 401.
Definition DI100Y : Z := days_before_year 101.
Definition DI4Y : Z := days_before_year 5.

Definition ord2ymd (n0 : Z) : Z * Z * Z :=
  let n := n0 - 1 in
  let n400 := n / DI400Y in
  let n := n mod DI400Y in
  let year := n400 * 400 + 1 in
  let n100 := n / DI100Y in
  let n := n mod DI100Y in
  let n4 := n / DI4Y in
  let n := n mod DI4Y in
  let n1 := n / 365 in
  let n := n mod 365 in
  let year := year + n100 * 100 + n4 * 4 + n1 in
  if (n1 =? 4) || (n100 =? 4) then (year - 1, 12, 31)
  else
    let leapyear := (n1 =? 3) && (negb (n4 =? 24) || (n100 =? 3)) in
    let month := Z.shiftr (n + 50) 5 in
    let preceding :=
      table DAYS_BEFORE_MONTH month + (if (2 <? month) && leapyear then 1 else 0) in
    if n <? preceding then
      let month := month - 1 in
      let preceding :=
        preceding
        - (table DAYS_IN_MONTH month + (if (month =? 2) && leapyear then 1 else 0)) in
      (year, month, n - preceding + 1)
    else (year, month, n - preceding + 1).

(** A calendar date, held as its ordinal: 1 is 0001-01-01 and
    [MAXORDINAL] is 9999-12-31. *)
Record date : Type := mkDate { toordinal : Z }.

Definition valid_date (d : date) : Prop := 1 <= toordinal d <= MAXORDINAL.

Definition year_of (d : date) : Z := fst (fst (ord2ymd (toordinal d))).
Definition month_of (d : date) : Z := snd (fst (ord2ymd (toordinal d))).
Definition day_of (d : date) : Z := snd (ord2ymd (toordinal d)).

(** [date(year, month, day)], with the checks of the constructor. *)
Definition date_new (year month day : Z) : result date :=
  if negb ((MINYEAR <=? year) && (year <=? MAXYEAR)) then Raise ValueError
  else if negb ((1 <=? month) && (month <=? 12)) then Raise ValueError
  else if negb ((1 <=? day) && (day <=? days_in_month year month)) then Raise ValueError
  else Ok (mkDate (ymd2ord year month day)).

(** [d + timedelta(days=n)] *)
Definition add_days (d : date) (n : Z) : result date :=
  let o := toordinal d + n in
  if (0 <? o) && (o <=? MAXORDINAL) then Ok (mkDate o) else Raise OverflowError.

(** [d.weekday()]: Monday is 0, Sunday is 6. *)
Definition weekday (d : date) : Z := (toordinal d + 6) mod 7.

(** A [datetime.time] (here [clock]) and a [datetime.datetime]; [tzinfo]
    is the key of the attached zone, if any. *)
Record clock : Type := mkClock {
  t_hour : Z; t_minute : Z; t_second : Z; t_tzinfo : option string }.

Record datetime : Type := mkDatetime {
  dt_date : date; hour : Z; minute : Z; second : Z; tzinfo : option string }.

(** [dt.replace(tzinfo=tz)] *)
Definition replace_tzinfo (dt : datetime) (tz : string) : datetime :=
  mkDatetime (dt_date dt) (hour dt) (minute dt) (second dt) (Some tz).

(** [dt.date()], [dt.timetz()], [datetime.combine(d, t)] *)
Definition timetz (dt : datetime) : clock :=
  mkClock (hour dt) (minute dt) (second dt) (tzinfo dt).

Definition combine (d : date) (t : clock) : datetime :=
  mkDatetime d (t_hour t) (t_minute t) (t_second t) (t_tzinfo t).

(** [a < b] for two datetimes that carry the same [tzinfo]: the wall
    clock fields are compared, the zone plays no part. *)
Definition wall_seconds (dt : datetime) : Z :=
  ((toordinal (dt_date dt) * 24 + hour dt) * 60 + minute dt) * 60 + second dt.

Definition dt_ltb (a b : datetime) : bool := wall_seconds a <? wall_seconds b.

(** *** [strptime] *)

(** The expressions of [TimeRE] for the directives in use. *)
Definition directive (d : ascii) : option re :=
  let r19 := Range "1" "9" in
  if Ascii.eqb d "d" then
    Some (Group "d" (alts (Seq (Lit "3") (Range "0" "1"))
                          [Seq (Range "1" "2") Digit; Seq (Lit "0") r19; r19;
                           Seq (Lit " ") r19]))
  else if Ascii.eqb d "I" then
    Some (Group "I" (alts (Seq (Lit "1") (Range "0" "2")) [Seq (Lit "0") r19; r19]))
  else if Ascii.eqb d "m" then
    Some (Group "m" (alts (Seq (Lit "1") (Range "0" "2")) [Seq (Lit "0") r19; r19]))
  else if Ascii.eqb d "M" then
    Some (Group "M" (Alt (Seq (Range "0" "5") Digit) Digit))
  else if Ascii.eqb d "Y" then
    Some (Group "Y" (Seq Digit (Seq Digit (Seq Digit Digit))))
  else if Ascii.eqb d "b" then
    Some (Group "b" (alts (word "jan")
                          (map word ["feb"; "mar"; "apr"; "may"; "jun"; "jul";
                                     "aug"; "sep"; "oct"; "nov"; "dec"])))
  else if Ascii.eqb d "p" then
    Some (Group "p" (Alt (word "am") (word "pm")))
  else None.

(** [TimeRE.pattern]: a run of whitespace in the format becomes [\s+], a
    directive its expression, any other character a literal.  [None]
    stands for a bad or stray directive. *)
Fixpoint pattern_from (inspace : bool) (fmt : string) : option re :=
  match fmt with
  | EmptyString => Some Eps
  | String c rest =>
      if isspace c then
        if inspace then pattern_from true rest
        else option_map (Seq Spaces) (pattern_from true rest)
      else if Ascii.eqb c "%" then
        match rest with
        | EmptyString => None
        | String d rest' =>
            match directive d, pattern_from false rest' with
            | Some r, Some r' => Some (Seq r r')
            | _, _ => None
            end
        end
      else option_map (Seq (Lit c)) (pattern_from false rest)
  end.

Definition pattern (fmt : string) : option re := pattern_from false fmt.

(** [locale_time.a_month] and [locale_time.am_pm] *)
Definition a_month : list string :=
  [""; "jan"; "feb"; "mar"; "apr"; "may"; "jun"; "jul"; "aug"; "sep"; "oct";
   "nov"; "dec"].

Definition am_pm : list string := ["am"; "pm"].

Definition field (name : ascii) (caps : captures) (default : Z) : Z :=
  match lookup name caps with
  | Some v => int v
  | None => default
  end.

(** [datetime.strptime(data, fmt)] *)
Definition strptime (data fmt : string) : result datetime :=
  match pattern fmt with
  | None => Raise ValueError
  | Some r =>
      match rematch r data with
      | None => Raise ValueError                       (* does not match *)
      | Some (caps, String _ _) => Raise ValueError    (* unconverted data *)
      | Some (caps, EmptyString) =>
          let year := field "Y" caps 1900 in
          let day := field "d" caps 1 in
          let minute := field "M" caps 0 in
          (month <-
             match lookup "m" caps, lookup "b" caps with
             | Some v, _ => Ok (int v)
             | None, Some v => (i <- index a_month (lower v) ;; Ok (Z.of_nat i))
             | None, None => Ok 1
             end ;;
           let hour :=
             match lookup "I" caps with
             | None => 0
             | Some v =>
                 let h := int v in
                 let ampm := match lookup "p" caps with
                             | Some p => lower p
                             | None => ""
                             end in
                 if String.eqb ampm "" || String.eqb ampm (nth 0 am_pm "")
                 then (if h =? 12 then 0 else h)
                 else if String.eqb ampm (nth 1 am_pm "")
                 then (if h =? 12 then h else h + 12)
                 else h
             end in
           d <- date_new year month day ;;
           Ok (mkDatetime d hour minute 0 None))%result
      end
  end.

(** *** [strftime] *)

(** One directive of [strftime].  [pads_year] says whether the C library
    writes a year below 1000 on four digits (it does on Windows, macOS
    and from Python 3.13 on; older builds on glibc write it unpadded). *)
Definition strftime_field (pads_year : bool) (dt : datetime) (d : ascii) : string :=
  let dte := dt_date dt in
  if Ascii.eqb d "Y" then (if pads_year then pad4 (year_of dte) else unpadded (year_of dte))
  else if Ascii.eqb d "m" then pad2 (month_of dte)
  else if Ascii.eqb d "d" then pad2 (day_of dte)
  else if Ascii.eqb d "H" then pad2 (hour dt)
  else if Ascii.eqb d "M" then pad2 (minute dt)
  else if Ascii.eqb d "S" then pad2 (second dt)
  else String "%" (String d EmptyString).

(** [dt.strftime(fmt)] *)
Fixpoint strftime (pads_year : bool) (dt : datetime) (fmt : string) : string :=
  match fmt with
  | EmptyString => EmptyString
  | String c rest =>
      if Ascii.eqb c "%" then
        match rest with
        | EmptyString => "%"
        | String d rest' =>
            (strftime_field pads_year dt d ++ strftime pads_year dt rest')%string
        end
      else String c (strftime pads_year dt rest)
  end.

(** [d.strftime(fmt)] for a date: the clock fields are zero. *)
Definition date_strftime (pads_year : bool) (d : date) (fmt : string) : string :=
  strftime pads_year (mkDatetime d 0 0 0 None) fmt.

End Datetime.

(* ===================================================================== *)
(** ** [AutoCalendarV4.py] *)
(* ===================================================================== *)

Module AutoCalendarV4.
Import Py Re Datetime.

Definition TAB : string := String "009" EmptyString.
Definition NL : string := String "010" EmptyString.

(** Truth value of a [str]: false for the empty string only. *)
Definition truthy (s : string) : bool := negb (String.eqb s "").

(** *** Course parsing *)

Record Course : Type := mkCourse {
  className : string;
  instructor : string;
  meetingType : string;
  time : string;
  days : string;
  location : string;
  dateRange : string }.

(** [Course.__init__]; the instructor can be [None]. *)
Definition Course_init (className : string) (instructor : option string)
    (meetingType time days location dateRange : string) : Course :=
  {| className := className;
     instructor := match instructor with
                   | Some i => if truthy i then i else "TBA"
                   | None => "TBA"
                   end;
     meetingType := lower meetingType;
     time := time;
     days := days;
     location := if truthy location then location else "TBA";
     dateRange := dateRange |}.

(** The five schedule variables of a block:
    [timeVal], [days], [location], [dateRange], [meetingType]. *)
Record sched : Type := mkSched {
  s_timeVal : string;
  s_days : string;
  s_location : string;
  s_dateRange : string;
  s_meetingType : string }.

Definition sched_default : sched := mkSched "TBA" "TBA" "TBA" "TBA" "TBA".

Definition set_timeVal (v : string) (f : sched) : sched :=
  mkSched v (s_days f) (s_location f) (s_dateRange f) (s_meetingType f).
Definition set_days (v : string) (f : sched) : sched :=
  mkSched (s_timeVal f) v (s_location f) (s_dateRange f) (s_meetingType f).
Definition set_location (v : string) (f : sched) : sched :=
  mkSched (s_timeVal f) (s_days f) v (s_dateRange f) (s_meetingType f).
Definition set_dateRange (v : string) (f : sched) : sched :=
  mkSched (s_timeVal f) (s_days f) (s_location f) v (s_meetingType f).
Definition set_meetingType (v : string) (f : sched) : sched :=
  mkSched (s_timeVal f) (s_days f) (s_location f) (s_dateRange f) v.

(** The loop over the lines that looks for the instructor: the last line
    with the marker decides. *)
Definition find_instructor (lines : list string) : option string :=
  fold_left
    (fun instructor line =>
       if contains "Assigned Instructor:" line then
         let parts := split "Assigned Instructor:" line in
         Some (if (1 <? List.length parts)%nat then strip (nth 1 parts "") else "TBA")
       else instructor)
    lines None.

(** The loop that looks for the first line with the section marker. *)
Fixpoint find_scheduled (lines : list string) (i : nat) : option nat :=
  match lines with
  | [] => None
  | line :: rest =>
      if contains "Scheduled Meeting Times" line then Some i
      else find_scheduled rest (S i)
  end.

(** [data[headers.index(name)].strip()] *)
Definition column (headers data : list string) (name : string) : result string :=
  (i <- index headers name ;;
   v <- getitem data i ;;
   Ok (strip v))%result.

(** One assignment of the [try] block: when the right-hand side raises,
    the variables keep what the earlier assignments gave them. *)
Definition assign (c : result string) (set : string -> sched -> sched)
    (k : sched -> sched * option exn) (f : sched) : sched * option exn :=
  match c with
  | Ok v => k (set v f)
  | Raise e => (f, Some e)
  end.

(** The body of the [try]: the five assignments by header name. *)
Definition by_header (headers data : list string) : sched -> sched * option exn :=
  assign (column headers data "Time") set_timeVal
    (assign (column headers data "Days") set_days
       (assign (column headers data "Where") set_location
          (assign (column headers data "Date Range") set_dateRange
             (assign (column headers data "Schedule Type")
                     (fun v => set_meetingType (lower v))
                (fun f => (f, None)))))).

(** The fallback by position, written twice in the source (in the
    [except ValueError] branch and in the [else] branch). *)
Definition by_position (meetingInfoLine : string) (f : sched) : sched :=
  let parts := split_2spaces meetingInfoLine in
  if (7 <=? List.length parts)%nat then
    mkSched (strip (nth 1 parts "")) (strip (nth 2 parts ""))
            (strip (nth 3 parts "")) (strip (nth 4 parts ""))
            (lower (strip (nth 5 parts "")))
  else f.

(** The statement [if meetingInfoLine: ...]. *)
Definition extract (headerLine meetingInfoLine : option string) (f : sched)
    : result sched :=
  match meetingInfoLine with
  | None => Ok f
  | Some info =>
      if negb (truthy info) then Ok f
      else if contains TAB info then
        match headerLine with
        | None => Raise AttributeError
        | Some header =>
            let headers := split TAB header in
            let data := split TAB info in
            match by_header headers data f with
            | (f', None) => Ok f'
            | (f', Some ValueError) => Ok (by_position info f')
            | (_, Some e) => Raise e
            end
        end
      else Ok (by_position info f)
  end.

(** The body of the loop over the blocks: [None] for [continue]. *)
Definition parseBlock (block : string) : result (option Course) :=
  let lines := splitlines (strip block) in
  match lines with
  | [] => Ok None
  | line0 :: _ =>
      let className := strip line0 in
      let instructor := find_instructor lines in
      let scheduledIndex := find_scheduled lines 0 in
      let headerLine :=
        match scheduledIndex with
        | Some i => option_map strip (nth_error lines (i + 1))
        | None => None
        end in
      let meetingInfoLine :=
        match scheduledIndex with
        | Some i => option_map strip (nth_error lines (i + 2))
        | None => None
        end in
      (f <- extract headerLine meetingInfoLine sched_default ;;
       Ok (Some (Course_init className instructor (s_meetingType f) (s_timeVal f)
                             (s_days f) (s_location f) (s_dateRange f))))%result
  end.

Fixpoint parseBlocks (blocks : list string) (courses : list Course)
    : result (list Course) :=
  match blocks with
  | [] => Ok courses
  | block :: rest =>
      (c <- parseBlock block ;;
       parseBlocks rest (match c with
                         | Some course => courses ++ [course]
                         | None => courses
                         end))%result
  end.

Definition parseCourses (text : string) : result (list Course) :=
  parseBlocks (split (NL ++ NL) (strip text)) [].

(** *** Helpers of the ICS conversion *)

Definition mapping : list (ascii * string) :=
  [("M"%char, "MO"); ("T"%char, "TU"); ("W"%char, "WE"); ("R"%char, "TH");
   ("F"%char, "FR"); ("S"%char, "SA"); ("U"%char, "SU")].

(** The loop of [parseDays] over the characters. *)
Fixpoint decode_days (s : string) : list string :=
  match s with
  | EmptyString => []
  | String ch s' =>
      match lookup ch mapping with
      | Some v => v :: decode_days s'
      | None => decode_days s'
      end
  end.

Definition parseDays (daysStr : string) : list string :=
  decode_days (upper (strip daysStr)).

(** The loop of [parseDateRange] over the two formats: [ValueError] moves
    on to the next format. *)
Fixpoint try_formats (fmts : list string) (startStr endStr : string)
    : result (option date * option date) :=
  match fmts with
  | [] => Ok (None, None)
  | fmt :: rest =>
      match (s <- strptime startStr fmt ;;
             e <- strptime endStr fmt ;;
             Ok (dt_date s, dt_date e))%result with
      | Ok (startDate, endDate) => Ok (Some startDate, Some endDate)
      | Raise ValueError => try_formats rest startStr endStr
      | Raise e => Raise e
      end
  end.

(** The body of the outer [try] of [parseDateRange]; unpacking into two
    names raises [ValueError] unless the split gives two parts. *)
Definition parseDateRange_try (dateRangeStr : string)
    : result (option date * option date) :=
  match map strip (split "-" dateRangeStr) with
  | [startStr; endStr] => try_formats ["%m/%d/%Y"; "%b %d, %Y"] startStr endStr
  | _ => Raise ValueError
  end.

(** [parseDateRange], with its [except Exception]. *)
Definition parseDateRange (dateRangeStr : string) : option date * option date :=
  match parseDateRange_try dateRangeStr with
  | Ok r => r
  | Raise _ => (None, None)
  end.

Definition parseTimeRange_try (pads_year : bool) (timeStr : string)
    (eventDate : date) (tz : string) : result (option datetime * option datetime) :=
  match map (fun s => upper (strip s)) (split "-" timeStr) with
  | [startTimeStr; endTimeStr] =>
      let day := date_strftime pads_year eventDate "%m/%d/%Y" in
      (startDT <- strptime (day ++ " " ++ startTimeStr) "%m/%d/%Y %I:%M %p" ;;
       endDT <- strptime (day ++ " " ++ endTimeStr) "%m/%d/%Y %I:%M %p" ;;
       Ok (Some (replace_tzinfo startDT tz), Some (replace_tzinfo endDT tz)))%result
  | _ => Raise ValueError
  end.

(** [parseTimeRange], with its [except Exception]. *)
Definition parseTimeRange (pads_year : bool) (timeStr : string) (eventDate : date)
    (tz : string) : option datetime * option datetime :=
  match parseTimeRange_try pads_year timeStr eventDate tz with
  | Ok r => r
  | Raise _ => (None, None)
  end.

Definition weekdayMapping : list (string * Z) :=
  [("MO", 0); ("TU", 1); ("WE", 2); ("TH", 3); ("FR", 4); ("SA", 5); ("SU", 6)].

Fixpoint weekday_number (day : string) (m : list (string * Z)) : option Z :=
  match m with
  | [] => None
  | (k, v) :: rest => if String.eqb k day then Some v else weekday_number day rest
  end.

(** [[weekdayMapping[day] for day in bydayList if day in weekdayMapping]] *)
Fixpoint targetWeekdays (bydayList : list string) : list Z :=
  match bydayList with
  | [] => []
  | day :: rest =>
      match weekday_number day weekdayMapping with
      | Some n => n :: targetWeekdays rest
      | None => targetWeekdays rest
      end
  end.

Definition mem (n : Z) (l : list Z) : bool := existsb (Z.eqb n) l.

(** The loop [for _ in range(7)], with [n] rounds left. *)
Fixpoint scan (n : nat) (startDate current : date) (targets : list Z) : result date :=
  match n with
  | O => Ok startDate
  | S n' =>
      if mem (weekday current) targets then Ok current
      else (next <- add_days current 1 ;; scan n' startDate next targets)%result
  end.

Definition getFirstOccurrence (startDate : date) (bydayList : list string)
    : result date :=
  scan 7 startDate startDate (targetWeekdays bydayList).

Definition formatDateTime (pads_year : bool) (dt : datetime) : string :=
  strftime pads_year dt "%Y%m%dT%H%M%S".

Definition generateVTimezone (tzid : string) : string :=
  join NL
    ["BEGIN:VTIMEZONE";
     "TZID:" ++ tzid;
     "X-LIC-LOCATION:America/New_York";
     "BEGIN:DAYLIGHT";
     "TZOFFSETFROM:-0500";
     "TZOFFSETTO:-0400";
     "TZNAME:EDT";
     "DTSTART:19700308T020000";
     "RRULE:FREQ=YEARLY;BYMONTH=3;BYDAY=2SU";
     "END:DAYLIGHT";
     "BEGIN:STANDARD";
     "TZOFFSETFROM:-0400";
     "TZOFFSETTO:-0500";
     "TZNAME:EST";
     "DTSTART:19701101T020000";
     "RRULE:FREQ=YEARLY;BYMONTH=11;BYDAY=1SU";
     "END:STANDARD";
     "END:VTIMEZONE"]%string.

(** *** ICS generation *)

(** What [generateICS] takes from outside the program: how the C library
    pads years, the current time as [now.astimezone(nytz)] gives it, and
    the strings that the successive calls of [uuid.uuid4()] return. *)
Record env : Type := mkEnv {
  pads_year : bool;
  now_ny : datetime;
  uuid4 : nat -> string }.

(** Where the program runs.  [generateICS] begins with [ZoneInfo(tzid)],
    outside any [try]: where the time zone data base does not have the
    zone (no system data base and no [tzdata] package, as on a plain
    Windows installation) the call raises [ZoneInfoNotFoundError] and
    nothing else of the environment is looked at; where it has the zone,
    the rest of [generateICS] runs in an environment. *)
Inductive platform : Type :=
| NoZone
| Zone (E : env).

Coercion Zone : env >-> platform.

Definition tzid : string := "America/New_York".

Definition rrule_of (E : env) (untilDT : datetime) (bydayList : list string) : string :=
  ("FREQ=WEEKLY;UNTIL=" ++ formatDateTime (pads_year E) untilDT
   ++ ";BYDAY=" ++ join "," bydayList)%string.

(** The ten lines appended for a course that is not skipped. *)
Definition vevent (E : env) (course : Course) (uid : string)
    (startDT endDT untilDT : datetime) (bydayList : list string) : list string :=
  let dtStamp := formatDateTime (pads_year E) (now_ny E) in
  let description :=
    ("Type: " ++ capitalize (meetingType course) ++ "\nInstructor: "
     ++ instructor course)%string in
  ["BEGIN:VEVENT";
   "UID:" ++ uid;
   "DTSTAMP:" ++ dtStamp;
   "DTSTART;TZID=" ++ tzid ++ ":" ++ formatDateTime (pads_year E) startDT;
   "DTEND;TZID=" ++ tzid ++ ":" ++ formatDateTime (pads_year E) endDT;
   "RRULE:" ++ rrule_of E untilDT bydayList;
   "SUMMARY:" ++ className course;
   "DESCRIPTION:" ++ description;
   "LOCATION:" ++ location course;
   "END:VEVENT"]%string.

(** The body of the loop over the courses; [None] for [continue].  [n]
    counts the calls of [uuid.uuid4()] made so far. *)
Definition course_event (E : env) (n : nat) (course : Course)
    : result (option (list string)) :=
  if String.eqb (dateRange course) "TBA" || String.eqb (time course) "TBA"
     || String.eqb (days course) "TBA"
  then Ok None
  else
    match parseDateRange (dateRange course) with
    | (Some startDate, Some endDate) =>
        let bydayList := parseDays (days course) in
        match bydayList with
        | [] => Ok None
        | _ :: _ =>
            (firstOccurrenceDate <- getFirstOccurrence startDate bydayList ;;
             match parseTimeRange (pads_year E) (time course) firstOccurrenceDate tzid with
             | (Some startDT, Some endDT) =>
                 let untilDT :=
                   replace_tzinfo (combine endDate (timetz startDT)) tzid in
                 let uid := (uuid4 E n ++ "@coursecalendar")%string in
                 Ok (Some (vevent E course uid startDT endDT untilDT bydayList))
             | _ => Ok None
             end)%result
        end
    | _ => Ok None
    end.

Fixpoint events (E : env) (n : nat) (courses : list Course) (lines : list string)
    : result (list string) :=
  match courses with
  | [] => Ok lines
  | course :: rest =>
      (ev <- course_event E n course ;;
       match ev with
       | Some block => events E (S n) rest (lines ++ block)
       | None => events E n rest lines
       end)%result
  end.

(** The list [lines] at the end of [generateICS]. *)
Definition generateICS_lines (P : platform) (courses : list Course)
    (calendarName : string) : result (list string) :=
  match P with
  | NoZone => Raise ZoneInfoNotFoundError          (* nytz = ZoneInfo(tzid) *)
  | Zone E =>
      let lines :=
        ["BEGIN:VCALENDAR";
         "VERSION:2.0";
         "PRODID:-//Course ICS Converter//EN";
         "X-WR-CALNAME:" ++ calendarName;
         generateVTimezone tzid]%string in
      (lines <- events E 0 courses lines ;;
       Ok (lines ++ ["END:VCALENDAR"]))%result
  end.

Definition generateICS (P : platform) (courses : list Course) (calendarName : string)
    : result string :=
  (lines <- generateICS_lines P courses calendarName ;;
   Ok (join NL lines))%result.

End AutoCalendarV4.

(* ===================================================================== *)
(** ** The calendar behind the ordinals *)
(* ===================================================================== *)

Module Gregorian.
Import Datetime.

(** The end of [ord2ymd]: month and day from the offset [n] of a day in
    its year. *)
Definition month_day (leapyear : bool) (n : Z) : Z * Z :=
  let month := Z.shiftr (n + 50) 5 in
  let preceding :=
      table DAYS_BEFORE_MONTH month + (if (2 <? month) && leapyear then 1 else 0) in
  if n <? preceding then
    let month := month - 1 in
    let preceding :=
      preceding
      - (table DAYS_IN_MONTH month + (if (month =? 2) && leapyear then 1 else 0)) in
    (month, n - preceding + 1)
  else (month, n - preceding + 1).


(** Month lengths and offsets, by leap flag. *)
Definition days_in (leapyear : bool) (m : Z) : Z :=
  if (m =? 2) && leapyear then 29 else table DAYS_IN_MONTH m.

Definition days_before (leapyear : bool) (m : Z) : Z :=
  table DAYS_BEFORE_MONTH m + (if (2 <? m) && leapyear then 1 else 0).

(** The integers [lo], [lo + 1], ..., [n] of them. *)
Definition range (lo : Z) (n : nat) : list Z :=
  map (fun i => lo + Z.of_nat i) (seq 0 n).

(** Checks of [month_day] on one month and day, and on one offset. *)
Definition month_day_inverts (L : bool) (m d : Z) : bool :=
  let '(m', d') := month_day L (days_before L m + d - 1) in
  (m' =? m) && (d' =? d).

Definition day_of_year_inverts (L : bool) (n : Z) : bool :=
  let '(m, d) := month_day L n in
  (1 <=? m) && (m <=? 12) && (1 <=? d) && (d <=? days_in L m)
  && (days_before L m + d - 1 =? n).

End Gregorian.

(* ===================================================================== *)
(** ** The specification's wording, and sample inputs *)
(* ===================================================================== *)

Module Spec.
Import Py Re Datetime AutoCalendarV4.

(** Day-letter decoding as the specification words it: one letter, upper
    or lower case, stands for one weekday; anything else stands for none. *)
Definition letter_day (c : ascii) : option string :=
  if Ascii.eqb c "M" || Ascii.eqb c "m" then Some "MO"
  else if Ascii.eqb c "T" || Ascii.eqb c "t" then Some "TU"
  else if Ascii.eqb c "W" || Ascii.eqb c "w" then Some "WE"
  else if Ascii.eqb c "R" || Ascii.eqb c "r" then Some "TH"
  else if Ascii.eqb c "F" || Ascii.eqb c "f" then Some "FR"
  else if Ascii.eqb c "S" || Ascii.eqb c "s" then Some "SA"
  else if Ascii.eqb c "U" || Ascii.eqb c "u" then Some "SU"
  else None.

(** The sharp s, whose upper case is "SS". *)
Definition sharp_s : ascii := "223"%char.

(** The characters that give weekday tokens, by code point, and the
    tokens of each: the seven letters of the table in upper and in lower
    case, and the eleven characters whose upper case holds letters of
    the table. *)
Definition day_characters : list (N * list string) :=
  [(77, ["MO"]); (109, ["MO"]); (84, ["TU"]); (116, ["TU"]);
   (87, ["WE"]); (119, ["WE"]); (82, ["TH"]); (114, ["TH"]);
   (70, ["FR"]); (102, ["FR"]); (83, ["SA"]); (115, ["SA"]);
   (85, ["SU"]); (117, ["SU"]);
   (223, ["SA"; "SA"]);        (* sharp s, upper case SS *)
   (383, ["SA"]);              (* long s, upper case S *)
   (7831, ["TU"]);             (* t with diaeresis, upper case T and U+0308 *)
   (7832, ["WE"]);             (* w with ring above, upper case W and U+030A *)
   (64256, ["FR"; "FR"]);      (* ligature ff, upper case FF *)
   (64257, ["FR"]);            (* ligature fi, upper case FI *)
   (64258, ["FR"]);            (* ligature fl, upper case FL *)
   (64259, ["FR"; "FR"]);      (* ligature ffi, upper case FFI *)
   (64260, ["FR"; "FR"]);      (* ligature ffl, upper case FFL *)
   (64261, ["SA"; "TU"]);      (* ligature long s t, upper case ST *)
   (64262, ["SA"; "TU"])]%N.   (* ligature st, upper case ST *)

Definition char_days (c : N) : list string :=
  match Unicode.assoc c day_characters with
  | Some d => d
  | None => []
  end.

Definition same_days (a b : list string) : bool :=
  if list_eq_dec string_dec a b then true else false.

(** Date-range resolution as the specification words it: exactly two
    parts around "-", both under the same format, the numeric one first. *)
Definition parse_date (fmt s : string) : option date :=
  match strptime s fmt with
  | Ok dt => Some (dt_date dt)
  | Raise _ => None
  end.

Definition both_dates (fmt a b : string) : option (date * date) :=
  match parse_date fmt a, parse_date fmt b with
  | Some x, Some y => Some (x, y)
  | _, _ => None
  end.

Definition date_range (s : string) : option (date * date) :=
  match split "-" s with
  | [a; b] =>
      match both_dates "%m/%d/%Y" (strip a) (strip b) with
      | Some r => Some r
      | None => both_dates "%b %d, %Y" (strip a) (strip b)
      end
  | _ => None
  end.

(** The reasons for which the generator leaves a record out. *)
Definition skip_reason (pads : bool) (c : Course) : Prop :=
  dateRange c = "TBA" \/ time c = "TBA" \/ days c = "TBA"
  \/ parseDateRange (dateRange c) = (None, None)
  \/ parseDays (days c) = []
  \/ exists startDate endDate first,
       parseDateRange (dateRange c) = (Some startDate, Some endDate)
       /\ getFirstOccurrence startDate (parseDays (days c)) = Ok first
       /\ parseTimeRange pads (time c) first tzid = (None, None).

(** The resolved start date, when there is one, leaves room for the seven
    steps of the first-occurrence search before 9999-12-31. *)
Definition starts_early (c : Course) : Prop :=
  forall startDate endDate,
    parseDateRange (dateRange c) = (Some startDate, Some endDate) ->
    toordinal startDate + 7 <= MAXORDINAL.

(** The number of event blocks among some lines of the document. *)
Definition event_blocks (lines : list string) : nat :=
  count_occ string_dec lines "BEGIN:VEVENT".

(** What one record adds to the document. *)
Definition contribution (E : env) (c : Course) (block : list string) : Prop :=
  (skip_reason (pads_year E) c /\ block = [])
  \/ (~ skip_reason (pads_year E) c
      /\ event_blocks block = 1%nat
      /\ exists uid startDT endDT untilDT,
           block = vevent E c uid startDT endDT untilDT (parseDays (days c))).

(** Whether a contribution holds an event. *)
Definition emitted (block : list string) : bool :=
  match block with
  | [] => false
  | _ :: _ => true
  end.

(** The lines before the events. *)
Definition preamble (calendarName : string) : list string :=
  ["BEGIN:VCALENDAR"; "VERSION:2.0"; "PRODID:-//Course ICS Converter//EN";
   "X-WR-CALNAME:" ++ calendarName; generateVTimezone tzid]%string.

(** A calendar date followed by a clock time, in the layout
    YYYYMMDD "T" HHMMSS of [formatDateTime]. *)
Definition stamp (pads : bool) (d : date) (h m s : Z) : string :=
  ((if pads then pad4 (year_of d) else unpadded (year_of d))
   ++ pad2 (month_of d) ++ pad2 (day_of d) ++ "T"
   ++ pad2 h ++ pad2 m ++ pad2 s)%string.

(** The blocks of a text and the name each one gives. *)
Definition blocks_of (text : string) : list string :=
  filter (fun b => truthy (strip b)) (split (NL ++ NL) (strip text)).

Definition first_line (block : string) : string :=
  strip (hd "" (splitlines (strip block))).

End Spec.

Module Samples.
Import Py Re Datetime AutoCalendarV4.

Definition header_cells : list string :=
  ["Type"; "Time"; "Days"; "Where"; "Date Range"; "Schedule Type"; "Instructors"].

Definition block_of (name : string) (header data : list string) : string :=
  join NL [name; "Scheduled Meeting Times"; join TAB header; join TAB data].

(** A data row that stops after the time cell. *)
Definition short_row : string :=
  block_of "COMP 1005 A" header_cells ["Class"; "9:30 am - 10:45 am"].

(** A data row whose days cell is empty. *)
Definition empty_days : string :=
  block_of "COMP 1005 A" header_cells
    ["Class"; "9:30 am - 10:45 am"; ""; "Room 1"; "Jan 06, 2025 - Apr 08, 2025";
     "Lecture"; "Jane Doe"].

(** A header without the "Schedule Type" column. *)
Definition no_type_header : list string :=
  ["Type"; "Time"; "Days"; "Where"; "Date Range"; "Instructors"].

Definition no_type_row : string :=
  join TAB ["Class"; "9:30 am - 10:45 am"; "MWF"; "Room 1";
            "Jan 06, 2025 - Apr 08, 2025"; "Jane Doe"].

Definition no_type_column : string :=
  join NL ["COMP 1005 A"; "Scheduled Meeting Times"; join TAB no_type_header;
           no_type_row].

(** A well-formed weekly lecture followed by a block without schedule. *)
Definition lecture_row : list string :=
  ["Class"; "9:30 AM - 10:45 AM"; "MWF"; "Room 1"; "01/06/2025 - 04/08/2025";
   "Lecture"; "Jane Doe"].

Definition two_courses : string :=
  (join NL ["COMP 1005 A"; "Assigned Instructor: Jane Doe";
            "Scheduled Meeting Times"; join TAB header_cells; join TAB lecture_row]
   ++ NL ++ NL ++ "MATH 1007 B")%string.

(** Two blocks, the second with the short data row. *)
Definition two_blocks : string :=
  ("MATH 1007 B" ++ NL ++ NL ++ short_row)%string.

(** 2025-01-06, a Monday, and 2025-04-08. *)
Definition jan06 : date := mkDate 739257.
Definition apr08 : date := mkDate 739349.

(** 9999-12-31, a Friday. *)
Definition last_day : date := mkDate MAXORDINAL.

Definition overnight : Course :=
  mkCourse "ASTR 1001 A" "TBA" "lecture" "11:00 PM - 1:00 AM" "M" "TBA"
           "01/06/2025 - 04/08/2025".

Definition lecture : Course :=
  mkCourse "COMP 1005 A" "Jane Doe" "lecture" "9:30 AM - 10:45 AM" "MWF" "Room 1"
           "01/06/2025 - 04/08/2025".

Definition year_end : Course :=
  mkCourse "HIST 9999 Z" "TBA" "lecture" "9:30 AM - 10:45 AM" "M" "TBA"
           "12/31/9999 - 12/31/9999".

Definition sample_env : env :=
  mkEnv true (mkDatetime jan06 12 0 0 (Some tzid))
        (fun _ => "00000000-0000-4000-8000-000000000000").

End Samples.

(* ===================================================================== *)
(** ** [CalendarApp.py] and [app.py]: the form handlers *)
(* ===================================================================== *)

Module CalendarApp.
Import Py AutoCalendarV4.

Definition CR : string := String "013" EmptyString.

(** [s.replace(old, new)] for a non-empty [old]: the occurrences of [old]
    are taken from the left and do not overlap.  [skip] counts the
    characters of an occurrence that are still to be passed over. *)
Fixpoint replace_from (old new : string) (skip : nat) (s : string) : string :=
  match s with
  | EmptyString => EmptyString
  | String c s' =>
      match skip with
      | S k => replace_from old new k s'
      | O =>
          if startswith old s
          then (new ++ replace_from old new (String.length old - 1) s')%string
          else String c (replace_from old new 0 s')
      end
  end.

Definition replace (old new s : string) : string := replace_from old new 0 s.

(** The class [\w] of [re] on the code points below 256: digits, letters
    and the underscore of ASCII, and the letters and numbers of Latin-1. *)
Definition isword (c : ascii) : bool :=
  in_range 48 57 c || in_range 65 90 c || (code c =? 95) || in_range 97 122 c
  || (code c =? 170) || in_range 178 179 c || (code c =? 181)
  || in_range 185 186 c || in_range 188 190 c || in_range 192 214 c
  || in_range 216 246 c || in_range 248 255 c.

(** The class [[\w\.-]]. *)
Definition isnamechar (c : ascii) : bool :=
  isword c || Ascii.eqb c "." || Ascii.eqb c "-".

(** The expressions that make up [EMAIL_REGEX]. *)
Inductive pat : Type :=
| Plus (cls : ascii -> bool)   (* one or more characters of a class *)
| Chr (c : ascii)              (* a literal character *)
| Eos                          (* $ *)
| Then (p q : pat).

(** A class repeated, greedy: the longest run first, then shorter ones. *)
Fixpoint match_plus (cls : ascii -> bool) (s : string) (k : string -> bool) : bool :=
  match s with
  | String c s' => if cls c then match_plus cls s' k || k s' else false
  | EmptyString => false
  end.

(** [$] holds at the end of the string and before a last line feed. *)
Definition at_end (s : string) : bool :=
  String.eqb s "" || String.eqb s NL.

Fixpoint match_pat (p : pat) (s : string) (k : string -> bool) : bool :=
  match p with
  | Plus cls => match_plus cls s k
  | Chr c =>
      match s with
      | String d s' => Ascii.eqb c d && k s'
      | EmptyString => false
      end
  | Eos => at_end s && k s
  | Then p1 p2 => match_pat p1 s (fun rest => match_pat p2 rest k)
  end.

(** Whether [re.match(p, s)] finds a match. *)
Definition re_match (p : pat) (s : string) : bool := match_pat p s (fun _ => true).

Definition EMAIL_REGEX : pat :=
  Then (Plus isnamechar)
    (Then (Chr "@")
       (Then (Plus isnamechar) (Then (Chr ".") (Then (Plus isword) Eos)))).

(** The request as the handler reads it, and what the handler answers:
    the form page, with or without an error message, or the calendar as
    a download. *)
Record request : Type := mkRequest {
  method : string;
  form : list (string * string) }.

Inductive response : Type :=
| Page (error : option string)
| Download (body content_disposition content_type : string).

(** [request.form.get(key, default)] *)
Fixpoint form_get (fields : list (string * string)) (key default : string) : string :=
  match fields with
  | [] => default
  | (k, v) :: rest => if String.eqb k key then v else form_get rest key default
  end.

(** The part of both handlers that follows the check of the address. *)
Definition download (P : platform) (input_text : string) : result response :=
  (parsedCourses <- parseCourses input_text ;;
   icsContent <- generateICS P parsedCourses "Courses Calendar" ;;
   Ok (Download icsContent "attachment; filename=courses.ics" "text/calendar"))%result.

(** [index] of [CalendarApp.py].  [emails] is the content of the file
    [emails.txt], which the handler opens for appending; its content
    after the request comes back with the answer.  An exception that
    leaves the handler is the answer [Raise]. *)
Definition index (P : platform) (req : request) (emails : string)
    : result response * string :=
  if String.eqb (method req) "POST" then
    let user_email := strip (form_get (form req) "user_email" "") in
    let input_text := form_get (form req) "course_data" "" in
    let input_text := strip (replace (CR ++ NL) NL input_text) in
    if negb (re_match EMAIL_REGEX user_email) then
      (Ok (Page (Some "Please enter a valid email address.")), emails)
    else
      let emails := (emails ++ user_email ++ NL)%string in
      (download P input_text, emails)
  else (Ok (Page None), emails).

(** [index] of [app.py]: the same without the file of addresses. *)
Definition app_index (P : platform) (req : request) : result response :=
  if String.eqb (method req) "POST" then
    let user_email := strip (form_get (form req) "user_email" "") in
    let input_text :=
      strip (replace (CR ++ NL) NL (form_get (form req) "course_data" "")) in
    if negb (re_match EMAIL_REGEX user_email) then
      Ok (Page (Some "Please enter a valid email address."))
    else download P input_text
  else Ok (Page None).

End CalendarApp.

(* ===================================================================== *)
(** ** Notions for the further properties *)
(* ===================================================================== *)

Module Notions.
Import Py Re Datetime AutoCalendarV4 CalendarApp Spec Samples.

(** A string that [strip] leaves as it is. *)
Definition trimmed (s : string) : Prop := strip s = s.

(** A record whose fields are all trimmed and whose meeting type is in
    lower case. *)
Definition tidy (c : Course) : Prop :=
  trimmed (className c) /\ trimmed (instructor c) /\ trimmed (meetingType c)
  /\ trimmed (time c) /\ trimmed (days c) /\ trimmed (location c)
  /\ trimmed (dateRange c) /\ lower (meetingType c) = meetingType c.

Definition tidy_sched (f : sched) : Prop :=
  trimmed (s_timeVal f) /\ trimmed (s_days f) /\ trimmed (s_location f)
  /\ trimmed (s_dateRange f) /\ trimmed (s_meetingType f).

(** The seven weekday tokens of a recurrence rule. *)
Definition weekday_tokens : list string :=
  ["MO"; "TU"; "WE"; "TH"; "FR"; "SA"; "SU"].

(** The UID line of the event that takes the [k]-th identifier. *)
Definition uid_line (E : env) (k : nat) : string :=
  ("UID:" ++ uuid4 E k ++ "@coursecalendar")%string.

Definition uid_lines (lines : list string) : list string :=
  filter (startswith "UID:") lines.

(** A start date in the last seven days of the calendar. *)
Definition starts_late (c : Course) : Prop :=
  exists startDate endDate,
    parseDateRange (dateRange c) = (Some startDate, Some endDate)
    /\ MAXORDINAL < toordinal startDate + 7.

(** A text with a blank part only. *)
Definition blank_text : string := (" " ++ NL ++ TAB ++ NL ++ NL ++ " ")%string.

(** All the characters of a string are in a class. *)
Fixpoint all_chars (cls : ascii -> bool) (s : string) : bool :=
  match s with
  | EmptyString => true
  | String c s' => cls c && all_chars cls s'
  end.

(** The form local@domain.tld: three non-empty parts, the first two of
    word characters, dots and hyphens, the last of word characters. *)
Definition address_form (s : string) : Prop :=
  exists local domain tld,
    s = (local ++ "@" ++ domain ++ "." ++ tld)%string
    /\ local <> "" /\ domain <> "" /\ tld <> ""
    /\ all_chars isnamechar local = true
    /\ all_chars isnamechar domain = true
    /\ all_chars isword tld = true.

(** The file of addresses: one address per line, each line closed by a
    line feed. *)
Fixpoint log_of (addresses : list string) : string :=
  match addresses with
  | [] => EmptyString
  | a :: rest => (a ++ NL ++ log_of rest)%string
  end.

(** A line without a line feed in it. *)
Definition no_line_feed (line : string) : Prop :=
  all_chars (fun c => negb (Ascii.eqb c "010")) line = true.

(** A string without a given character in it. *)
Definition lacks (sep : ascii) (s : string) : Prop :=
  all_chars (fun c => negb (Ascii.eqb sep c)) s = true.

(** A line of text: no line boundary in it. *)
Definition one_line (s : string) : Prop :=
  all_chars (fun c => negb (islinebreak c)) s = true.

(** The expression that [strptime] builds for the format of
    [parseTimeRange], "%m/%d/%Y %I:%M %p", cut after the year. *)
Definition clock_re : re :=
  match pattern " %I:%M %p" with
  | Some r => r
  | None => Eps
  end.

Definition month_re : re :=
  match directive "m" with Some r => r | None => Eps end.

Definition day_re : re :=
  match directive "d" with Some r => r | None => Eps end.

Definition year_re : re :=
  match directive "Y" with Some r => r | None => Eps end.

Definition date_re (rest : re) : re :=
  Seq month_re (Seq (Lit "/") (Seq day_re (Seq (Lit "/") (Seq year_re rest)))).

Definition hour_re : re :=
  match directive "I" with Some r => r | None => Eps end.

Definition minute_re : re :=
  match directive "M" with Some r => r | None => Eps end.

Definition half_re : re :=
  match directive "p" with Some r => r | None => Eps end.

(** The fields of a clock time are in range. *)
Definition on_clock (dt : datetime) : Prop :=
  0 <= hour dt <= 23 /\ 0 <= minute dt <= 59 /\ second dt = 0.

(** The year as [strftime] writes it. *)
Definition year_text (pads : bool) (y : Z) : string :=
  if pads then pad4 y else unpadded y.

(** All the characters of a string are in a class, as a proposition. *)
Definition within (cls : ascii -> bool) (s : string) : Prop :=
  all_chars cls s = true.

(** A record whose fields hold no line boundary, and the same for the
    schedule variables of a block. *)
Definition single_line (c : Course) : Prop :=
  one_line (className c) /\ one_line (instructor c) /\ one_line (meetingType c)
  /\ one_line (time c) /\ one_line (days c) /\ one_line (location c)
  /\ one_line (dateRange c).

Definition line_sched (f : sched) : Prop :=
  one_line (s_timeVal f) /\ one_line (s_days f) /\ one_line (s_location f)
  /\ one_line (s_dateRange f) /\ one_line (s_meetingType f).

(** A record whose fields that [generateICS] writes out hold no line
    feed. *)
Definition unbroken (c : Course) : Prop :=
  no_line_feed (className c) /\ no_line_feed (instructor c)
  /\ no_line_feed (meetingType c) /\ no_line_feed (location c).

(** What the loop of [generateICS] does with a record: it adds a block
    of lines to the document, or nothing. *)
Definition emits (E : env) (c : Course) (block : list string) : Prop :=
  exists n,
    course_event E n c = Ok (match block with [] => None | _ :: _ => Some block end).

(** What a record adds to the document, as far as the recurrence rule
    goes. *)
Definition rrule_contribution (E : env) (c : Course) (block : list string) : Prop :=
  (skip_reason (pads_year E) c /\ block = [])
  \/ (~ skip_reason (pads_year E) c
      /\ exists startDate endDate first startDT endDT untilDT,
           parseDateRange (dateRange c) = (Some startDate, Some endDate)
           /\ getFirstOccurrence startDate (parseDays (days c)) = Ok first
           /\ parseTimeRange (pads_year E) (time c) first tzid
              = (Some startDT, Some endDT)
           /\ dt_date untilDT = endDate
           /\ timetz untilDT = timetz startDT
           /\ tzinfo untilDT = Some tzid
           /\ List.length block = 10%nat
           /\ nth 0 block "" = "BEGIN:VEVENT"
           /\ nth 5 block "" =
              ("RRULE:FREQ=WEEKLY;UNTIL=" ++ formatDateTime (pads_year E) untilDT
               ++ ";BYDAY=" ++ join "," (parseDays (days c)))%string
           /\ formatDateTime (pads_year E) untilDT
              = stamp (pads_year E) endDate (hour startDT) (minute startDT)
                      (second startDT)
           /\ nth 9 block "" = "END:VEVENT").

(** What a record adds to the document, as far as the day of the event
    goes. *)
Definition first_day_contribution (E : env) (c : Course) (block : list string) : Prop :=
  (skip_reason (pads_year E) c /\ block = [])
  \/ (~ skip_reason (pads_year E) c
      /\ exists startDate endDate startDT endDT k,
           parseDateRange (dateRange c) = (Some startDate, Some endDate)
           /\ 0 <= k < 7
           /\ getFirstOccurrence startDate (parseDays (days c))
              = Ok (mkDate (toordinal startDate + k))
           /\ parseTimeRange (pads_year E) (time c)
                (mkDate (toordinal startDate + k)) tzid
              = (Some startDT, Some endDT)
           /\ dt_date startDT = mkDate (toordinal startDate + k)
           /\ dt_date endDT = dt_date startDT
           /\ valid_date (dt_date startDT)
           /\ In (weekday (dt_date startDT)) (targetWeekdays (parseDays (days c)))
           /\ (forall j, 0 <= j < k ->
                 ~ In (weekday (mkDate (toordinal startDate + j)))
                      (targetWeekdays (parseDays (days c))))
           /\ List.length block = 10%nat
           /\ nth 0 block "" = "BEGIN:VEVENT"
           /\ nth 3 block "" =
              ("DTSTART;TZID=America/New_York:"
               ++ stamp (pads_year E) (dt_date startDT) (hour startDT)
                        (minute startDT) 0)%string
           /\ nth 4 block "" =
              ("DTEND;TZID=America/New_York:"
               ++ stamp (pads_year E) (dt_date startDT) (hour endDT)
                        (minute endDT) 0)%string
           /\ nth 9 block "" = "END:VEVENT").

(** Requests for the examples. *)
Definition post (user_email course_data : string) : request :=
  mkRequest "POST" [("user_email", user_email); ("course_data", course_data)].

End Notions.

(* ===================================================================== *)
(** ** Properties *)
(* ===================================================================== *)

Import Py Re Datetime AutoCalendarV4 Gregorian Spec Samples Notions.

(** Linear arithmetic with divisions by constants. *)
Ltac by_division := Z.div_mod_to_equations; lia.

(** Case analysis on the 256 characters. *)
Ltac each_char c :=
  destruct c as [[] [] [] [] [] [] [] []].

(** Evaluation of the closed table look-ups and comparisons of a goal. *)
Ltac eval_tables :=
  repeat match goal with
         | |- context [table ?t ?i] =>
             let v := eval vm_compute in (table t i) in
             change (table t i) with v
         | |- context [Z.eqb ?a ?b] =>
             let v := eval vm_compute in (Z.eqb a b) in
             change (Z.eqb a b) with v
         | |- context [Z.ltb ?a ?b] =>
             let v := eval vm_compute in (Z.ltb a b) in
             change (Z.ltb a b) with v
         end;
  cbn [andb].

(** *** Day-letter decoding *)

Lemma decode_days_app (a b : string) :
  decode_days (a ++ b) = decode_days a ++ decode_days b.
Proof.
  induction a as [|c a IH]; [reflexivity|].
  cbn [append decode_days].
  destruct (lookup c mapping); [cbn [app]|]; now rewrite IH.
Qed.

(** The characters of a string of any code points, one by one. *)
Lemma assoc_In (A : Type) (c : N) (t : list (N * A)) (v : A) :
  Unicode.assoc c t = Some v -> In (c, v) t.
Proof.
  induction t as [|[k w] t IH]; cbn [Unicode.assoc]; [discriminate|].
  destruct (N.eqb_spec k c) as [->|_].
  - intros [= <-]. now left.
  - intros H. right. now apply IH.
Qed.

Lemma same_days_eq (a b : list string) : same_days a b = true -> a = b.
Proof. unfold same_days. now destruct (list_eq_dec string_dec a b). Qed.

Lemma unicode_decode_app (a b : Unicode.ustr) :
  Unicode.decode_days (a ++ b) = Unicode.decode_days a ++ Unicode.decode_days b.
Proof.
  induction a as [|c a IH]; [reflexivity|].
  cbn [app Unicode.decode_days].
  destruct (Unicode.assoc c Unicode.mapping); cbn [app]; now rewrite IH.
Qed.

Ltac each_key H :=
  repeat (destruct H as [H|H]; [injection H as <- <-|]); [..|destruct H].

Lemma changed_char_days (c : N) (u : list N) :
  Unicode.assoc c Unicode.upper_table = Some u ->
  Unicode.decode_days u = char_days c.
Proof.
  intros H. apply assoc_In in H.
  assert (Hall : forallb (fun cu => same_days (Unicode.decode_days (snd cu))
                                              (char_days (fst cu)))
                         Unicode.upper_table = true) by (vm_compute; reflexivity).
  rewrite forallb_forall in Hall. apply same_days_eq. exact (Hall (c, u) H).
Qed.

Lemma unchanged_char_days (c : N) :
  Unicode.assoc c Unicode.upper_table = None ->
  Unicode.decode_days [c] = char_days c.
Proof.
  intros Hnone. unfold char_days.
  destruct (Unicode.assoc c day_characters) as [d|] eqn:Hd.
  - apply assoc_In in Hd. unfold day_characters in Hd. cbn [In] in Hd.
    each_key Hd; first [reflexivity | vm_compute in Hnone; discriminate Hnone].
  - cbn [Unicode.decode_days].
    destruct (Unicode.assoc c Unicode.mapping) as [v|] eqn:Hm; [|reflexivity].
    apply assoc_In in Hm. unfold Unicode.mapping in Hm. cbn [In] in Hm.
    each_key Hm; vm_compute in Hd; discriminate Hd.
Qed.

Lemma upper_char_days (c : N) :
  Unicode.decode_days (Unicode.upper_char c) = char_days c.
Proof.
  unfold Unicode.upper_char.
  destruct (Unicode.assoc c Unicode.upper_table) as [u|] eqn:H.
  - now apply changed_char_days.
  - now apply unchanged_char_days.
Qed.

Lemma upper_days (s : Unicode.ustr) :
  Unicode.decode_days (Unicode.upper s) = flat_map char_days s.
Proof.
  induction s as [|c s IH]; [reflexivity|].
  unfold Unicode.upper in *. cbn [flat_map].
  now rewrite unicode_decode_app, upper_char_days, IH.
Qed.

Lemma space_no_day (c : N) : Unicode.isspace c = true -> char_days c = [].
Proof.
  intros Hs. unfold char_days.
  destruct (Unicode.assoc c day_characters) as [d|] eqn:Hd; [|reflexivity].
  apply assoc_In in Hd. unfold day_characters in Hd. cbn [In] in Hd.
  each_key Hd; vm_compute in Hs; discriminate Hs.
Qed.

Lemma lstrip_days (s : Unicode.ustr) :
  flat_map char_days (Unicode.lstrip s) = flat_map char_days s.
Proof.
  induction s as [|c s IH]; [reflexivity|].
  cbn [Unicode.lstrip]. destruct (Unicode.isspace c) eqn:Hc; [|reflexivity].
  cbn [flat_map]. now rewrite IH, (space_no_day c Hc).
Qed.

Lemma rstrip_days (s : Unicode.ustr) :
  flat_map char_days (Unicode.rstrip s) = flat_map char_days s.
Proof.
  induction s as [|c s IH]; [reflexivity|].
  cbn [Unicode.rstrip flat_map]. rewrite <- IH.
  destruct (Unicode.rstrip s) as [|d r].
  - destruct (Unicode.isspace c) eqn:Hc.
    + now rewrite (space_no_day c Hc).
    + reflexivity.
  - reflexivity.
Qed.

Lemma unicode_parseDays_days (s : Unicode.ustr) :
  Unicode.parseDays s = flat_map char_days s.
Proof.
  unfold Unicode.parseDays, Unicode.strip.
  now rewrite upper_days, rstrip_days, lstrip_days.
Qed.

(** The strings of the model are strings of Python. *)
Lemma isspace_codes (c : ascii) : Unicode.isspace (N_of_ascii c) = isspace c.
Proof. each_char c; reflexivity. Qed.

Lemma lstrip_codes (s : string) :
  Unicode.lstrip (Unicode.codes s) = Unicode.codes (lstrip s).
Proof.
  induction s as [|c s IH]; [reflexivity|].
  change (Unicode.codes (String c s)) with (N_of_ascii c :: Unicode.codes s).
  cbn [Unicode.lstrip lstrip]. rewrite isspace_codes.
  destruct (isspace c); [exact IH|reflexivity].
Qed.

Lemma rstrip_codes (s : string) :
  Unicode.rstrip (Unicode.codes s) = Unicode.codes (rstrip s).
Proof.
  induction s as [|c s IH]; [reflexivity|].
  change (Unicode.codes (String c s)) with (N_of_ascii c :: Unicode.codes s).
  cbn [Unicode.rstrip rstrip]. rewrite IH, isspace_codes.
  destruct (rstrip s) as [|d r]; [destruct (isspace c)|]; reflexivity.
Qed.

Lemma decode_upper_codes (c : ascii) :
  Unicode.decode_days (Unicode.upper_char (N_of_ascii c))
  = decode_days (upper_char c).
Proof. each_char c; vm_compute; reflexivity. Qed.

Lemma decode_codes (s : string) :
  Unicode.decode_days (Unicode.upper (Unicode.codes s)) = decode_days (upper s).
Proof.
  induction s as [|c s IH]; [reflexivity|].
  change (Unicode.codes (String c s)) with (N_of_ascii c :: Unicode.codes s).
  unfold Unicode.upper in *. cbn [flat_map upper].
  now rewrite unicode_decode_app, decode_days_app, decode_upper_codes, IH.
Qed.

Lemma parseDays_codes (s : string) :
  parseDays s = Unicode.parseDays (Unicode.codes s).
Proof.
  unfold parseDays, Unicode.parseDays, Unicode.strip, strip.
  now rewrite lstrip_codes, rstrip_codes, decode_codes.
Qed.

(** The upper case of the model is that of Python but for the micro sign
    and the y with diaeresis, whose capitals lie beyond code point 255. *)
Lemma upper_char_codes (c : ascii) :
  c <> "181"%char -> c <> "255"%char ->
  Unicode.codes (upper_char c) = Unicode.upper_char (N_of_ascii c).
Proof.
  each_char c; intros H1 H2;
    first [ vm_compute; reflexivity
          | exfalso; apply H1; reflexivity
          | exfalso; apply H2; reflexivity ].
Qed.

(** C6 (amended). [parseDays] upper-cases its input with [str.upper()]
    and keeps the letters of the table, so it takes the characters of
    the input one by one, whatever their code points: a letter M, T, W,
    R, F, S or U, in upper or lower case, gives its weekday token; the
    eleven characters whose upper case holds letters of the table give
    the tokens of those letters (the sharp s gives two Saturday tokens);
    every other character gives nothing.  On the strings of the model
    this is the [parseDays] of the other modules.  "MWF" gives Monday,
    Wednesday, Friday; "TR" gives Tuesday, Thursday; "Z" and the empty
    string give nothing. *)
Theorem parseDays_by_character :
  (forall s : Unicode.ustr, Unicode.parseDays s = flat_map char_days s)
  /\ (forall s : string, parseDays s = Unicode.parseDays (Unicode.codes s))
  /\ parseDays "MWF" = ["MO"; "WE"; "FR"]
  /\ parseDays "TR" = ["TU"; "TH"]
  /\ parseDays "Z" = []
  /\ parseDays "" = [].
Proof.
  split; [exact unicode_parseDays_days|].
  split; [exact parseDays_codes|].
  repeat split; reflexivity.
Qed.

(** C6, the claim as it stands fails: the single character sharp s is
    not a letter of the table, yet it is not dropped. *)
Lemma parseDays_sharp_s :
  letter_day sharp_s = None
  /\ parseDays (String sharp_s EmptyString) = ["SA"; "SA"]
  /\ ~ (forall s, parseDays s =
          flat_map (fun c => match letter_day c with Some d => [d] | None => [] end)
                   (list_ascii_of_string s)).
Proof.
  split; [reflexivity|]. split; [reflexivity|].
  intros H. specialize (H (String sharp_s EmptyString)).
  vm_compute in H. discriminate H.
Qed.

(** *** Date-range resolution *)

Lemma index_raises (l : list string) (x : string) (e : exn) :
  index l x = Raise e -> e = ValueError.
Proof.
  induction l as [|y l IH]; simpl.
  - now intros [= <-].
  - destruct (String.eqb y x); [discriminate|].
    destruct (index l x); simpl; [discriminate|].
    intros [= <-]. now apply IH.
Qed.

Lemma date_new_raises (y m d : Z) (e : exn) :
  date_new y m d = Raise e -> e = ValueError.
Proof.
  unfold date_new.
  repeat match goal with
         | |- context [if ?b then _ else _] => destruct b
         end; congruence.
Qed.

Lemma strptime_raises (data fmt : string) (e : exn) :
  strptime data fmt = Raise e -> e = ValueError.
Proof.
  unfold strptime.
  destruct (pattern fmt) as [r|]; [|congruence].
  destruct (rematch r data) as [[caps [|c rest]]|]; try congruence.
  destruct (lookup "m" caps) as [v|]; [|destruct (lookup "b" caps) as [v|]];
    cbn [bind];
    repeat match goal with
           | |- context [index ?l ?x] => destruct (index l x) eqn:?; cbn [bind]
           | |- context [date_new ?a ?b ?c] =>
               destruct (date_new a b c) eqn:?; cbn [bind]
           end;
    try discriminate; intros [= <-];
    eauto using index_raises, date_new_raises.
Qed.

Lemma try_formats_both (a b : string) :
  try_formats ["%m/%d/%Y"; "%b %d, %Y"] a b =
  Ok match both_dates "%m/%d/%Y" a b with
     | Some (x, y) => (Some x, Some y)
     | None =>
         match both_dates "%b %d, %Y" a b with
         | Some (x, y) => (Some x, Some y)
         | None => (None, None)
         end
     end.
Proof.
  unfold try_formats, both_dates, parse_date.
  destruct (strptime a "%m/%d/%Y") as [s1|e1] eqn:Ha1; simpl.
  - destruct (strptime b "%m/%d/%Y") as [s2|e2] eqn:Hb1; simpl; [reflexivity|].
    rewrite (strptime_raises _ _ _ Hb1).
    destruct (strptime a "%b %d, %Y") as [s3|e3] eqn:Ha2; simpl.
    + destruct (strptime b "%b %d, %Y") as [s4|e4] eqn:Hb2; simpl; [reflexivity|].
      now rewrite (strptime_raises _ _ _ Hb2).
    + now rewrite (strptime_raises _ _ _ Ha2).
  - rewrite (strptime_raises _ _ _ Ha1).
    destruct (strptime a "%b %d, %Y") as [s3|e3] eqn:Ha2; simpl.
    + destruct (strptime b "%b %d, %Y") as [s4|e4] eqn:Hb2; simpl; [reflexivity|].
      now rewrite (strptime_raises _ _ _ Hb2).
    + now rewrite (strptime_raises _ _ _ Ha2).
Qed.

Lemma parseDateRange_date_range (s : string) :
  parseDateRange s =
  match date_range s with
  | Some (startDate, endDate) => (Some startDate, Some endDate)
  | None => (None, None)
  end.
Proof.
  unfold parseDateRange, parseDateRange_try, date_range.
  destruct (split "-" s) as [|a [|b [|c l]]]; simpl map; cbv iota; try reflexivity.
  rewrite try_formats_both.
  destruct (both_dates "%m/%d/%Y" (strip a) (strip b)) as [[x y]|]; reflexivity.
Qed.

(** C7. [parseDateRange] gives a pair of dates exactly when the string
    splits on "-" into two parts that both parse under the same format,
    the numeric format being tried before the month-name format; in every
    other case it gives the failure signal.  Inside, nothing but
    [ValueError] is ever raised, and [parseDateRange] lets none out.
    "01/06/2025 - 04/08/2025" and "Jan 06, 2025 - Apr 08, 2025" give
    2025-01-06 and 2025-04-08, and "garbage" gives the failure signal. *)
Theorem parseDateRange_two_formats :
  (forall s,
      parseDateRange s =
      match date_range s with
      | Some (startDate, endDate) => (Some startDate, Some endDate)
      | None => (None, None)
      end)
  /\ (forall s, parseDateRange_try s = Raise ValueError
                 \/ exists r, parseDateRange_try s = Ok r)
  /\ date_new 2025 1 6 = Ok jan06
  /\ date_new 2025 4 8 = Ok apr08
  /\ parseDateRange "01/06/2025 - 04/08/2025" = (Some jan06, Some apr08)
  /\ parseDateRange "Jan 06, 2025 - Apr 08, 2025" = (Some jan06, Some apr08)
  /\ parseDateRange "garbage" = (None, None).
Proof.
  split; [exact parseDateRange_date_range|split].
  - intros s. unfold parseDateRange_try.
    destruct (split "-" s) as [|a [|b [|c l]]]; simpl map; cbv iota;
      try (now left).
    rewrite try_formats_both. right. eexists. reflexivity.
  - repeat split; vm_compute; reflexivity.
Qed.

(** Dates that come out of the parsers are dates of the calendar. *)

Lemma days_before_year_bounds (y : Z) :
  1 <= y <= 9998 -> 0 <= days_before_year y <= 3651329.
Proof.
  intros Hy. unfold days_before_year. cbv zeta.
  pose proof (Z.div_mod (y - 1) 4 ltac:(lia)).
  pose proof (Z.mod_pos_bound (y - 1) 4 ltac:(lia)).
  pose proof (Z.div_mod (y - 1) 100 ltac:(lia)).
  pose proof (Z.mod_pos_bound (y - 1) 100 ltac:(lia)).
  pose proof (Z.div_mod (y - 1) 400 ltac:(lia)).
  pose proof (Z.mod_pos_bound (y - 1) 400 ltac:(lia)).
  lia.
Qed.

Lemma day_of_year_bounds (y m d : Z) :
  1 <= m <= 12 -> 1 <= d <= days_in_month y m ->
  1 <= days_before_month y m + d <= (if is_leap y then 366 else 365).
Proof.
  intros Hm. unfold days_before_month, days_in_month.
  assert (Hc : m = 1 \/ m = 2 \/ m = 3 \/ m = 4 \/ m = 5 \/ m = 6 \/ m = 7
               \/ m = 8 \/ m = 9 \/ m = 10 \/ m = 11 \/ m = 12) by lia.
  clear Hm.
  destruct (is_leap y);
    repeat (destruct Hc as [Hc|Hc]; [subst m; eval_tables; lia|]);
    subst m; eval_tables; lia.
Qed.

Lemma date_new_valid (y m d : Z) (dte : date) :
  date_new y m d = Ok dte -> valid_date dte.
Proof.
  unfold date_new, MINYEAR, MAXYEAR.
  destruct ((1 <=? y) && (y <=? 9999)) eqn:Hy; [|discriminate].
  destruct ((1 <=? m) && (m <=? 12)) eqn:Hm; [|discriminate].
  destruct ((1 <=? d) && (d <=? days_in_month y m)) eqn:Hd; [|discriminate].
  cbn [negb]. intros [= <-].
  apply andb_true_iff in Hy, Hm, Hd.
  rewrite !Z.leb_le in Hy, Hm, Hd.
  unfold valid_date, ymd2ord, MAXORDINAL. cbn [toordinal].
  pose proof (day_of_year_bounds y m d Hm Hd) as Hb.
  destruct (Z.eq_dec y 9999) as [->|Hne].
  - change (is_leap 9999) with false in Hb.
    change (days_before_year 9999) with 3651694. lia.
  - pose proof (days_before_year_bounds y ltac:(lia)).
    destruct (is_leap y); lia.
Qed.

Lemma strptime_valid (data fmt : string) (dt : datetime) :
  strptime data fmt = Ok dt -> valid_date (dt_date dt).
Proof.
  unfold strptime.
  destruct (pattern fmt) as [r|]; [|discriminate].
  destruct (rematch r data) as [[caps [|c rest]]|]; try discriminate.
  destruct (lookup "m" caps) as [v|]; [|destruct (lookup "b" caps) as [v|]];
    cbn [bind];
    repeat match goal with
           | |- context [index ?l ?x] => destruct (index l x) eqn:?; cbn [bind]
           | |- context [date_new ?a ?b ?c] =>
               destruct (date_new a b c) eqn:?; cbn [bind]
           end;
    try discriminate; intros [= <-]; cbn [dt_date];
    eauto using date_new_valid.
Qed.

Lemma parseDateRange_cases (s : string) :
  parseDateRange s = (None, None)
  \/ exists startDate endDate,
       parseDateRange s = (Some startDate, Some endDate)
       /\ valid_date startDate /\ valid_date endDate.
Proof.
  rewrite parseDateRange_date_range. unfold date_range.
  destruct (split "-" s) as [|a [|b [|c l]]]; try (now left).
  assert (Hb : forall fmt x y,
             both_dates fmt (strip a) (strip b) = Some (x, y) ->
             valid_date x /\ valid_date y).
  { intros fmt x y. unfold both_dates, parse_date.
    destruct (strptime (strip a) fmt) eqn:Ha; [|discriminate].
    destruct (strptime (strip b) fmt) eqn:Hb; [|discriminate].
    intros [= <- <-]. split; eapply strptime_valid; eassumption. }
  destruct (both_dates "%m/%d/%Y" (strip a) (strip b)) as [[x y]|] eqn:H1.
  - right. exists x, y. split; [reflexivity|]. eapply Hb; eassumption.
  - destruct (both_dates "%b %d, %Y" (strip a) (strip b)) as [[x y]|] eqn:H2.
    + right. exists x, y. split; [reflexivity|]. eapply Hb; eassumption.
    + now left.
Qed.

(** *** The calendar: ordinals and year, month, day

    Python keeps a date as year, month and day and goes to the ordinal
    and back; the model keeps the ordinal.  The two conversions are
    inverse to each other, so nothing is lost either way. *)

Lemma days_before_year_cycles (a b c e : Z) :
  0 <= b <= 3 -> 0 <= c <= 24 -> 0 <= e <= 3 ->
  days_before_year (400 * a + 100 * b + 4 * c + e + 1)
  = 146097 * a + 36524 * b + 1461 * c + 365 * e.
Proof.
  intros Hb Hc He. unfold days_before_year. cbv zeta.
  replace (400 * a + 100 * b + 4 * c + e + 1 - 1) with (400 * a + 100 * b + 4 * c + e) by lia.
  by_division.
Qed.

Lemma is_leap_cycles (a b c e : Z) :
  0 <= b <= 3 -> 0 <= c <= 24 -> 0 <= e <= 3 ->
  is_leap (400 * a + 100 * b + 4 * c + e + 1)
  = (e =? 3) && (negb (c =? 24) || (b =? 3)).
Proof.
  intros Hb Hc He. unfold is_leap.
  repeat match goal with
  | |- context [Z.eqb ?x ?y] => destruct (Z.eqb_spec x y)
  end; cbn; try reflexivity; exfalso; by_division.
Qed.

Lemma range_In (lo : Z) (n : nat) (x : Z) :
  lo <= x < lo + Z.of_nat n -> In x (range lo n).
Proof.
  intros H. unfold range. apply in_map_iff.
  exists (Z.to_nat (x - lo)). split; [lia|]. apply in_seq. lia.
Qed.

Lemma month_day_of (L : bool) (m d : Z) :
  1 <= m <= 12 -> 1 <= d <= days_in L m ->
  month_day L (days_before L m + d - 1) = (m, d).
Proof.
  intros Hm Hd.
  assert (Hall : forallb (fun L => forallb (fun m => forallb (fun d =>
             implb (d <=? days_in L m) (month_day_inverts L m d))
             (range 1 31)) (range 1 12)) [true; false] = true)
    by (vm_compute; reflexivity).
  rewrite forallb_forall in Hall.
  assert (HL : In L [true; false]) by (destruct L; simpl; tauto).
  specialize (Hall L HL). rewrite forallb_forall in Hall.
  specialize (Hall m (range_In 1 12 m ltac:(lia))).
  rewrite forallb_forall in Hall.
  assert (Hd31 : days_in L m <= 31).
  { unfold days_in. assert (Hc : m = 1 \/ m = 2 \/ m = 3 \/ m = 4 \/ m = 5 \/ m = 6 \/ m = 7
               \/ m = 8 \/ m = 9 \/ m = 10 \/ m = 11 \/ m = 12) by lia.
    destruct L; repeat (destruct Hc as [Hc|Hc]); subst m; vm_compute; discriminate. }
  specialize (Hall d (range_In 1 31 d ltac:(lia))).
  replace (d <=? days_in L m) with true in Hall by (symmetry; apply Z.leb_le; lia).
  cbn [implb] in Hall. unfold month_day_inverts in Hall.
  destruct (month_day L (days_before L m + d - 1)) as [m' d'].
  apply andb_true_iff in Hall. destruct Hall as [H1 H2].
  apply Z.eqb_eq in H1, H2. now subst.
Qed.

Lemma month_day_valid (L : bool) (n : Z) :
  0 <= n <= 364 + (if L then 1 else 0) ->
  let '(m, d) := month_day L n in
  1 <= m <= 12 /\ 1 <= d <= days_in L m /\ days_before L m + d - 1 = n.
Proof.
  intros Hn.
  assert (Hall : forallb (fun L : bool => forallb (fun n =>
             implb (n <=? 364 + (if L then 1 else 0)) (day_of_year_inverts L n))
             (range 0 366)) [true; false] = true)
    by (vm_compute; reflexivity).
  rewrite forallb_forall in Hall.
  assert (HL : In L [true; false]) by (destruct L; simpl; tauto).
  specialize (Hall L HL). rewrite forallb_forall in Hall.
  assert (Hr : 0 <= n < 0 + Z.of_nat 366) by (destruct L; lia).
  specialize (Hall n (range_In 0 366 n Hr)).
  replace (n <=? 364 + (if L then 1 else 0)) with true in Hall
    by (symmetry; apply Z.leb_le; lia).
  cbn [implb] in Hall. unfold day_of_year_inverts in Hall.
  destruct (month_day L n) as [m d].
  rewrite !andb_true_iff, !Z.leb_le, Z.eqb_eq in Hall. lia.
Qed.

Lemma ord2ymd_cycles (a b c e k : Z) :
  0 <= b <= 3 -> 0 <= c <= 24 -> 0 <= e <= 3 ->
  let L := (e =? 3) && (negb (c =? 24) || (b =? 3)) in
  0 <= k <= 364 + (if L then 1 else 0) ->
  ord2ymd (146097 * a + 36524 * b + 1461 * c + 365 * e + k + 1)
  = (400 * a + 100 * b + 4 * c + e + 1, fst (month_day L k), snd (month_day L k)).
Proof.
  intros Hb Hc He L Hk.
  assert (HL : L = true -> e = 3 /\ (c <> 24 \/ b = 3)).
  { unfold L. destruct (Z.eqb_spec e 3), (Z.eqb_spec c 24), (Z.eqb_spec b 3);
      cbn; intros; try discriminate; lia. }
  assert (Hk' : k = 365 -> L = true) by (destruct L; [reflexivity|lia]).
  unfold ord2ymd. cbv zeta.
  change DI400Y with 146097. change DI100Y with 36524. change DI4Y with 1461.
  remember (146097 * a + 36524 * b + 1461 * c + 365 * e + k + 1 - 1) as n eqn:Hn.
  assert (Hk365 : k <= 365) by (destruct L; lia).
  assert (E1 : n / 146097 = a).
  { destruct (Z.eq_dec k 365) as [K|K]; [destruct (HL (Hk' K))|]; subst n; by_division. }
  assert (E2 : n mod 146097 = 36524 * b + 1461 * c + 365 * e + k).
  { destruct (Z.eq_dec k 365) as [K|K]; [destruct (HL (Hk' K))|]; subst n; by_division. }
  rewrite E1, E2. clear E1 E2 Hn n.
  remember (36524 * b + 1461 * c + 365 * e + k) as r eqn:Hr.
  destruct (Z.eq_dec k 365) as [K|K].
  - destruct (HL (Hk' K)) as [He3 Hcb]. rewrite (Hk' K).
    clear Hk Hk' HL. clear L. subst e k.
    change (month_day true 365) with (12, 31). cbn [fst snd].
    destruct (Z.eq_dec c 24) as [C|C].
    + assert (b = 3) by lia. subst b c.
      replace (r / 36524) with 4 by (subst r; by_division).
      replace (r mod 36524) with 0 by (subst r; by_division).
      change (0 / 1461) with 0. change (0 mod 1461) with 0.
      change (0 / 365) with 0. change ((0 =? 4) || (4 =? 4)) with true.
      cbv iota. f_equal. f_equal. lia.
    + replace (r / 36524) with b by (subst r; by_division).
      replace (r mod 36524) with (1461 * c + 1460) by (subst r; by_division).
      replace ((1461 * c + 1460) / 1461) with c by by_division.
      replace ((1461 * c + 1460) mod 1461) with 1460 by by_division.
      change (1460 / 365) with 4. change (4 =? 4) with true.
      cbn [orb]. f_equal. f_equal. lia.
  - replace (r / 36524) with b by (subst r; destruct L; by_division).
    replace (r mod 36524) with (1461 * c + 365 * e + k)
      by (subst r; destruct L; by_division).
    replace ((1461 * c + 365 * e + k) / 1461) with c by (destruct L; by_division).
    replace ((1461 * c + 365 * e + k) mod 1461) with (365 * e + k)
      by (destruct L; by_division).
    replace ((365 * e + k) / 365) with e by (destruct L; by_division).
    replace ((365 * e + k) mod 365) with k by (destruct L; by_division).
    replace (e =? 4) with false by (symmetry; apply Z.eqb_neq; lia).
    replace (b =? 4) with false by (symmetry; apply Z.eqb_neq; lia).
    cbn [orb]. fold L. unfold month_day. cbv zeta.
    match goal with
    | |- context [if ?t <? ?u then _ else _] => destruct (t <? u)
    end; cbn [fst snd]; f_equal; f_equal; lia.
Qed.

Lemma ord2ymd_ymd2ord (y m d : Z) :
  1 <= m <= 12 -> 1 <= d <= days_in_month y m ->
  ord2ymd (ymd2ord y m d) = (y, m, d).
Proof.
  intros Hm Hd.
  pose proof (day_of_year_bounds y m d Hm Hd) as Hdoy.
  set (a := (y - 1) / 400). set (b := (y - 1) mod 400 / 100).
  set (c := (y - 1) mod 100 / 4). set (e := (y - 1) mod 4).
  assert (Hy : y = 400 * a + 100 * b + 4 * c + e + 1) by (subst a b c e; by_division).
  assert (Hb : 0 <= b <= 3) by (subst b; by_division).
  assert (Hc : 0 <= c <= 24) by (subst c; by_division).
  assert (He : 0 <= e <= 3) by (subst e; by_division).
  clearbody a b c e.
  pose proof (is_leap_cycles a b c e Hb Hc He) as HL.
  pose proof (days_before_year_cycles a b c e Hb Hc He) as HY.
  rewrite <- Hy in HL, HY.
  unfold ymd2ord. rewrite HY.
  change (days_before_month y m) with (days_before (is_leap y) m) in *.
  change (days_in_month y m) with (days_in (is_leap y) m) in Hd.
  replace (146097 * a + 36524 * b + 1461 * c + 365 * e + days_before (is_leap y) m + d)
    with (146097 * a + 36524 * b + 1461 * c + 365 * e
          + (days_before (is_leap y) m + d - 1) + 1) by lia.
  rewrite ord2ymd_cycles; try assumption.
  - rewrite <- HL, <- Hy, month_day_of; [reflexivity|assumption|assumption].
  - rewrite <- HL. destruct (is_leap y); lia.
Qed.

Lemma ymd2ord_ord2ymd (o : Z) :
  let '(y, m, d) := ord2ymd o in
  1 <= m <= 12 /\ 1 <= d <= days_in_month y m /\ ymd2ord y m d = o.
Proof.
  set (a := (o - 1) / 146097). set (r := (o - 1) mod 146097).
  set (q100 := r / 36524). set (r2 := r mod 36524).
  set (c' := r2 / 1461). set (r3 := r2 mod 1461).
  set (q1 := r3 / 365). set (k' := r3 mod 365).
  set (b := if q100 =? 4 then 3 else q100).
  set (c := if q100 =? 4 then 24 else c').
  set (e := if (q100 =? 4) || (q1 =? 4) then 3 else q1).
  set (k := if (q100 =? 4) || (q1 =? 4) then 365 else k').
  assert (Hb : 0 <= b <= 3)
    by (subst b q100 r; destruct (Z.eqb_spec (((o - 1) mod 146097) / 36524) 4); by_division).
  assert (Hc : 0 <= c <= 24)
    by (subst c c' r2 q100 r; destruct (Z.eqb_spec (((o - 1) mod 146097) / 36524) 4);
        by_division).
  assert (He : 0 <= e <= 3).
  { subst e q1 r3 r2 q100 r.
    destruct (Z.eqb_spec (((o - 1) mod 146097) / 36524) 4); cbn [orb]; [lia|].
    match goal with |- context [?x =? 4] => destruct (Z.eqb_spec x 4) end;
      [lia|by_division]. }
  assert (Ho : o = 146097 * a + 36524 * b + 1461 * c + 365 * e + k + 1).
  { subst a b c e k k' q1 r3 c' r2 q100 r.
    destruct (Z.eqb_spec (((o - 1) mod 146097) / 36524) 4); cbn [orb]; [by_division|].
    match goal with |- context [?x =? 4] => destruct (Z.eqb_spec x 4) end;
      by_division. }
  assert (Hk : 0 <= k <= 364 + (if (e =? 3) && (negb (c =? 24) || (b =? 3)) then 1 else 0)).
  { subst a b c e k k' q1 r3 c' r2 q100 r.
    destruct (Z.eqb_spec (((o - 1) mod 146097) / 36524) 4); cbn [orb].
    - cbn. lia.
    - match goal with |- context [?x =? 4] => destruct (Z.eqb_spec x 4) end.
      + change (3 =? 3) with true. cbn [andb].
        match goal with |- context [?x =? 24] => destruct (Z.eqb_spec x 24) end;
          cbn [negb orb]; [|lia].
        match goal with |- context [?x =? 3] => destruct (Z.eqb_spec x 3) end;
          [lia|exfalso; by_division].
      + match goal with |- context [if ?t then _ else _] => destruct t end;
          by_division. }
  clearbody a b c e k. clear r q100 r2 c' r3 q1 k'.
  pose proof (ord2ymd_cycles a b c e k Hb Hc He Hk) as E.
  cbv zeta in E. rewrite <- Ho in E. rewrite E. clear E.
  pose proof (month_day_valid _ k Hk) as Hmd.
  destruct (month_day _ k) as [m d]. cbn [fst snd].
  destruct Hmd as [Hm [Hd Hkk]].
  unfold ymd2ord, days_in_month, days_before_month.
  rewrite (is_leap_cycles a b c e Hb Hc He), (days_before_year_cycles a b c e Hb Hc He).
  fold (days_in ((e =? 3) && (negb (c =? 24) || (b =? 3))) m).
  fold (days_before ((e =? 3) && (negb (c =? 24) || (b =? 3))) m).
  repeat split; try lia.
Qed.

(** What [date(y, m, d)] was built from is what it shows. *)
Lemma date_new_fields (y m d : Z) (dte : date) :
  date_new y m d = Ok dte ->
  year_of dte = y /\ month_of dte = m /\ day_of dte = d.
Proof.
  unfold date_new.
  destruct (negb _); [discriminate|].
  destruct (negb ((1 <=? m) && (m <=? 12))) eqn:Hm; [discriminate|].
  destruct (negb ((1 <=? d) && (d <=? days_in_month y m))) eqn:Hd; [discriminate|].
  intros [= <-]. apply negb_false_iff, andb_true_iff in Hm, Hd.
  rewrite !Z.leb_le in Hm, Hd.
  unfold year_of, month_of, day_of. cbn [toordinal].
  rewrite (ord2ymd_ymd2ord y m d Hm Hd). repeat split.
Qed.

(** Every date of the calendar is the date of its year, month and day;
    so [weekday] and [add_days], computed on the ordinal, are those of
    Python, computed from year, month and day. *)
Lemma date_new_of_fields (dte : date) :
  valid_date dte ->
  date_new (year_of dte) (month_of dte) (day_of dte) = Ok dte.
Proof.
  destruct dte as [o]. unfold valid_date, year_of, month_of, day_of, MAXORDINAL.
  cbn [toordinal]. intros Ho.
  pose proof (ymd2ord_ord2ymd o) as H.
  destruct (ord2ymd o) as [[y m] d]. cbn [fst snd].
  destruct H as [Hm [Hd Hord]].
  pose proof (day_of_year_bounds y m d Hm Hd) as Hdoy.
  assert (Hy : 1 <= y <= 9999).
  { unfold ymd2ord, days_before_year in Hord. cbv zeta in Hord.
    destruct (is_leap y); by_division. }
  unfold date_new, MINYEAR, MAXYEAR.
  replace ((1 <=? y) && (y <=? 9999)) with true
    by (symmetry; apply andb_true_iff; rewrite !Z.leb_le; lia).
  replace ((1 <=? m) && (m <=? 12)) with true
    by (symmetry; apply andb_true_iff; rewrite !Z.leb_le; lia).
  replace ((1 <=? d) && (d <=? days_in_month y m)) with true
    by (symmetry; apply andb_true_iff; rewrite !Z.leb_le; lia).
  cbn [negb]. now rewrite Hord.
Qed.

(** *** First-occurrence search *)

Lemma mem_In (n : Z) (l : list Z) : mem n l = true <-> In n l.
Proof.
  unfold mem. rewrite existsb_exists. split.
  - intros [x [Hx Heq]]. apply Z.eqb_eq in Heq. now subst.
  - intros H. exists n. split; [assumption|apply Z.eqb_refl].
Qed.

Lemma mem_not_In (n : Z) (l : list Z) : mem n l = false <-> ~ In n l.
Proof.
  rewrite <- mem_In. destruct (mem n l); split; congruence.
Qed.

Lemma weekday_number_range (day : string) (n : Z) :
  weekday_number day weekdayMapping = Some n -> 0 <= n <= 6.
Proof.
  unfold weekdayMapping, weekday_number.
  repeat match goal with
         | |- context [String.eqb ?a ?b] => destruct (String.eqb a b)
         end; intros [= <-]; lia.
Qed.


Lemma targetWeekdays_range (l : list string) (t : Z) :
  In t (targetWeekdays l) -> 0 <= t <= 6.
Proof.
  induction l as [|day l IH]; cbn [targetWeekdays]; [intros []|].
  destruct (weekday_number day weekdayMapping) as [n|] eqn:Hn; [|exact IH].
  intros [<-|H]; [eapply weekday_number_range; eassumption|now apply IH].
Qed.


Lemma scan_first_match (n : nat) (startDate current : date) (targets : list Z) :
  1 <= toordinal current ->
  toordinal current + Z.of_nat n <= MAXORDINAL ->
  (exists k, 0 <= k < Z.of_nat n
     /\ scan n startDate current targets = Ok (mkDate (toordinal current + k))
     /\ mem (weekday (mkDate (toordinal current + k))) targets = true
     /\ forall j, 0 <= j < k ->
          mem (weekday (mkDate (toordinal current + j))) targets = false)
  \/ (scan n startDate current targets = Ok startDate
      /\ forall j, 0 <= j < Z.of_nat n ->
           mem (weekday (mkDate (toordinal current + j))) targets = false).
Proof.
  revert current. induction n as [|n IH]; intros [o] Hlo Hhi; cbn [toordinal] in *.
  - right. split; [reflexivity|]. intros j Hj. lia.
  - cbn [scan]. destruct (mem (weekday (mkDate o)) targets) eqn:Hm.
    + left. exists 0. rewrite Z.add_0_r. repeat split; try lia; assumption.
    + unfold add_days. cbn [toordinal].
      replace ((0 <? o + 1) && (o + 1 <=? MAXORDINAL)) with true
        by (symmetry; apply andb_true_iff; split;
            [apply Z.ltb_lt|apply Z.leb_le]; lia).
      cbn [bind].
      destruct (IH (mkDate (o + 1))) as [[k [Hk [Hs [Hin Hbefore]]]]|[Hs Hnone]];
        cbn [toordinal] in *; try lia.
      * left. exists (k + 1). replace (o + (k + 1)) with (o + 1 + k) by lia.
        repeat split; try lia; try assumption.
        intros j Hj. destruct (Z.eq_dec j 0) as [->|Hj0].
        -- now rewrite Z.add_0_r.
        -- replace (o + j) with (o + 1 + (j - 1)) by lia. apply Hbefore. lia.
      * right. split; [assumption|]. intros j Hj.
        destruct (Z.eq_dec j 0) as [->|Hj0].
        -- now rewrite Z.add_0_r.
        -- replace (o + j) with (o + 1 + (j - 1)) by lia. apply Hnone. lia.
Qed.

(** Seven days in a row show every weekday. *)
Lemma week_covers (o t : Z) :
  0 <= t <= 6 -> exists j, 0 <= j < 7 /\ weekday (mkDate (o + j)) = t.
Proof.
  intros Ht. exists ((t - (o + 6)) mod 7). split.
  - apply Z.mod_pos_bound. lia.
  - unfold weekday. cbn [toordinal].
    rewrite <- Z.add_assoc, (Z.add_comm _ 6), Z.add_assoc.
    rewrite Zplus_mod_idemp_r.
    replace (o + 6 + (t - (o + 6))) with t by lia.
    apply Z.mod_small. lia.
Qed.




(** The example of the specification: from a Wednesday, Monday is five
    days on and Wednesday is the day itself. *)
Lemma getFirstOccurrence_from_wednesday :
  weekday (mkDate 739259) = 2
  /\ getFirstOccurrence (mkDate 739259) ["MO"] = Ok (mkDate (739259 + 5))
  /\ getFirstOccurrence (mkDate 739259) ["WE"] = Ok (mkDate 739259).
Proof. repeat split; vm_compute; reflexivity. Qed.

(** *** The generator *)

Lemma formatDateTime_stamp (pads : bool) (dt : datetime) :
  formatDateTime pads dt =
  stamp pads (dt_date dt) (hour dt) (minute dt) (second dt).
Proof. destruct pads; reflexivity. Qed.

Lemma parseTimeRange_cases (pads : bool) (timeStr : string) (eventDate : date)
    (tz : string) :
  parseTimeRange pads timeStr eventDate tz = (None, None)
  \/ exists startDT endDT,
       parseTimeRange pads timeStr eventDate tz = (Some startDT, Some endDT)
       /\ tzinfo startDT = Some tz /\ tzinfo endDT = Some tz.
Proof.
  unfold parseTimeRange, parseTimeRange_try.
  destruct (map _ (split "-" timeStr)) as [|a [|b [|c l]]]; try (now left).
  match goal with
  | |- context [bind (strptime ?d ?f)] => destruct (strptime d f) as [s|]
  end; cbn [bind]; [|now left].
  match goal with
  | |- context [bind (strptime ?d ?f)] => destruct (strptime d f) as [e|]
  end; cbn [bind]; [|now left].
  right. eexists _, _. repeat split.
Qed.

Lemma getFirstOccurrence_returns (startDate : date) (bydayList : list string) :
  valid_date startDate ->
  toordinal startDate + 7 <= MAXORDINAL ->
  exists first, getFirstOccurrence startDate bydayList = Ok first.
Proof.
  intros [Hlo _] Hhi.
  destruct (scan_first_match 7 startDate startDate (targetWeekdays bydayList) Hlo Hhi)
    as [[k [_ [Hs _]]]|[Hs _]]; eexists; exact Hs.
Qed.

(** What a record that is not skipped has gone through. *)
Lemma course_event_emits (E : env) (n : nat) (c : Course) (block : list string) :
  course_event E n c = Ok (Some block) ->
  exists startDate endDate first startDT endDT,
    dateRange c <> "TBA" /\ time c <> "TBA" /\ days c <> "TBA"
    /\ parseDateRange (dateRange c) = (Some startDate, Some endDate)
    /\ parseDays (days c) <> []
    /\ getFirstOccurrence startDate (parseDays (days c)) = Ok first
    /\ parseTimeRange (pads_year E) (time c) first tzid = (Some startDT, Some endDT)
    /\ block = vevent E c (uuid4 E n ++ "@coursecalendar") startDT endDT
                      (mkDatetime endDate (hour startDT) (minute startDT)
                                  (second startDT) (Some tzid))
                      (parseDays (days c)).
Proof.
  unfold course_event.
  destruct (String.eqb_spec (dateRange c) "TBA") as [|H1]; [discriminate|].
  destruct (String.eqb_spec (time c) "TBA") as [|H2]; [discriminate|].
  destruct (String.eqb_spec (days c) "TBA") as [|H3]; [discriminate|].
  cbn [orb].
  destruct (parseDateRange (dateRange c)) as [[startDate|] [endDate|]];
    try discriminate.
  destruct (parseDays (days c)) as [|d l] eqn:Hd; [discriminate|].
  destruct (getFirstOccurrence startDate (d :: l)) as [first|] eqn:Hf;
    cbn [bind]; [|discriminate].
  destruct (parseTimeRange (pads_year E) (time c) first tzid)
    as [[startDT|] [endDT|]] eqn:Ht; try discriminate.
  intros [= <-].
  exists startDate, endDate, first, startDT, endDT.
  repeat split; try assumption; discriminate.
Qed.

Lemma course_event_skips (E : env) (n : nat) (c : Course) :
  course_event E n c = Ok None -> skip_reason (pads_year E) c.
Proof.
  unfold course_event, skip_reason.
  destruct (String.eqb_spec (dateRange c) "TBA") as [|H1]; [tauto|].
  destruct (String.eqb_spec (time c) "TBA") as [|H2]; [tauto|].
  destruct (String.eqb_spec (days c) "TBA") as [|H3]; [tauto|].
  cbn [orb].
  destruct (parseDateRange_cases (dateRange c)) as [->|[sd [ed [-> _]]]]; [tauto|].
  destruct (parseDays (days c)) as [|d l] eqn:Hd; [tauto|].
  destruct (getFirstOccurrence sd (d :: l)) as [first|] eqn:Hf;
    cbn [bind]; [|discriminate].
  destruct (parseTimeRange_cases (pads_year E) (time c) first tzid)
    as [Ht|[s [e [Ht _]]]]; rewrite Ht; [|discriminate].
  intros _. do 5 right. exists sd, ed, first. repeat split; assumption.
Qed.

Lemma skip_reason_skips (E : env) (n : nat) (c : Course) :
  skip_reason (pads_year E) c -> course_event E n c = Ok None.
Proof.
  unfold course_event.
  intros [->|[->|[->|[H|[H|[sd [ed [first [Hr [Hf Ht]]]]]]]]]];
    try rewrite String.eqb_refl; try rewrite !orb_true_r; try reflexivity.
  - destruct (_ || _); [reflexivity|]. now rewrite H.
  - destruct (_ || _); [reflexivity|]. rewrite H.
    destruct (parseDateRange _) as [[?|] [?|]]; reflexivity.
  - destruct (_ || _); [reflexivity|]. rewrite Hr.
    destruct (parseDays (days c)); [reflexivity|].
    rewrite Hf. cbn [bind]. now rewrite Ht.
Qed.

Lemma course_event_returns (E : env) (n : nat) (c : Course) :
  starts_early c -> exists r, course_event E n c = Ok r.
Proof.
  intros Hearly. unfold course_event.
  destruct (_ || _); [eexists; reflexivity|].
  destruct (parseDateRange_cases (dateRange c)) as [Hr|[sd [ed [Hr [Hv _]]]]];
    rewrite Hr; [eexists; reflexivity|].
  destruct (parseDays (days c)) as [|d l]; [eexists; reflexivity|].
  destruct (getFirstOccurrence_returns sd (d :: l) Hv (Hearly sd ed Hr))
    as [first ->].
  cbn [bind].
  destruct (parseTimeRange _ _ _ _) as [[?|] [?|]]; eexists; reflexivity.
Qed.

Lemma vevent_one_block (E : env) (c : Course) (uid : string)
    (startDT endDT untilDT : datetime) (bydayList : list string) :
  event_blocks (vevent E c uid startDT endDT untilDT bydayList) = 1%nat.
Proof.
  unfold event_blocks, vevent.
  rewrite count_occ_cons_eq by reflexivity.
  do 9 (rewrite count_occ_cons_neq
          by (let H := fresh in intros H; cbn [append] in H; discriminate H)).
  reflexivity.
Qed.

Lemma course_event_contribution (E : env) (n : nat) (c : Course) :
  starts_early c ->
  exists block,
    contribution E c block
    /\ course_event E n c = Ok (match block with [] => None | _ => Some block end).
Proof.
  intros Hearly.
  destruct (course_event_returns E n c Hearly) as [[block|] Hr].
  - exists block. split.
    + right. split; [|split].
      * intros Hs. rewrite (skip_reason_skips E n c Hs) in Hr. discriminate.
      * destruct (course_event_emits E n c block Hr)
          as (sd & ed & f & s & e & _ & _ & _ & _ & _ & _ & _ & ->).
        apply vevent_one_block.
      * destruct (course_event_emits E n c block Hr)
          as (sd & ed & f & s & e & _ & _ & _ & _ & _ & _ & _ & ->).
        eexists _, _, _, _. reflexivity.
    + rewrite Hr.
      destruct (course_event_emits E n c block Hr)
        as (sd & ed & f & s & e & _ & _ & _ & _ & _ & _ & _ & ->).
      reflexivity.
  - exists []. split; [|exact Hr].
    left. split; [|reflexivity]. eapply course_event_skips; eassumption.
Qed.

Lemma events_contributions (E : env) (courses : list Course) :
  Forall starts_early courses ->
  forall n lines,
  exists blocks,
    Forall2 (contribution E) courses blocks
    /\ events E n courses lines = Ok (lines ++ List.concat blocks).
Proof.
  induction 1 as [|c courses Hc _ IH]; intros n lines.
  - exists []. split; [constructor|]. cbn. now rewrite app_nil_r.
  - destruct (course_event_contribution E n c Hc) as [block [Hcontrib Hev]].
    cbn [events]. rewrite Hev. cbn [bind].
    destruct block as [|l0 block].
    + destruct (IH n lines) as [blocks [HF Hrest]].
      exists ([] :: blocks). split; [now constructor|].
      rewrite Hrest. reflexivity.
    + destruct (IH (S n) (lines ++ l0 :: block)) as [blocks [HF Hrest]].
      exists ((l0 :: block) :: blocks). split; [now constructor|].
      rewrite Hrest. cbn [List.concat]. now rewrite app_assoc.
Qed.

Lemma event_blocks_app (a b : list string) :
  event_blocks (a ++ b) = (event_blocks a + event_blocks b)%nat.
Proof. apply count_occ_app. Qed.

Lemma event_blocks_preamble (calendarName : string) :
  event_blocks (preamble calendarName) = 0%nat.
Proof.
  unfold event_blocks, preamble.
  do 4 (rewrite count_occ_cons_neq
          by (let H := fresh in intros H; cbn [append] in H; discriminate H)).
  rewrite count_occ_cons_neq by (vm_compute; discriminate).
  reflexivity.
Qed.

Lemma event_blocks_contributions (E : env) (courses : list Course)
    (blocks : list (list string)) :
  Forall2 (contribution E) courses blocks ->
  event_blocks (List.concat blocks) = List.length (filter emitted blocks).
Proof.
  induction 1 as [|c block courses blocks Hc _ IH]; [reflexivity|].
  cbn [List.concat filter]. rewrite event_blocks_app, IH.
  destruct Hc as [[_ ->]|[_ [Hone [uid [s [e [u ->]]]]]]]; [reflexivity|].
  rewrite Hone. reflexivity.
Qed.

Lemma course_event_resolved (E : env) (n : nat) (c : Course)
    (startDate endDate first : date) (startDT endDT : datetime) :
  dateRange c <> "TBA" -> time c <> "TBA" -> days c <> "TBA" ->
  parseDateRange (dateRange c) = (Some startDate, Some endDate) ->
  parseDays (days c) <> [] ->
  getFirstOccurrence startDate (parseDays (days c)) = Ok first ->
  parseTimeRange (pads_year E) (time c) first tzid = (Some startDT, Some endDT) ->
  course_event E n c =
  Ok (Some (vevent E c (uuid4 E n ++ "@coursecalendar") startDT endDT
                   (mkDatetime endDate (hour startDT) (minute startDT)
                               (second startDT) (Some tzid))
                   (parseDays (days c)))).
Proof.
  intros H1 H2 H3 Hr Hd Hf Ht. unfold course_event.
  destruct (String.eqb_spec (dateRange c) "TBA") as [|_]; [contradiction|].
  destruct (String.eqb_spec (time c) "TBA") as [|_]; [contradiction|].
  destruct (String.eqb_spec (days c) "TBA") as [|_]; [contradiction|].
  cbn [orb]. rewrite Hr.
  destruct (parseDays (days c)) as [|d l]; [contradiction|].
  rewrite Hf. cbn [bind]. rewrite Ht. reflexivity.
Qed.

(** The skip policy where it holds.  Take records whose resolved start
    date, when the date range resolves, is no later than 9999-12-24.
    [generateICS] raises nothing on them, and its document is the
    preamble, then what each record contributes, in input order, then
    the closing line.  A record contributes nothing exactly when one of
    [dateRange], [time], [days] is the sentinel, or the date range does
    not resolve, or no weekday is decoded, or the time range does not
    resolve at the first occurrence; every other record contributes one
    event block. *)
Lemma generateICS_skip_policy (E : env) (courses : list Course)
    (calendarName : string) :
  Forall starts_early courses ->
  exists blocks,
    Forall2 (contribution E) courses blocks
    /\ generateICS_lines E courses calendarName =
       Ok (preamble calendarName ++ List.concat blocks ++ ["END:VCALENDAR"])
    /\ generateICS E courses calendarName =
       Ok (join NL (preamble calendarName ++ List.concat blocks ++ ["END:VCALENDAR"]))
    /\ event_blocks (preamble calendarName ++ List.concat blocks ++ ["END:VCALENDAR"])
       = List.length (filter emitted blocks).
Proof.
  intros Hearly.
  destruct (events_contributions E courses Hearly 0%nat (preamble calendarName))
    as [blocks [HF Hev]].
  assert (Hlines : generateICS_lines E courses calendarName =
                   Ok (preamble calendarName ++ List.concat blocks ++ ["END:VCALENDAR"])).
  { unfold generateICS_lines. fold (preamble calendarName).
    rewrite Hev. cbn [bind]. now rewrite <- app_assoc. }
  exists blocks. split; [exact HF|]. split; [exact Hlines|]. split.
  - unfold generateICS. rewrite Hlines. reflexivity.
  - rewrite !event_blocks_app, event_blocks_preamble.
    rewrite (event_blocks_contributions E courses blocks HF).
    cbn. lia.
Qed.

(** C2. A record that the generator can neither skip nor turn into an
    event.  The record [year_end] has no sentinel field, its date range
    resolves to 9999-12-31, a Friday, its days decode to Monday and its
    time range resolves; no reason to skip it holds.  The search for the
    first Monday steps past the last date, outside any [try], and
    [generateICS] raises [OverflowError]: the record is not left out in
    silence, and the event of a record given along with it, which alone
    gives a document, is lost with the whole document. *)
Theorem generateICS_year_end_raises :
  dateRange year_end <> "TBA" /\ time year_end <> "TBA" /\ days year_end <> "TBA"
  /\ parseDateRange (dateRange year_end) = (Some last_day, Some last_day)
  /\ parseDays (days year_end) = ["MO"]
  /\ (exists startDT endDT,
        parseTimeRange (pads_year sample_env) (time year_end) last_day tzid
        = (Some startDT, Some endDT))
  /\ ~ skip_reason (pads_year sample_env) year_end
  /\ getFirstOccurrence last_day (parseDays (days year_end)) = Raise OverflowError
  /\ generateICS sample_env [year_end] "Courses Calendar" = Raise OverflowError
  /\ ~ skip_reason (pads_year sample_env) lecture
  /\ starts_early lecture
  /\ (exists doc, generateICS sample_env [lecture] "Courses Calendar" = Ok doc)
  /\ generateICS sample_env [lecture; year_end] "Courses Calendar"
     = Raise OverflowError.
Proof.
  assert (Hr : parseDateRange (dateRange year_end) = (Some last_day, Some last_day))
    by (vm_compute; reflexivity).
  assert (Hf : getFirstOccurrence last_day (parseDays (days year_end))
               = Raise OverflowError) by (vm_compute; reflexivity).
  do 3 (split; [discriminate|]). split; [exact Hr|]. split; [reflexivity|].
  split; [eexists _, _; vm_compute; reflexivity|].
  split.
  { intros [H|[H|[H|[H|[H|(sd & ed & first & Hr' & Hf' & _)]]]]];
      try (vm_compute in H; discriminate H).
    rewrite Hr in Hr'. injection Hr' as <- _. rewrite Hf in Hf'. discriminate Hf'. }
  split; [exact Hf|]. split; [vm_compute; reflexivity|].
  split.
  { intros Hs. pose proof (skip_reason_skips sample_env 0 lecture Hs) as H.
    vm_compute in H. discriminate H. }
  split.
  { intros sd ed H. vm_compute in H. injection H as <- _. vm_compute. discriminate. }
  split; [eexists; vm_compute; reflexivity|].
  vm_compute. reflexivity.
Qed.

(** The recurrence rule of the block that the loop builds for a record
    that is not skipped. *)
Lemma course_event_rrule (E : env) (n : nat) (c : Course) (block : list string) :
  course_event E n c = Ok (Some block) ->
  exists startDate endDate first startDT endDT untilDT,
    parseDateRange (dateRange c) = (Some startDate, Some endDate)
    /\ getFirstOccurrence startDate (parseDays (days c)) = Ok first
    /\ parseTimeRange (pads_year E) (time c) first tzid = (Some startDT, Some endDT)
    /\ dt_date untilDT = endDate
    /\ timetz untilDT = timetz startDT
    /\ tzinfo untilDT = Some tzid
    /\ block = vevent E c (uuid4 E n ++ "@coursecalendar") startDT endDT untilDT
                      (parseDays (days c))
    /\ nth 5 block "" =
       ("RRULE:FREQ=WEEKLY;UNTIL="
        ++ stamp (pads_year E) endDate (hour startDT) (minute startDT) (second startDT)
        ++ ";BYDAY=" ++ join "," (parseDays (days c)))%string.
Proof.
  intros H.
  destruct (course_event_emits E n c block H)
    as (sd & ed & first & s & e & _ & _ & _ & Hr & _ & Hf & Ht & ->).
  destruct (parseTimeRange_cases (pads_year E) (time c) first tzid)
    as [Hn|[s' [e' [Ht' [Hz _]]]]]; [congruence|].
  assert (s' = s) by congruence. subst s'.
  exists sd, ed, first, s, e,
    (mkDatetime ed (hour s) (minute s) (second s) (Some tzid)).
  split; [exact Hr|]. split; [exact Hf|]. split; [exact Ht|].
  split; [reflexivity|]. split.
  { unfold timetz. cbn [hour minute second tzinfo]. now rewrite Hz. }
  split; [reflexivity|]. split; [reflexivity|].
  cbn [vevent nth]. unfold rrule_of. now rewrite formatDateTime_stamp.
Qed.

(** The document, record by record: what [generateICS] returns is the
    preamble, the blocks that the loop added for the records, in input
    order, and the closing line, joined by line feeds. *)
Lemma events_blocks (E : env) (courses : list Course) :
  forall n lines0 lines,
    events E n courses lines0 = Ok lines ->
    exists blocks,
      Forall2 (emits E) courses blocks
      /\ lines = lines0 ++ List.concat blocks.
Proof.
  induction courses as [|c courses IH]; intros n lines0 lines; cbn [events].
  - intros [= <-]. exists []. split; [constructor|]. cbn. now rewrite app_nil_r.
  - destruct (course_event E n c) as [[block|]|e] eqn:Hc; cbn [bind];
      [| |discriminate].
    + intros H. destruct (IH _ _ _ H) as (blocks & HF & ->).
      exists (block :: blocks). split.
      * constructor; [|exact HF]. exists n.
        destruct (course_event_emits E n c block Hc)
          as (sd & ed & f & s & e & _ & _ & _ & _ & _ & _ & _ & Hb).
        rewrite Hc, Hb. reflexivity.
      * cbn [List.concat]. now rewrite app_assoc.
    + intros H. destruct (IH _ _ _ H) as (blocks & HF & ->).
      exists ([] :: blocks). split; [|reflexivity].
      constructor; [|exact HF]. exists n. exact Hc.
Qed.

Lemma generateICS_blocks (E : env) (courses : list Course) (calendarName doc : string) :
  generateICS E courses calendarName = Ok doc ->
  exists blocks,
    Forall2 (emits E) courses blocks
    /\ doc = join NL (preamble calendarName ++ List.concat blocks ++ ["END:VCALENDAR"]).
Proof.
  unfold generateICS, generateICS_lines. fold (preamble calendarName).
  destruct (events E 0 courses (preamble calendarName)) as [lines|e] eqn:Hev;
    cbn [bind]; [|discriminate].
  intros [= <-]. destruct (events_blocks E courses _ _ _ Hev) as (blocks & HF & ->).
  exists blocks. split; [exact HF|]. now rewrite <- app_assoc.
Qed.

Lemma emits_skip_or_event (E : env) (c : Course) (block : list string) :
  emits E c block ->
  (skip_reason (pads_year E) c /\ block = [])
  \/ (~ skip_reason (pads_year E) c
      /\ exists n, course_event E n c = Ok (Some block)).
Proof.
  intros [n H]. destruct block as [|l block].
  - left. split; [|reflexivity]. eapply course_event_skips; eassumption.
  - right. split; [|now exists n].
    intros Hs. rewrite (skip_reason_skips E n c Hs) in H. discriminate.
Qed.

(** C4. The document that [generateICS] returns is the preamble, then
    for each record, in input order, nothing or a block of ten lines,
    then the closing line.  A record gives nothing exactly when there is
    a reason to skip it.  For every other record the sixth line of its
    block is the recurrence rule: weekly; its UNTIL bound is the end
    date of the resolved date range with the clock time of the event's
    own start, in the fixed zone; and its BYDAY list is the list of
    decoded weekday tokens, in the order of decoding. *)
Theorem generateICS_rrule (E : env) (courses : list Course)
    (calendarName doc : string) :
  generateICS E courses calendarName = Ok doc ->
  exists blocks,
    Forall2 (rrule_contribution E) courses blocks
    /\ doc = join NL (preamble calendarName ++ List.concat blocks ++ ["END:VCALENDAR"]).
Proof.
  intros H. destruct (generateICS_blocks E courses calendarName doc H)
    as (blocks & HF & Hdoc).
  exists blocks. split; [|exact Hdoc].
  eapply Forall2_impl; [|exact HF]. clear. intros c block Hem.
  destruct (emits_skip_or_event E c block Hem) as [Hs|[Hn [n Hev]]]; [now left|].
  right. split; [exact Hn|].
  destruct (course_event_rrule E n c block Hev)
    as (sd & ed & first & s & e & u & Hr & Hf & Ht & Hud & Hut & Huz & -> & Hrule).
  exists sd, ed, first, s, e, u.
  split; [exact Hr|]. split; [exact Hf|]. split; [exact Ht|].
  split; [exact Hud|]. split; [exact Hut|]. split; [exact Huz|].
  split; [reflexivity|]. split; [reflexivity|].
  split; [reflexivity|]. split; [|reflexivity].
  rewrite formatDateTime_stamp, Hud.
  unfold timetz in Hut. injection Hut as -> -> -> _. reflexivity.
Qed.

Lemma generateICS_rrule_witness :
  exists doc blocks,
    generateICS sample_env [lecture; overnight] "Courses Calendar" = Ok doc
    /\ Forall2 (rrule_contribution sample_env) [lecture; overnight] blocks
    /\ doc = join NL (preamble "Courses Calendar" ++ List.concat blocks
                      ++ ["END:VCALENDAR"]).
Proof.
  eexists.
  match goal with
  | |- exists blocks, generateICS ?P ?cs ?name = Ok ?d /\ _ =>
      assert (H : generateICS P cs name = Ok d) by (vm_compute; reflexivity);
      destruct (generateICS_rrule sample_env cs name d H) as (blocks & HF & Hdoc)
  end.
  exists blocks. split; [exact H|]. split; [exact HF|exact Hdoc].
Defined.

(** C10. Nothing checks that the end time follows the start time: both
    clock times are put on the same calendar date, so for the time range
    "11:00 PM - 1:00 AM" [parseTimeRange] returns an end that is earlier
    than the start, and [generateICS] emits the event all the same: the
    document it returns for this record is the preamble, the block of
    the event, whose DTEND line is earlier than its DTSTART line, and the
    closing line. *)
Theorem overnight_end_before_start (E : env) :
  exists startDT endDT block,
    parseTimeRange (pads_year E) "11:00 PM - 1:00 AM" jan06 tzid
    = (Some startDT, Some endDT)
    /\ dt_date startDT = jan06 /\ dt_date endDT = jan06
    /\ tzinfo startDT = tzinfo endDT
    /\ dt_ltb endDT startDT = true
    /\ time overnight = "11:00 PM - 1:00 AM"
    /\ getFirstOccurrence jan06 (parseDays (days overnight)) = Ok jan06
    /\ block = vevent E overnight (uuid4 E 0 ++ "@coursecalendar") startDT endDT
                      (mkDatetime apr08 23 0 0 (Some tzid)) ["MO"]
    /\ nth 3 block "" = "DTSTART;TZID=America/New_York:20250106T230000"
    /\ nth 4 block "" = "DTEND;TZID=America/New_York:20250106T010000"
    /\ generateICS E [overnight] "Courses Calendar"
       = Ok (join NL (preamble "Courses Calendar" ++ block ++ ["END:VCALENDAR"])).
Proof.
  assert (Ht : parseTimeRange (pads_year E) (time overnight) jan06 tzid
               = (Some (mkDatetime jan06 23 0 0 (Some tzid)),
                  Some (mkDatetime jan06 1 0 0 (Some tzid))))
    by (destruct (pads_year E); vm_compute; reflexivity).
  assert (Hr : parseDateRange (dateRange overnight) = (Some jan06, Some apr08))
    by (vm_compute; reflexivity).
  assert (Hf : getFirstOccurrence jan06 (parseDays (days overnight)) = Ok jan06)
    by (vm_compute; reflexivity).
  assert (Hev := course_event_resolved E 0 overnight jan06 apr08 jan06 _ _
                   ltac:(discriminate) ltac:(discriminate) ltac:(discriminate)
                   Hr ltac:(discriminate) Hf Ht).
  eexists _, _, _. split; [exact Ht|].
  do 4 (split; [reflexivity|]). split; [reflexivity|].
  split; [exact Hf|]. split; [reflexivity|].
  split; [destruct E as [[] now_ uuid]; vm_compute; reflexivity|].
  split; [destruct E as [[] now_ uuid]; vm_compute; reflexivity|].
  unfold generateICS, generateICS_lines. cbn [events].
  rewrite Hev. cbn [bind hour minute second].
  fold (preamble "Courses Calendar"). now rewrite <- app_assoc.
Qed.

(** *** The parser, block by block *)

Lemma linebreak_is_space (c : ascii) :
  islinebreak c = true -> isspace c = true.
Proof. each_char c; vm_compute; intros H; try reflexivity; discriminate H. Qed.

Lemma lstrip_head (s : string) (c : ascii) (r : string) :
  lstrip s = String c r -> isspace c = false.
Proof.
  induction s as [|d s IH]; cbn [lstrip]; [discriminate|].
  destruct (isspace d) eqn:Hd; [exact IH|].
  intros [= <- _]. exact Hd.
Qed.

Lemma rstrip_head (c : ascii) (r : string) :
  isspace c = false -> exists r', rstrip (String c r) = String c r'.
Proof.
  intros Hc. cbn [rstrip]. rewrite Hc.
  destruct (rstrip r); eexists; reflexivity.
Qed.

Lemma strip_head (s : string) (c : ascii) (r : string) :
  strip s = String c r -> isspace c = false.
Proof.
  unfold strip. destruct (lstrip s) as [|d t] eqn:Hl; [discriminate|].
  pose proof (lstrip_head s d t Hl) as Hd.
  destruct (rstrip_head d t Hd) as [r' ->].
  intros [= <- _]. exact Hd.
Qed.

Lemma strip_keeps_head (c : ascii) (r : string) :
  isspace c = false -> exists r', strip (String c r) = String c r'.
Proof.
  intros Hc. unfold strip. cbn [lstrip]. rewrite Hc. now apply rstrip_head.
Qed.

Lemma splitlines_head (c : ascii) (s : string) :
  islinebreak c = false ->
  exists line rest, splitlines (String c s) = String c line :: rest.
Proof.
  intros Hc. unfold splitlines. cbn [splitlines_from andb]. rewrite Hc.
  destruct (splitlines_from false s); eexists _, _; reflexivity.
Qed.

(** A block is passed over exactly when trimming leaves nothing of it;
    otherwise its record, if the block gets one, is named after the
    trimmed first line, which is not empty. *)
Lemma parseBlock_name (block : string) :
  (truthy (strip block) = false /\ parseBlock block = Ok None)
  \/ (truthy (strip block) = true
      /\ first_line block <> ""
      /\ ((exists e, parseBlock block = Raise e)
          \/ exists course, parseBlock block = Ok (Some course)
                            /\ className course = first_line block)).
Proof.
  unfold parseBlock, first_line.
  destruct (strip block) as [|c r] eqn:Hs.
  - left. split; reflexivity.
  - right. split; [reflexivity|].
    pose proof (strip_head block c r Hs) as Hc.
    assert (Hb : islinebreak c = false).
    { destruct (islinebreak c) eqn:Hb; [|reflexivity].
      apply linebreak_is_space in Hb. congruence. }
    destruct (splitlines_head c r Hb) as [line [rest ->]].
    cbn [hd]. destruct (strip_keeps_head c line Hc) as [r' Hn].
    split; [rewrite Hn; discriminate|].
    destruct (extract _ _ _) as [f|e]; cbn [bind].
    + right. eexists. split; reflexivity.
    + left. eexists. reflexivity.
Qed.

Lemma parseBlocks_names (blocks : list string) :
  forall acc courses,
    parseBlocks blocks acc = Ok courses ->
    map className courses =
    map className acc ++ map first_line (filter (fun b => truthy (strip b)) blocks)
    /\ (Forall (fun c => className c <> "") acc ->
        Forall (fun c => className c <> "") courses).
Proof.
  induction blocks as [|b blocks IH]; intros acc courses; cbn [parseBlocks filter map].
  - intros [= <-]. now rewrite app_nil_r.
  - destruct (parseBlock_name b)
      as [[Hb ->]|[Hb [Hne [[e ->]|[course [-> Hname]]]]]];
      cbn [bind]; rewrite Hb; [|discriminate|].
    + apply IH.
    + intros H. destruct (IH _ _ H) as [Hmap Hall]. split.
      * rewrite Hmap, map_app. cbn [map]. rewrite Hname, <- app_assoc. reflexivity.
      * intros Hacc. apply Hall. apply Forall_app. split; [assumption|].
        constructor; [|constructor]. now rewrite Hname.
Qed.

(** X2. Whenever [parseCourses] returns, it returns one record per block
    that is not empty after trimming, in input order, each named after
    the trimmed first line of its block, and no name is empty. *)
Lemma parseCourses_records (text : string) (courses : list Course) :
  parseCourses text = Ok courses ->
  map className courses = map first_line (blocks_of text)
  /\ List.length courses = List.length (blocks_of text)
  /\ Forall (fun c => className c <> "") courses.
Proof.
  unfold parseCourses, blocks_of. intros H.
  destruct (parseBlocks_names _ _ _ H) as [Hmap Hall].
  cbn [map app] in Hmap. split; [exact Hmap|]. split.
  - rewrite <- (length_map className), Hmap. apply length_map.
  - apply Hall. constructor.
Qed.

Lemma parseBlocks_all (P : Course -> Prop) :
  (forall b c, parseBlock b = Ok (Some c) -> P c) ->
  forall blocks acc courses,
    Forall P acc -> parseBlocks blocks acc = Ok courses -> Forall P courses.
Proof.
  intros HP. induction blocks as [|b blocks IH]; intros acc courses Hacc;
    cbn [parseBlocks].
  - now intros [= <-].
  - destruct (parseBlock b) as [[c|]|e] eqn:Hb; cbn [bind]; try discriminate.
    + apply IH. apply Forall_app. split; [assumption|].
      constructor; [|constructor]. eapply HP; eassumption.
    + now apply IH.
Qed.

(** The guard of [Course.__init__]: instructor and location are never
    empty in a record. *)
Lemma Course_init_guard (name : string) (instr : option string)
    (mtype time days loc range : string) :
  instructor (Course_init name instr mtype time days loc range) <> ""
  /\ location (Course_init name instr mtype time days loc range) <> "".
Proof.
  unfold Course_init, truthy. cbn [instructor location]. split.
  - destruct instr as [i|]; [|discriminate].
    destruct (String.eqb_spec i ""); cbn [negb]; [discriminate|assumption].
  - destruct (String.eqb_spec loc ""); cbn [negb]; [discriminate|assumption].
Qed.

(** X3. In every record that [parseCourses] returns, the instructor and
    the location are not empty: [Course.__init__] puts the sentinel in
    place of an empty one. *)
Lemma parseCourses_guarded_fields (text : string) (courses : list Course) :
  parseCourses text = Ok courses ->
  Forall (fun c => instructor c <> "" /\ location c <> "") courses.
Proof.
  unfold parseCourses.
  apply parseBlocks_all; [|constructor].
  intros b c. unfold parseBlock.
  destruct (splitlines (strip b)) as [|line0 rest]; [discriminate|].
  destruct (extract _ _ _) as [f|e]; cbn [bind]; [|discriminate].
  intros [= <-]. apply Course_init_guard.
Qed.

(** The positional fallback on its own is all or nothing. *)
Lemma by_position_all_or_nothing (info : string) (f : sched) :
  let parts := split_2spaces info in
  ((7 <= List.length parts)%nat ->
   by_position info f =
   mkSched (strip (nth 1 parts "")) (strip (nth 2 parts ""))
           (strip (nth 3 parts "")) (strip (nth 4 parts ""))
           (lower (strip (nth 5 parts ""))))
  /\ ((List.length parts < 7)%nat -> by_position info f = f).
Proof.
  unfold by_position. cbv zeta.
  destruct (Nat.leb_spec 7 (List.length (split_2spaces info))); split;
    intros; try reflexivity; lia.
Qed.

(** A data line without tabs goes to the positional fallback with the
    defaults untouched. *)
Lemma extract_without_tab (headerLine : option string) (info : string) :
  truthy info = true -> contains TAB info = false ->
  extract headerLine (Some info) sched_default =
  Ok (by_position info sched_default).
Proof.
  intros Ht Hc. unfold extract. now rewrite Ht, Hc.
Qed.

(** After a failed lookup by header name the fallback starts from what
    the lookup has assigned so far. *)
Lemma extract_after_lookup (header info : string) (f' : sched) :
  truthy info = true -> contains TAB info = true ->
  by_header (split TAB header) (split TAB info) sched_default = (f', Some ValueError) ->
  extract (Some header) (Some info) sched_default = Ok (by_position info f').
Proof.
  intros Ht Hc Hb. unfold extract. now rewrite Ht, Hc, Hb.
Qed.

(** *** What the parser can raise *)

Lemma getitem_raises (l : list string) (i : nat) (e : exn) :
  getitem l i = Raise e -> e = IndexError.
Proof.
  unfold getitem. destruct (nth_error l i); [discriminate|]. now intros [= <-].
Qed.

Lemma column_raises (headers data : list string) (name : string) (e : exn) :
  column headers data name = Raise e -> e = ValueError \/ e = IndexError.
Proof.
  unfold column.
  destruct (index headers name) as [i|e1] eqn:Hi; cbn [bind].
  - destruct (getitem data i) as [v|e2] eqn:Hg; cbn [bind]; [discriminate|].
    intros [= <-]. right. eapply getitem_raises; eassumption.
  - intros [= <-]. left. eapply index_raises; eassumption.
Qed.

Lemma by_header_raises (headers data : list string) (f f' : sched) (e : exn) :
  by_header headers data f = (f', Some e) -> e = ValueError \/ e = IndexError.
Proof.
  unfold by_header, assign.
  repeat match goal with
         | |- context [column ?h ?d ?n] =>
             let H := fresh "Hc" in
             destruct (column h d n) eqn:H;
             [|intros [= _ <-]; eapply column_raises; eassumption]
         end.
  discriminate.
Qed.

Lemma extract_raises (headerLine meetingInfoLine : option string) (f : sched)
    (e : exn) :
  (meetingInfoLine <> None -> headerLine <> None) ->
  extract headerLine meetingInfoLine f = Raise e -> e = IndexError.
Proof.
  intros Hh. unfold extract.
  destruct meetingInfoLine as [info|]; [|discriminate].
  destruct (negb (truthy info)); [discriminate|].
  destruct (contains TAB info); [|discriminate].
  destruct headerLine as [header|]; [|exfalso; now apply Hh].
  destruct (by_header _ _ f) as [f' [e'|]] eqn:Hb; [|discriminate].
  destruct (by_header_raises _ _ _ _ _ Hb) as [->| ->]; [discriminate|].
  now intros [= <-].
Qed.

(** X1. The one exception [parseCourses] lets out is [IndexError]: the
    [ValueError] of a missing column is handled, and the header line is
    there whenever the data line is. *)
Lemma parseCourses_raises_IndexError (text : string) (e : exn) :
  parseCourses text = Raise e -> e = IndexError.
Proof.
  unfold parseCourses. generalize (@nil Course).
  induction (split (NL ++ NL) (strip text)) as [|b blocks IH]; intros acc;
    cbn [parseBlocks]; [discriminate|].
  destruct (parseBlock b) as [c|e'] eqn:Hb; cbn [bind]; [apply IH|].
  intros [= <-]. revert Hb. unfold parseBlock.
  destruct (splitlines (strip b)) as [|line0 rest] eqn:Hl; [discriminate|].
  destruct (extract _ _ _) as [f|e''] eqn:He; cbn [bind]; [discriminate|].
  intros [= <-]. revert He. apply extract_raises.
  destruct (find_scheduled (line0 :: rest) 0) as [i|];
    [|intros H; exfalso; now apply H].
  destruct (nth_error (line0 :: rest) (i + 2)) as [l2|] eqn:H2;
    cbn [option_map]; [|intros H; exfalso; now apply H].
  intros _.
  destruct (nth_error (line0 :: rest) (i + 1)) as [l1|] eqn:H1;
    cbn [option_map]; [discriminate|].
  exfalso. apply nth_error_None in H1.
  assert (Hs : nth_error (line0 :: rest) (i + 2) <> None) by congruence.
  apply nth_error_Some in Hs. lia.
Qed.

(** *** Worked examples *)

(** A block that is a name and nothing else: every schedule field of the
    record is the sentinel, the meeting type in lower case. *)
Lemma parseCourses_bare_block :
  parseCourses "MATH 1007 B" =
  Ok [mkCourse "MATH 1007 B" "TBA" "tba" "TBA" "TBA" "TBA" "TBA"].
Proof. vm_compute. reflexivity. Qed.

(** The end-to-end scenario of the specification: of the two blocks only
    the lecture becomes an event, weekly until 2025-04-08 at the start
    time, on Monday, Wednesday and Friday in that order; title and
    location are those of the block. *)
Lemma two_courses_one_event :
  exists courses lines,
    parseCourses two_courses = Ok courses
    /\ List.length courses = 2%nat
    /\ generateICS_lines sample_env courses "Courses Calendar" = Ok lines
    /\ event_blocks lines = 1%nat
    /\ In "RRULE:FREQ=WEEKLY;UNTIL=20250408T093000;BYDAY=MO,WE,FR" lines
    /\ In "DTSTART;TZID=America/New_York:20250106T093000" lines
    /\ In "SUMMARY:COMP 1005 A" lines
    /\ In "LOCATION:Room 1" lines.
Proof.
  eexists _, _. split; [vm_compute; reflexivity|].
  split; [reflexivity|]. split; [vm_compute; reflexivity|].
  split; [vm_compute; reflexivity|].
  cbn [In]. repeat split; tauto.
Qed.

(** *** The parser on malformed tables *)

(** C1. [parseCourses] is meant never to raise; on a block whose data row
    has fewer cells than the header has columns it raises [IndexError]:
    the cell under "Days" is read past the end of the row, and only
    [ValueError] is handled. *)
Theorem parseCourses_short_row_raises :
  parseCourses short_row = Raise IndexError.
Proof. vm_compute. reflexivity. Qed.

(** C3. A record built by [parseCourses] is meant never to hold an empty
    string; an empty cell of the data row goes into the record as it is:
    here [days] is the empty string, neither text nor the sentinel. *)
Theorem parseCourses_empty_days_cell :
  exists c, parseCourses empty_days = Ok [c]
            /\ days c = "" /\ days c <> "TBA"
            /\ instructor c = "TBA" /\ location c = "Room 1".
Proof.
  eexists. split; [vm_compute; reflexivity|].
  cbn. repeat split; discriminate.
Qed.

(** C8. With fewer than seven positional fields the fallback is meant to
    leave every schedule field at the sentinel; when it runs after a
    failed lookup by header name, the fields the lookup had already
    assigned keep their values: here the header lacks "Schedule Type",
    the data line has a single positional field, and the record still
    carries time, days, location and date range. *)
Theorem parseCourses_partial_header_lookup :
  (List.length (split_2spaces no_type_row) < 7)%nat
  /\ index no_type_header "Schedule Type" = Raise ValueError
  /\ parseCourses no_type_column =
     Ok [mkCourse "COMP 1005 A" "TBA" "tba" "9:30 am - 10:45 am" "MWF" "Room 1"
                  "Jan 06, 2025 - Apr 08, 2025"].
Proof.
  split; [vm_compute; lia|].
  split; vm_compute; reflexivity.
Qed.

(** C9. [parseCourses] is meant to give one record per non-empty block;
    on a text of two non-empty blocks whose second has a short data row
    it gives no record at all, because it raises [IndexError]. *)
Theorem parseCourses_two_blocks_no_records :
  List.length (blocks_of two_blocks) = 2%nat
  /\ parseCourses two_blocks = Raise IndexError.
Proof. split; vm_compute; reflexivity. Qed.

(* ===================================================================== *)
(** ** Further properties of the parser *)
(* ===================================================================== *)

Lemma parseCourses_raises_IndexError_witness :
  parseCourses short_row = Raise IndexError /\ IndexError = IndexError.
Proof.
  assert (H : parseCourses short_row = Raise IndexError)
    by (vm_compute; reflexivity).
  split; [exact H|].
  exact (parseCourses_raises_IndexError short_row IndexError H).
Defined.

Lemma parseCourses_records_witness :
  map className [mkCourse "MATH 1007 B" "TBA" "tba" "TBA" "TBA" "TBA" "TBA"]
  = map first_line (blocks_of "MATH 1007 B")
  /\ List.length [mkCourse "MATH 1007 B" "TBA" "tba" "TBA" "TBA" "TBA" "TBA"]
     = List.length (blocks_of "MATH 1007 B")
  /\ Forall (fun c => className c <> "")
            [mkCourse "MATH 1007 B" "TBA" "tba" "TBA" "TBA" "TBA" "TBA"].
Proof.
  apply (parseCourses_records "MATH 1007 B"). vm_compute. reflexivity.
Defined.

Lemma parseCourses_guarded_fields_witness :
  Forall (fun c => instructor c <> "" /\ location c <> "")
         [mkCourse "MATH 1007 B" "TBA" "tba" "TBA" "TBA" "TBA" "TBA"].
Proof.
  apply (parseCourses_guarded_fields "MATH 1007 B"). vm_compute. reflexivity.
Defined.

(** *** Trimmed fields *)

Lemma rstrip_idempotent (s : string) : rstrip (rstrip s) = rstrip s.
Proof.
  induction s as [|c s IH]; [reflexivity|].
  cbn [rstrip]. destruct (rstrip s) as [|d r] eqn:Hr.
  - destruct (isspace c) eqn:Hc; [reflexivity|].
    cbn [rstrip]. now rewrite Hc.
  - cbn [rstrip]. cbn [rstrip] in IH.
    destruct (rstrip r) as [|d' r'] eqn:Hr'.
    + destruct (isspace d) eqn:Hd; [discriminate|]. now rewrite IH.
    + now rewrite IH.
Qed.

Lemma strip_trimmed (s : string) : trimmed (strip s).
Proof.
  unfold trimmed, strip.
  destruct (lstrip s) as [|c t] eqn:Hl; [reflexivity|].
  pose proof (lstrip_head s c t Hl) as Hc.
  destruct (rstrip_head c t Hc) as [r Hr].
  rewrite Hr. cbn [lstrip]. rewrite Hc.
  rewrite <- Hr. apply rstrip_idempotent.
Qed.

Lemma lower_char_space (c : ascii) : isspace (lower_char c) = isspace c.
Proof. each_char c; vm_compute; reflexivity. Qed.

Lemma lower_char_idempotent (c : ascii) : lower_char (lower_char c) = lower_char c.
Proof. each_char c; vm_compute; reflexivity. Qed.

Lemma lower_idempotent (s : string) : lower (lower s) = lower s.
Proof.
  induction s as [|c s IH]; [reflexivity|].
  cbn [lower]. now rewrite lower_char_idempotent, IH.
Qed.

Lemma lstrip_lower (s : string) : lstrip (lower s) = lower (lstrip s).
Proof.
  induction s as [|c s IH]; [reflexivity|].
  cbn [lower lstrip]. rewrite lower_char_space.
  destruct (isspace c); [exact IH|reflexivity].
Qed.

Lemma rstrip_lower (s : string) : rstrip (lower s) = lower (rstrip s).
Proof.
  induction s as [|c s IH]; [reflexivity|].
  cbn [lower rstrip]. rewrite IH, lower_char_space.
  destruct (rstrip s); cbn [lower]; [destruct (isspace c)|]; reflexivity.
Qed.

Lemma lower_trimmed (s : string) : trimmed s -> trimmed (lower s).
Proof.
  unfold trimmed, strip. intros H.
  now rewrite lstrip_lower, rstrip_lower, H.
Qed.

Lemma by_header_tidy (headers data : list string) (f f' : sched) (e : option exn) :
  tidy_sched f -> by_header headers data f = (f', e) -> tidy_sched f'.
Proof.
  unfold by_header, assign, column, tidy_sched.
  intros (H1 & H2 & H3 & H4 & H5).
  repeat match goal with
         | |- context [bind (index ?h ?n)] => destruct (index h n); cbn [bind]
         | |- context [bind (getitem ?d ?i)] => destruct (getitem d i); cbn [bind]
         end;
    intros [= <- <-];
    cbn [s_timeVal s_days s_location s_dateRange s_meetingType
         set_timeVal set_days set_location set_dateRange set_meetingType];
    repeat split;
    auto using strip_trimmed, lower_trimmed.
Qed.

Lemma by_position_tidy (info : string) (f : sched) :
  tidy_sched f -> tidy_sched (by_position info f).
Proof.
  unfold by_position. destruct (_ <=? _)%nat; [|tauto].
  intros _. unfold tidy_sched.
  cbn [s_timeVal s_days s_location s_dateRange s_meetingType].
  repeat split; auto using strip_trimmed, lower_trimmed.
Qed.

Lemma extract_tidy (headerLine meetingInfoLine : option string) (f f' : sched) :
  tidy_sched f -> extract headerLine meetingInfoLine f = Ok f' -> tidy_sched f'.
Proof.
  intros Hf. unfold extract.
  destruct meetingInfoLine as [info|]; [|now intros [= <-]].
  destruct (negb (truthy info)); [now intros [= <-]|].
  destruct (contains TAB info).
  - destruct headerLine as [header|]; [|discriminate].
    destruct (by_header _ _ f) as [f1 [e|]] eqn:Hb.
    + destruct e; try discriminate. intros [= <-].
      apply by_position_tidy. eapply by_header_tidy; eassumption.
    + intros [= <-]. eapply by_header_tidy; eassumption.
  - intros [= <-]. now apply by_position_tidy.
Qed.

Lemma find_instructor_trimmed (lines : list string) (i : string) :
  find_instructor lines = Some i -> trimmed i.
Proof.
  unfold find_instructor.
  assert (H : forall acc, (forall j, acc = Some j -> trimmed j) ->
              forall j,
                fold_left
                  (fun instructor line =>
                     if contains "Assigned Instructor:" line then
                       let parts := split "Assigned Instructor:" line in
                       Some (if (1 <? List.length parts)%nat
                             then strip (nth 1 parts "") else "TBA")
                     else instructor) lines acc = Some j -> trimmed j).
  { induction lines as [|line lines IH]; intros acc Hacc j; cbn [fold_left].
    - apply Hacc.
    - apply IH. destruct (contains _ line); [|exact Hacc].
      intros k [= <-]. cbv zeta.
      destruct (_ <? _)%nat; [apply strip_trimmed|reflexivity]. }
  apply H. discriminate.
Qed.

(** X4. Every record that [parseCourses] returns is tidy: each of its
    seven fields is free of leading and trailing whitespace, and its
    meeting type is in lower case. *)
Theorem parseCourses_tidy (text : string) (courses : list Course) :
  parseCourses text = Ok courses -> Forall tidy courses.
Proof.
  unfold parseCourses. apply parseBlocks_all; [|constructor].
  intros b c. unfold parseBlock.
  destruct (splitlines (strip b)) as [|line0 rest]; [discriminate|].
  destruct (extract _ _ _) as [f|e] eqn:He; cbn [bind]; [|discriminate].
  intros [= <-].
  assert (Hd : tidy_sched sched_default) by (repeat split).
  destruct (extract_tidy _ _ _ _ Hd He) as (H1 & H2 & H3 & H4 & H5).
  unfold tidy, Course_init.
  cbn [className instructor meetingType time days location dateRange].
  split; [apply strip_trimmed|]. split.
  { destruct (find_instructor (line0 :: rest)) as [i|] eqn:Hi; [|reflexivity].
    destruct (truthy i); [|reflexivity].
    eapply find_instructor_trimmed; eassumption. }
  split; [now apply lower_trimmed|]. split; [assumption|]. split; [assumption|].
  split; [destruct (truthy (s_location f)); [assumption|reflexivity]|].
  split; [assumption|apply lower_idempotent].
Qed.

Lemma parseCourses_tidy_witness :
  Forall tidy [mkCourse "COMP 1005 A" "TBA" "tba" "9:30 am - 10:45 am" "MWF"
                        "Room 1" "Jan 06, 2025 - Apr 08, 2025"].
Proof.
  apply (parseCourses_tidy no_type_column). vm_compute. reflexivity.
Defined.

(** *** Blank text *)

Lemma split_head (sep : string) (c : ascii) (r : string) :
  startswith sep (String c r) = false ->
  exists f rest, split sep (String c r) = String c f :: rest.
Proof.
  intros H. unfold split. cbn [split_from]. rewrite H.
  destruct (split_from sep 0 r); eexists _, _; reflexivity.
Qed.

Lemma parseBlocks_grows (blocks : list string) :
  forall acc courses,
    parseBlocks blocks acc = Ok courses ->
    (List.length acc <= List.length courses)%nat.
Proof.
  induction blocks as [|b blocks IH]; intros acc courses; cbn [parseBlocks].
  - intros [= <-]. lia.
  - destruct (parseBlock b) as [[c|]|e]; cbn [bind]; [| |discriminate];
      intros H; apply IH in H; [rewrite length_app in H; cbn in H|]; lia.
Qed.

(** X5. [parseCourses] returns the empty list exactly for a text that is
    blank, that is, empty after trimming; and for such a text the
    document that [generateICS] builds from the result is the preamble
    followed by the closing line, without any event. *)
Theorem parseCourses_empty_iff_blank :
  (forall text, parseCourses text = Ok [] <-> strip text = "")
  /\ (forall text (E : env) calendarName,
        strip text = "" ->
        bind (parseCourses text) (fun courses => generateICS E courses calendarName)
        = Ok (join NL (preamble calendarName ++ ["END:VCALENDAR"])))
  /\ strip blank_text = "".
Proof.
  assert (Hblank : forall text, strip text = "" -> parseCourses text = Ok []).
  { intros text H. unfold parseCourses. rewrite H. reflexivity. }
  split; [|split].
  - intros text. split; [|apply Hblank].
    intros H. destruct (strip text) as [|c r] eqn:Hs; [reflexivity|exfalso].
    pose proof (strip_head text c r Hs) as Hc.
    unfold parseCourses in H. rewrite Hs in H.
    destruct (split_head (NL ++ NL) c r) as [f [rest Hsplit]].
    { unfold NL. cbn [append startswith].
      destruct (Ascii.eqb_spec "010" c) as [<-|_]; [discriminate Hc|reflexivity]. }
    rewrite Hsplit in H. cbn [parseBlocks] in H.
    destruct (parseBlock_name (String c f))
      as [[Hb _]|[_ [_ [[e He]|[course [He _]]]]]].
    + destruct (strip_keeps_head c f Hc) as [r' Hr]. rewrite Hr in Hb. discriminate.
    + rewrite He in H. discriminate.
    + rewrite He in H. cbn [bind app] in H.
      apply parseBlocks_grows in H. cbn in H. lia.
  - intros text E calendarName H. now rewrite (Hblank text H).
  - reflexivity.
Qed.

(** *** What the generator can raise *)

Lemma scan_raises (n : nat) (startDate : date) (targets : list Z) :
  forall current e,
    scan n startDate current targets = Raise e -> e = OverflowError.
Proof.
  induction n as [|n IH]; intros current e; cbn [scan]; [discriminate|].
  destruct (mem _ _); [discriminate|].
  unfold add_days. destruct (_ && _); cbn [bind]; [apply IH|].
  now intros [= <-].
Qed.

Lemma course_event_raises (E : env) (n : nat) (c : Course) (e : exn) :
  course_event E n c = Raise e -> e = OverflowError /\ starts_late c.
Proof.
  unfold course_event.
  destruct (_ || _); [discriminate|].
  destruct (parseDateRange_cases (dateRange c)) as [Hr|[sd [ed [Hr [Hv _]]]]];
    rewrite Hr; [discriminate|].
  destruct (parseDays (days c)) as [|d l]; [discriminate|].
  destruct (getFirstOccurrence sd (d :: l)) as [first|e'] eqn:Hf; cbn [bind].
  - destruct (parseTimeRange _ _ _ _) as [[?|] [?|]]; discriminate.
  - intros [= <-]. split; [eapply scan_raises; exact Hf|].
    exists sd, ed. split; [exact Hr|].
    destruct (Z_le_gt_dec (toordinal sd + 7) MAXORDINAL) as [Hle|Hgt]; [|lia].
    destruct (getFirstOccurrence_returns sd (d :: l) Hv Hle) as [first Hf'].
    congruence.
Qed.

Lemma events_raises (E : env) (courses : list Course) (e : exn) :
  forall n lines,
    events E n courses lines = Raise e ->
    e = OverflowError /\ Exists starts_late courses.
Proof.
  induction courses as [|c courses IH]; intros n lines; cbn [events];
    [discriminate|].
  destruct (course_event E n c) as [[block|]|e'] eqn:Hc; cbn [bind].
  - intros H. destruct (IH _ _ H) as [He Hex]. split; [exact He|now right].
  - intros H. destruct (IH _ _ H) as [He Hex]. split; [exact He|now right].
  - intros [= <-]. destruct (course_event_raises E n c e' Hc) as [He Hl].
    split; [exact He|now left].
Qed.

(** X6. What [generateICS] can raise.  Where the zone data base does not
    have the zone, [ZoneInfo(tzid)] raises [ZoneInfoNotFoundError],
    whatever the records.  Anywhere else the one exception that
    [generateICS] lets out is [OverflowError], and only when some record
    has a date range that resolves to a start date in the last seven
    days of year 9999. *)
Theorem generateICS_raises (courses : list Course) (calendarName : string) :
  generateICS NoZone courses calendarName = Raise ZoneInfoNotFoundError
  /\ (forall (P : platform) (e : exn),
        generateICS P courses calendarName = Raise e ->
        (P = NoZone /\ e = ZoneInfoNotFoundError)
        \/ ((exists E : env, P = Zone E)
            /\ e = OverflowError /\ Exists starts_late courses)).
Proof.
  split; [reflexivity|].
  intros [|E] e.
  - cbn. intros [= <-]. now left.
  - unfold generateICS, generateICS_lines.
    destruct (events E 0 courses _) as [lines|e'] eqn:Hev; cbn [bind]; [discriminate|].
    intros [= <-]. right. destruct (events_raises E courses e' _ _ Hev) as [He Hl].
    split; [now exists E|]. split; [exact He|exact Hl].
Qed.

Lemma generateICS_raises_witness :
  generateICS NoZone [lecture] "Courses Calendar" = Raise ZoneInfoNotFoundError
  /\ generateICS sample_env [lecture; year_end] "Courses Calendar"
     = Raise OverflowError
  /\ Exists starts_late [lecture; year_end].
Proof.
  split; [exact (proj1 (generateICS_raises [lecture] "Courses Calendar"))|].
  assert (H : generateICS sample_env [lecture; year_end] "Courses Calendar"
              = Raise OverflowError) by (vm_compute; reflexivity).
  split; [exact H|].
  destruct (proj2 (generateICS_raises [lecture; year_end] "Courses Calendar")
                  sample_env OverflowError H)
    as [[Hp _]|(_ & _ & Hl)]; [discriminate Hp|exact Hl].
Defined.

(** *** Decoded days and the first occurrence *)

Lemma mapping_tokens (ch : ascii) (v : string) :
  lookup ch mapping = Some v -> In v weekday_tokens.
Proof.
  unfold mapping, lookup, weekday_tokens.
  repeat match goal with
         | |- context [Ascii.eqb ?a ?b] =>
             destruct (Ascii.eqb a b); [intros [= <-]; simpl; tauto|]
         end.
  discriminate.
Qed.

Lemma decode_days_tokens (s : string) :
  Forall (fun t => In t weekday_tokens) (decode_days s).
Proof.
  induction s as [|ch s IH]; cbn [decode_days]; [constructor|].
  destruct (lookup ch mapping) as [v|] eqn:Hv; [|exact IH].
  constructor; [eapply mapping_tokens; eassumption|exact IH].
Qed.

Lemma targetWeekdays_length (l : list string) :
  Forall (fun t => In t weekday_tokens) l ->
  List.length (targetWeekdays l) = List.length l.
Proof.
  induction 1 as [|t l Ht _ IH]; [reflexivity|].
  cbn [targetWeekdays].
  destruct (weekday_number t weekdayMapping) as [n|] eqn:Hn.
  - cbn [List.length]. now rewrite IH.
  - exfalso. revert Hn. unfold weekday_tokens in Ht. cbn [In] in Ht.
    destruct Ht as [<-|[<-|[<-|[<-|[<-|[<-|[<-|[]]]]]]]]; discriminate.
Qed.

(** X7. [parseDays] yields weekday tokens only, each of which
    [getFirstOccurrence] knows.  So with the days that [parseDays]
    decodes, when there is at least one and the start date is no later
    than 9999-12-24, the search finds a day of a decoded weekday among
    the seven days from the start date on; the start date is never
    returned for lack of a match. *)
Theorem parseDays_first_occurrence (daysStr : string) (startDate : date) :
  valid_date startDate ->
  toordinal startDate + 7 <= MAXORDINAL ->
  parseDays daysStr <> [] ->
  Forall (fun t => In t weekday_tokens) (parseDays daysStr)
  /\ List.length (targetWeekdays (parseDays daysStr)) = List.length (parseDays daysStr)
  /\ exists k,
       0 <= k < 7
       /\ getFirstOccurrence startDate (parseDays daysStr)
          = Ok (mkDate (toordinal startDate + k))
       /\ In (weekday (mkDate (toordinal startDate + k)))
             (targetWeekdays (parseDays daysStr)).
Proof.
  intros [Hlo _] Hhi Hne.
  pose proof (decode_days_tokens (upper (strip daysStr))) as Htok.
  fold (parseDays daysStr) in Htok.
  pose proof (targetWeekdays_length _ Htok) as Hlen.
  split; [exact Htok|]. split; [exact Hlen|].
  destruct (scan_first_match 7 startDate startDate
              (targetWeekdays (parseDays daysStr)) Hlo Hhi)
    as [[k [Hk [Hs [Hin _]]]]|[_ Hnone]].
  - exists k. split; [exact Hk|]. split; [exact Hs|]. now apply mem_In.
  - exfalso.
    destruct (targetWeekdays (parseDays daysStr)) as [|t rest] eqn:Ht.
    + destruct (parseDays daysStr); [congruence|discriminate Hlen].
    + assert (Hr : 0 <= t <= 6).
      { apply (targetWeekdays_range (parseDays daysStr)). rewrite Ht. now left. }
      destruct (week_covers (toordinal startDate) t Hr) as [j [Hj Hw]].
      specialize (Hnone j Hj). apply mem_not_In in Hnone.
      apply Hnone. rewrite Hw. now left.
Qed.

Lemma parseDays_first_occurrence_witness :
  valid_date jan06
  /\ toordinal jan06 + 7 <= MAXORDINAL
  /\ parseDays "tr" <> []
  /\ exists k,
       0 <= k < 7
       /\ getFirstOccurrence jan06 (parseDays "tr")
          = Ok (mkDate (toordinal jan06 + k))
       /\ In (weekday (mkDate (toordinal jan06 + k)))
             (targetWeekdays (parseDays "tr")).
Proof.
  assert (Hv : valid_date jan06) by (unfold valid_date; vm_compute; split; discriminate).
  assert (Hh : toordinal jan06 + 7 <= MAXORDINAL) by (vm_compute; discriminate).
  assert (Hn : parseDays "tr" <> []) by discriminate.
  split; [exact Hv|]. split; [exact Hh|]. split; [exact Hn|].
  exact (proj2 (proj2 (parseDays_first_occurrence "tr" jan06 Hv Hh Hn))).
Defined.

Lemma parseCourses_empty_iff_blank_witness :
  strip blank_text = ""
  /\ bind (parseCourses blank_text)
          (fun courses => generateICS sample_env courses "Courses Calendar")
     = Ok (join NL (preamble "Courses Calendar" ++ ["END:VCALENDAR"])).
Proof.
  assert (H : strip blank_text = "") by reflexivity.
  split; [exact H|].
  exact (proj1 (proj2 parseCourses_empty_iff_blank) blank_text sample_env
               "Courses Calendar" H).
Defined.

(** *** Event identifiers *)

Lemma uid_lines_app (a b : list string) :
  uid_lines (a ++ b) = uid_lines a ++ uid_lines b.
Proof. apply filter_app. Qed.

Lemma uid_lines_vevent (E : env) (c : Course) (uid : string)
    (startDT endDT untilDT : datetime) (bydayList : list string) :
  uid_lines (vevent E c uid startDT endDT untilDT bydayList)
  = [("UID:" ++ uid)%string].
Proof. reflexivity. Qed.

Lemma uid_lines_preamble (calendarName : string) :
  uid_lines (preamble calendarName) = [].
Proof. reflexivity. Qed.

Lemma events_uids (E : env) (courses : list Course) :
  forall n lines0 lines,
    events E n courses lines0 = Ok lines ->
    exists k,
      uid_lines lines = uid_lines lines0 ++ map (uid_line E) (seq n k)
      /\ event_blocks lines = (event_blocks lines0 + k)%nat.
Proof.
  induction courses as [|c courses IH]; intros n lines0 lines; cbn [events].
  - intros [= <-]. exists 0%nat. cbn. now rewrite app_nil_r, Nat.add_0_r.
  - destruct (course_event E n c) as [[block|]|e] eqn:Hc; cbn [bind];
      [| |discriminate].
    + intros H. destruct (IH _ _ _ H) as [k [Hu Hb]].
      destruct (course_event_emits E n c block Hc)
        as (sd & ed & f & s & e & _ & _ & _ & _ & _ & _ & _ & ->).
      exists (S k). split.
      * rewrite Hu, uid_lines_app, uid_lines_vevent, <- app_assoc. reflexivity.
      * rewrite Hb, event_blocks_app, vevent_one_block. lia.
    + intros H. destruct (IH _ _ _ H) as [k [Hu Hb]]. now exists k.
Qed.

Lemma append_length (a b : string) :
  String.length (a ++ b) = (String.length a + String.length b)%nat.
Proof. induction a as [|c a IH]; cbn; [reflexivity|now rewrite IH]. Qed.

Lemma append_cancel_r (t a b : string) :
  (a ++ t)%string = (b ++ t)%string -> a = b.
Proof.
  revert b. induction a as [|c a IH]; intros [|d b] H; cbn in H.
  - reflexivity.
  - apply (f_equal String.length) in H. cbn in H. rewrite append_length in H. lia.
  - apply (f_equal String.length) in H. cbn in H. rewrite append_length in H. lia.
  - injection H as -> H. f_equal. now apply IH.
Qed.

Lemma NoDup_map_seq {A : Type} (f : nat -> A) (n k : nat) :
  (forall i j, f i = f j -> i = j) -> NoDup (map f (seq n k)).
Proof.
  intros Hinj. revert n. induction k as [|k IH]; intros n; cbn [seq map].
  - constructor.
  - constructor; [|apply IH].
    intros Hin. apply in_map_iff in Hin. destruct Hin as [x [Hx Hs]].
    apply Hinj in Hx. subst x. apply in_seq in Hs. lia.
Qed.

(** X8. In the document of [generateICS] the events take the identifiers
    in the order [uuid.uuid4()] hands them out, one each: the UID lines
    are those of the identifiers 0, 1, ... up to the number of event
    blocks.  So when the identifiers are all different, no two events of
    a document share a UID. *)
Theorem generateICS_uids (E : env) (courses : list Course) (calendarName : string)
    (lines : list string) :
  generateICS_lines E courses calendarName = Ok lines ->
  uid_lines lines = map (uid_line E) (seq 0 (event_blocks lines))
  /\ ((forall i j, uuid4 E i = uuid4 E j -> i = j) -> NoDup (uid_lines lines)).
Proof.
  unfold generateICS_lines. fold (preamble calendarName).
  destruct (events E 0 courses (preamble calendarName)) as [ls|e] eqn:Hev;
    cbn [bind]; [|discriminate].
  intros [= <-].
  destruct (events_uids E courses _ _ _ Hev) as [k [Hu Hb]].
  rewrite uid_lines_preamble in Hu. rewrite event_blocks_preamble in Hb.
  cbn [app Nat.add] in Hu, Hb.
  assert (Hall : uid_lines (ls ++ ["END:VCALENDAR"])
                 = map (uid_line E)
                       (seq 0 (event_blocks (ls ++ ["END:VCALENDAR"])))).
  { rewrite uid_lines_app, event_blocks_app, Hu, Hb.
    change (uid_lines ["END:VCALENDAR"]) with (@nil string).
    change (event_blocks ["END:VCALENDAR"]) with 0%nat.
    now rewrite app_nil_r, Nat.add_0_r. }
  split; [exact Hall|].
  intros Hinj. rewrite Hall. apply NoDup_map_seq.
  intros i j H. apply Hinj. unfold uid_line in H.
  injection H as H. eapply append_cancel_r. exact H.
Qed.

Lemma generateICS_uids_witness :
  exists lines,
    generateICS_lines sample_env [lecture; overnight] "Courses Calendar" = Ok lines
    /\ uid_lines lines = map (uid_line sample_env) (seq 0 (event_blocks lines)).
Proof.
  eexists. split; [vm_compute; reflexivity|].
  match goal with
  | |- uid_lines ?l = _ =>
      assert (H : generateICS_lines sample_env [lecture; overnight]
                    "Courses Calendar" = Ok l) by (vm_compute; reflexivity);
      exact (proj1 (generateICS_uids sample_env [lecture; overnight]
                      "Courses Calendar" l H))
  end.
Defined.

(* ===================================================================== *)
(** ** Properties of the form handlers *)
(* ===================================================================== *)

Import CalendarApp.

(** *** The addresses that pass *)

Lemma match_plus_split (cls : ascii -> bool) (k : string -> bool) (s : string) :
  match_plus cls s k = true <->
  exists u v, s = (u ++ v)%string /\ u <> "" /\ all_chars cls u = true /\ k v = true.
Proof.
  split.
  - induction s as [|c s IH]; cbn [match_plus]; [discriminate|].
    destruct (cls c) eqn:Hc; [|discriminate].
    intros H. apply orb_true_iff in H. destruct H as [H|H].
    + destruct (IH H) as (u & v & -> & _ & Hu & Hk).
      exists (String c u), v. cbn [append all_chars]. rewrite Hc, Hu.
      repeat split; [discriminate|exact Hk].
    + exists (String c ""), s. cbn [append all_chars]. rewrite Hc.
      repeat split; [discriminate|exact H].
  - intros (u & v & -> & Hne & Hu & Hk). revert Hne Hu.
    induction u as [|c u IH]; [congruence|]. intros _.
    cbn [append all_chars match_plus]. intros H.
    apply andb_true_iff in H. destruct H as [Hc Hu]. rewrite Hc.
    apply orb_true_iff. destruct u as [|d u]; [right; exact Hk|left].
    apply IH; [discriminate|exact Hu].
Qed.

Lemma at_end_cases (s : string) : at_end s = true <-> s = "" \/ s = NL.
Proof.
  unfold at_end. rewrite orb_true_iff, !String.eqb_eq. tauto.
Qed.

Lemma rstrip_app_space (a : string) (c : ascii) :
  isspace c = true -> rstrip (a ++ String c "") = rstrip a.
Proof.
  intros Hc. induction a as [|d a IH]; cbn [append rstrip].
  - now rewrite Hc.
  - now rewrite IH.
Qed.

Lemma rstrip_length (s : string) :
  (String.length (rstrip s) <= String.length s)%nat.
Proof.
  induction s as [|c s IH]; cbn [rstrip String.length]; [lia|].
  destruct (rstrip s); [destruct (isspace c)|]; cbn [String.length] in *; lia.
Qed.

Lemma strip_no_final_newline (x a : string) : strip x <> (a ++ NL)%string.
Proof.
  intros H.
  assert (Hr : rstrip (strip x) = strip x) by apply rstrip_idempotent.
  rewrite H in Hr. unfold NL in Hr.
  rewrite rstrip_app_space in Hr by reflexivity.
  apply (f_equal String.length) in Hr.
  pose proof (rstrip_length a). rewrite append_length in Hr. cbn in Hr. lia.
Qed.

Lemma append_assoc (a b c : string) :
  ((a ++ b) ++ c)%string = (a ++ (b ++ c))%string.
Proof. induction a as [|x a IH]; cbn [append]; [reflexivity|now rewrite IH]. Qed.

Lemma append_empty (a : string) : (a ++ "")%string = a.
Proof. induction a as [|x a IH]; cbn [append]; [reflexivity|now rewrite IH]. Qed.

Ltac right_nested :=
  repeat first [rewrite !append_assoc | progress cbn [append]].

Lemma re_match_EMAIL_REGEX (s : string) :
  re_match EMAIL_REGEX s = true <->
  exists a v, s = (a ++ v)%string /\ address_form a /\ (v = "" \/ v = NL).
Proof.
  unfold re_match, EMAIL_REGEX. cbn [match_pat].
  rewrite match_plus_split. split.
  - intros (u1 & v1 & -> & Hn1 & Hu1 & H).
    destruct v1 as [|d1 r1]; [discriminate|].
    apply andb_true_iff in H. destruct H as [Hd1 H].
    apply Ascii.eqb_eq in Hd1. subst d1.
    apply match_plus_split in H. destruct H as (u2 & v2 & -> & Hn2 & Hu2 & H).
    destruct v2 as [|d2 r2]; [discriminate|].
    apply andb_true_iff in H. destruct H as [Hd2 H].
    apply Ascii.eqb_eq in Hd2. subst d2.
    apply match_plus_split in H. destruct H as (u3 & v3 & -> & Hn3 & Hu3 & H).
    rewrite andb_true_r in H. apply at_end_cases in H.
    exists (u1 ++ "@" ++ u2 ++ "." ++ u3)%string, v3. split; [|split].
    + right_nested. reflexivity.
    + exists u1, u2, u3. repeat split; assumption.
    + exact H.
  - intros (a & v & -> & (u1 & u2 & u3 & -> & Hn1 & Hn2 & Hn3 & Hu1 & Hu2 & Hu3) & Hv).
    exists u1, ("@" ++ u2 ++ "." ++ u3 ++ v)%string. split; [|split; [exact Hn1|split; [exact Hu1|]]].
    + right_nested. reflexivity.
    + cbn [append]. rewrite Ascii.eqb_refl. cbn [andb].
      apply match_plus_split. exists u2, ("." ++ u3 ++ v)%string.
      split; [reflexivity|]. split; [exact Hn2|]. split; [exact Hu2|].
      cbn [append]. rewrite Ascii.eqb_refl. cbn [andb].
      apply match_plus_split. exists u3, v.
      split; [reflexivity|]. split; [exact Hn3|]. split; [exact Hu3|].
      rewrite andb_true_r. now apply at_end_cases.
Qed.

Lemma email_check_form_strip :
  (forall s,
      re_match EMAIL_REGEX s = true <->
      address_form s \/ exists a, s = (a ++ NL)%string /\ address_form a)
  /\ (forall x, re_match EMAIL_REGEX (strip x) = true -> address_form (strip x)).
Proof.
  assert (H1 : forall s,
             re_match EMAIL_REGEX s = true <->
             address_form s \/ exists a, s = (a ++ NL)%string /\ address_form a).
  { intros s. rewrite re_match_EMAIL_REGEX. split.
    - intros (a & v & -> & Ha & [-> | ->]).
      + left. rewrite append_empty. exact Ha.
      + right. exists a. split; [reflexivity|exact Ha].
    - intros [Ha|(a & -> & Ha)].
      + exists s, "". rewrite append_empty. repeat split; [exact Ha|now left].
      + exists a, NL. repeat split; [exact Ha|now right]. }
  split; [exact H1|].
  intros x Hx. apply H1 in Hx. destruct Hx as [Ha|(a & Hx & _)]; [exact Ha|].
  exfalso. exact (strip_no_final_newline x a Hx).
Qed.

(** X9. The check of the address in both handlers lets through exactly
    the strings of the form local@domain.tld, where the three parts are
    not empty, local and domain are made of word characters, dots and
    hyphens, and tld of word characters; a line feed after it is let
    through too.  As the handlers trim the address first, what they
    accept is exactly the trimmed addresses of that form. *)
Theorem email_check_form :
  (forall s,
      re_match EMAIL_REGEX s = true <->
      address_form s \/ exists a, s = (a ++ NL)%string /\ address_form a)
  /\ (forall x, re_match EMAIL_REGEX (strip x) = true <-> address_form (strip x)).
Proof.
  destruct email_check_form_strip as [H1 H2].
  split; [exact H1|].
  intros x. split; [apply H2|]. intros Ha. apply H1. now left.
Qed.

(** *** The file of addresses *)

Lemma all_chars_app (cls : ascii -> bool) (a b : string) :
  all_chars cls (a ++ b) = all_chars cls a && all_chars cls b.
Proof.
  induction a as [|c a IH]; cbn [append all_chars]; [reflexivity|].
  now rewrite IH, andb_assoc.
Qed.

Lemma all_chars_weaken (cls cls' : ascii -> bool) (s : string) :
  (forall c, cls c = true -> cls' c = true) ->
  all_chars cls s = true -> all_chars cls' s = true.
Proof.
  intros H. induction s as [|c s IH]; cbn [all_chars]; [reflexivity|].
  rewrite !andb_true_iff. intros [Hc Hs]. split; [now apply H|now apply IH].
Qed.

Lemma namechar_no_linebreak (c : ascii) :
  isnamechar c = true -> negb (islinebreak c) = true.
Proof. each_char c; vm_compute; intros H; try reflexivity; discriminate H. Qed.

Lemma word_is_namechar (c : ascii) : isword c = true -> isnamechar c = true.
Proof. unfold isnamechar. now intros ->. Qed.

Lemma address_one_line (a : string) :
  address_form a -> all_chars (fun c => negb (islinebreak c)) a = true.
Proof.
  intros (u1 & u2 & u3 & -> & _ & _ & _ & H1 & H2 & H3).
  rewrite !all_chars_app. cbn [all_chars].
  rewrite (all_chars_weaken _ _ u1 namechar_no_linebreak H1).
  rewrite (all_chars_weaken _ _ u2 namechar_no_linebreak H2).
  rewrite (all_chars_weaken _ _ u3 namechar_no_linebreak
             (all_chars_weaken _ _ u3 word_is_namechar H3)).
  reflexivity.
Qed.

Lemma splitlines_line (a rest : string) :
  all_chars (fun c => negb (islinebreak c)) a = true ->
  splitlines (a ++ NL ++ rest) = a :: splitlines rest.
Proof.
  unfold splitlines. induction a as [|c a IH]; cbn [append all_chars].
  - intros _. reflexivity.
  - rewrite andb_true_iff. intros [Hc Ha].
    cbn [splitlines_from andb]. apply negb_true_iff in Hc. rewrite Hc.
    rewrite (IH Ha). reflexivity.
Qed.

Lemma splitlines_log_of (addresses : list string) :
  Forall address_form addresses -> splitlines (log_of addresses) = addresses.
Proof.
  induction 1 as [|a l Ha _ IH]; [reflexivity|].
  cbn [log_of]. rewrite splitlines_line by now apply address_one_line.
  now rewrite IH.
Qed.

Lemma log_of_app (l : list string) (a : string) :
  log_of (l ++ [a]) = (log_of l ++ a ++ NL)%string.
Proof.
  induction l as [|b l IH]; cbn [app log_of].
  - now rewrite append_empty.
  - rewrite IH. now right_nested.
Qed.

(** X10. [index] of [CalendarApp.py] keeps the file of addresses well
    formed.  If the file holds addresses of the form local@domain.tld,
    one per line, then after any request it still does, and reading it
    line by line gives the addresses back.  A request adds the trimmed
    address it carries when that address passes the check, also when the
    parser or the generator raises afterwards, and adds nothing
    otherwise.  The answer is the one [index] of [app.py] gives. *)
Theorem index_keeps_log (E : env) (req : request) (addresses : list string) :
  Forall address_form addresses ->
  let user_email := strip (form_get (form req) "user_email" "") in
  let accepted := String.eqb (method req) "POST" && re_match EMAIL_REGEX user_email in
  let addresses' := if accepted then addresses ++ [user_email] else addresses in
  snd (index E req (log_of addresses)) = log_of addresses'
  /\ Forall address_form addresses'
  /\ splitlines (log_of addresses') = addresses'
  /\ fst (index E req (log_of addresses)) = app_index E req.
Proof.
  intros Hlog user_email accepted addresses'.
  assert (Hform : Forall address_form addresses').
  { subst addresses' accepted.
    destruct (String.eqb (method req) "POST"); [|exact Hlog].
    destruct (re_match EMAIL_REGEX user_email) eqn:Hm; [|exact Hlog].
    apply Forall_app. split; [exact Hlog|].
    constructor; [|constructor].
    now apply (proj2 email_check_form_strip). }
  split; [|split; [exact Hform|split; [now apply splitlines_log_of|]]].
  - subst addresses' accepted. unfold index. fold user_email.
    destruct (String.eqb (method req) "POST"); [|reflexivity].
    destruct (re_match EMAIL_REGEX user_email); cbn [negb andb snd].
    + now rewrite log_of_app.
    + reflexivity.
  - unfold index, app_index. fold user_email.
    destruct (String.eqb (method req) "POST"); [|reflexivity].
    destruct (re_match EMAIL_REGEX user_email); reflexivity.
Qed.

Lemma index_keeps_log_witness :
  Forall address_form ["jo@example.org"]
  /\ snd (index sample_env (post " ann.lee@mail.example.com " "MATH 1007 B")
                (log_of ["jo@example.org"]))
     = log_of ["jo@example.org"; "ann.lee@mail.example.com"]
  /\ splitlines (log_of ["jo@example.org"; "ann.lee@mail.example.com"])
     = ["jo@example.org"; "ann.lee@mail.example.com"].
Proof.
  assert (H : Forall address_form ["jo@example.org"]).
  { constructor; [|constructor].
    exists "jo", "example", "org". repeat split; discriminate. }
  split; [exact H|].
  destruct (index_keeps_log sample_env
              (post " ann.lee@mail.example.com " "MATH 1007 B")
              ["jo@example.org"] H) as (H1 & _ & H3 & _).
  split; [exact H1|exact H3].
Defined.

(** *** Line ends of the form text *)

Lemma replace_line (line tail : string) :
  no_line_feed line ->
  (forall t, tail <> String "010" t) ->
  replace (CR ++ NL) NL (line ++ tail)
  = (line ++ replace (CR ++ NL) NL tail)%string.
Proof.
  unfold no_line_feed, replace. intros Hl Ht.
  induction line as [|c line IH]; [reflexivity|].
  cbn [all_chars] in Hl. apply andb_true_iff in Hl. destruct Hl as [Hc Hl].
  change (String c line ++ tail)%string with (String c (line ++ tail)).
  cbn [replace_from].
  replace (startswith (CR ++ NL) (String c (line ++ tail))) with false.
  - now rewrite (IH Hl).
  - symmetry. unfold CR, NL. cbn [append startswith].
    destruct (Ascii.eqb "013" c); [|reflexivity]. cbn [andb].
    destruct line as [|d line]; cbn [append].
    + destruct tail as [|d tail]; [reflexivity|].
      destruct (Ascii.eqb_spec "010" d) as [<-|_]; [|reflexivity].
      exfalso. now apply (Ht tail).
    + cbn [all_chars] in Hl. apply andb_true_iff in Hl. destruct Hl as [Hd _].
      rewrite Ascii.eqb_sym. apply negb_true_iff in Hd. now rewrite Hd.
Qed.

Lemma replace_crlf_join (lines : list string) :
  Forall no_line_feed lines ->
  replace (CR ++ NL) NL (join (CR ++ NL) lines) = join NL lines.
Proof.
  induction 1 as [|line lines Hl Hrest IH]; [reflexivity|].
  destruct lines as [|line2 lines].
  - cbn [join]. rewrite <- (append_empty line) at 1.
    rewrite replace_line; [now rewrite append_empty|exact Hl|discriminate].
  - change (join (CR ++ NL) (line :: line2 :: lines))
      with (line ++ (CR ++ NL) ++ join (CR ++ NL) (line2 :: lines))%string.
    change (join NL (line :: line2 :: lines))
      with (line ++ NL ++ join NL (line2 :: lines))%string.
    rewrite replace_line; [|exact Hl|discriminate].
    rewrite <- IH. reflexivity.
Qed.

(** X11. A form text whose lines end in CR LF reaches the parser as the
    same lines joined by line feeds, trimmed: in both handlers, when the
    address passes the check and no line of the text has a line feed
    inside, the answer is the download made from that text. *)
Theorem index_line_ends (E : env) (req : request) (emails : string)
    (lines : list string) :
  method req = "POST" ->
  address_form (strip (form_get (form req) "user_email" "")) ->
  form_get (form req) "course_data" "" = join (CR ++ NL) lines ->
  Forall no_line_feed lines ->
  fst (index E req emails) = download E (strip (join NL lines))
  /\ app_index E req = download E (strip (join NL lines)).
Proof.
  intros Hm Ha Hd Hl. unfold index, app_index.
  rewrite Hm, Hd, (replace_crlf_join lines Hl).
  assert (Hr : re_match EMAIL_REGEX (strip (form_get (form req) "user_email" ""))
               = true).
  { apply (proj1 email_check_form_strip). now left. }
  rewrite Hr. split; reflexivity.
Qed.

Lemma index_line_ends_witness :
  fst (index sample_env
         (post "jo@example.org" ("COMP 1005 A" ++ CR ++ NL ++ CR ++ NL ++ "MATH 1007 B"))
         "")
  = download sample_env
      (strip (join NL ["COMP 1005 A"; ""; "MATH 1007 B"])).
Proof.
  refine (proj1 (index_line_ends sample_env
                   (post "jo@example.org"
                         ("COMP 1005 A" ++ CR ++ NL ++ CR ++ NL ++ "MATH 1007 B"))
                   "" ["COMP 1005 A"; ""; "MATH 1007 B"] _ _ _ _)).
  - reflexivity.
  - exists "jo", "example", "org". repeat split; discriminate.
  - reflexivity.
  - repeat constructor.
Defined.

(* ===================================================================== *)
(** ** Further properties of the resolvers *)
(* ===================================================================== *)

(** *** Splitting on one character *)

Lemma split_char_none (sep : ascii) (a : string) :
  lacks sep a -> split (String sep "") a = [a].
Proof.
  unfold lacks, split. induction a as [|c a IH]; [reflexivity|].
  cbn [all_chars]. rewrite andb_true_iff. intros [Hc Ha].
  cbn [split_from startswith]. apply negb_true_iff in Hc. rewrite Hc.
  cbn [andb]. now rewrite (IH Ha).
Qed.

Lemma split_char_app (sep : ascii) (a rest : string) :
  lacks sep a ->
  split (String sep "") (a ++ String sep rest) = a :: split (String sep "") rest.
Proof.
  unfold lacks, split. induction a as [|c a IH]; cbn [append all_chars].
  - intros _. cbn [split_from startswith]. rewrite Ascii.eqb_refl. reflexivity.
  - rewrite andb_true_iff. intros [Hc Ha].
    cbn [split_from startswith]. apply negb_true_iff in Hc. rewrite Hc.
    cbn [andb]. now rewrite (IH Ha).
Qed.

Lemma split_join_char (sep : ascii) (cells : list string) :
  cells <> [] -> Forall (lacks sep) cells ->
  split (String sep "") (join (String sep "") cells) = cells.
Proof.
  intros Hne H. induction H as [|cell cells Hc Hrest IH]; [congruence|].
  destruct cells as [|cell2 cells].
  - cbn [join]. now apply split_char_none.
  - change (join (String sep "") (cell :: cell2 :: cells))
      with (cell ++ String sep (join (String sep "") (cell2 :: cells)))%string.
    rewrite split_char_app by exact Hc. now rewrite IH.
Qed.

(** *** The order of the two dates *)

Lemma both_dates_swap (fmt a b : string) :
  both_dates fmt b a =
  match both_dates fmt a b with
  | Some (x, y) => Some (y, x)
  | None => None
  end.
Proof.
  unfold both_dates.
  destruct (parse_date fmt a), (parse_date fmt b); reflexivity.
Qed.

(** X12. [parseDateRange] does not compare the two dates.  When a range
    "a-b" with no other hyphen resolves, the range "b-a" resolves too,
    to the same two dates the other way round; so a range written
    backwards gives a start date after its end date. *)
Theorem parseDateRange_either_order (a b : string) (x y : date) :
  lacks "-" a -> lacks "-" b ->
  parseDateRange (a ++ "-" ++ b) = (Some x, Some y) ->
  parseDateRange (b ++ "-" ++ a) = (Some y, Some x).
Proof.
  intros Ha Hb. rewrite !parseDateRange_date_range. unfold date_range.
  change ("-" ++ b)%string with (String "-" b).
  change ("-" ++ a)%string with (String "-" a).
  rewrite !split_char_app, !split_char_none by assumption.
  rewrite (both_dates_swap "%m/%d/%Y" (strip a) (strip b)).
  rewrite (both_dates_swap "%b %d, %Y" (strip a) (strip b)).
  destruct (both_dates "%m/%d/%Y" (strip a) (strip b)) as [[p q]|].
  - now intros [= <- <-].
  - destruct (both_dates "%b %d, %Y" (strip a) (strip b)) as [[p q]|];
      [now intros [= <- <-]|discriminate].
Qed.

Lemma parseDateRange_either_order_witness :
  parseDateRange ("01/06/2025 " ++ "-" ++ " 04/08/2025") = (Some jan06, Some apr08)
  /\ parseDateRange (" 04/08/2025" ++ "-" ++ "01/06/2025 ") = (Some apr08, Some jan06).
Proof.
  assert (H : parseDateRange ("01/06/2025 " ++ "-" ++ " 04/08/2025")
              = (Some jan06, Some apr08)) by (vm_compute; reflexivity).
  split; [exact H|].
  apply (parseDateRange_either_order "01/06/2025 " " 04/08/2025" jan06 apr08);
    [reflexivity|reflexivity|exact H].
Defined.

(* ===================================================================== *)
(** ** A block in the tab layout is read back *)
(* ===================================================================== *)

Lemma lstrip_kept (c : ascii) (s : string) :
  isspace c = false -> lstrip (String c s) = String c s.
Proof. intros H. cbn [lstrip]. now rewrite H. Qed.

Lemma rstrip_app_kept (a b : string) :
  b <> "" -> rstrip b = b -> rstrip (a ++ b) = (a ++ b)%string.
Proof.
  intros Hne Hb. induction a as [|c a IH]; [exact Hb|].
  cbn [append rstrip]. rewrite IH.
  destruct (a ++ b)%string eqn:Hab; [|reflexivity].
  destruct a; [cbn in Hab; congruence|discriminate].
Qed.

Lemma trimmed_parts (s : string) :
  trimmed s -> lstrip s = s /\ rstrip s = s.
Proof.
  unfold trimmed. intros H.
  assert (Hl : lstrip s = s).
  { destruct s as [|c s']; [reflexivity|].
    apply lstrip_kept. eapply strip_head. exact H. }
  split; [exact Hl|]. unfold strip in H. now rewrite Hl in H.
Qed.

Lemma splitlines_last (a : string) :
  a <> "" -> one_line a -> splitlines a = [a].
Proof.
  unfold one_line, splitlines. induction a as [|c a IH]; [congruence|].
  intros _. cbn [all_chars]. rewrite andb_true_iff. intros [Hc Ha].
  cbn [splitlines_from andb]. apply negb_true_iff in Hc. rewrite Hc.
  destruct a as [|d a]; [reflexivity|].
  rewrite IH; [reflexivity|discriminate|exact Ha].
Qed.

Lemma no_blank_line_last (a : string) :
  one_line a -> contains (NL ++ NL) a = false.
Proof.
  unfold one_line. induction a as [|c a IH]; [reflexivity|].
  cbn [all_chars]. rewrite andb_true_iff. intros [Hc Ha].
  cbn [contains]. rewrite (IH Ha), orb_false_r.
  unfold NL. cbn [append startswith].
  destruct (Ascii.eqb_spec "010" c) as [<-|_]; [discriminate Hc|reflexivity].
Qed.

Lemma no_blank_line_app (a rest : string) :
  one_line a -> startswith NL rest = false ->
  contains (NL ++ NL) (a ++ NL ++ rest) = contains (NL ++ NL) rest.
Proof.
  unfold one_line, NL. intros Ha Hd. induction a as [|c a IH].
  - cbn [append contains startswith] in *. rewrite Ascii.eqb_refl. cbn [andb].
    destruct rest as [|d rest]; [reflexivity|].
    cbn [startswith contains] in *. now rewrite Hd.
  - cbn [all_chars] in Ha. apply andb_true_iff in Ha. destruct Ha as [Hc Ha].
    cbn [append] in *. cbn [contains]. rewrite (IH Ha).
    cbn [startswith].
    destruct (Ascii.eqb_spec "010" c) as [<-|_]; [discriminate Hc|reflexivity].
Qed.

Lemma split_whole (sep s : string) :
  contains sep s = false -> split sep s = [s].
Proof.
  unfold split. induction s as [|c s IH]; [reflexivity|].
  cbn [contains]. rewrite orb_false_iff. intros [H1 H2].
  cbn [split_from]. rewrite H1, (IH H2). reflexivity.
Qed.

Lemma contains_after (sep : ascii) (a rest : string) :
  contains (String sep "") (a ++ String sep rest) = true.
Proof.
  induction a as [|c a IH]; cbn [append contains startswith].
  - now rewrite Ascii.eqb_refl.
  - rewrite IH. apply orb_true_r.
Qed.

(** X13. A block written in the tab layout is read back cell by cell.
    Take a name and seven cells: the name is one trimmed, non-empty line
    without the two markers, the cells have no tab in them, and joined by
    tabs they make one trimmed line without the instructor marker.  Then
    [parseCourses], on the block made of the name, the marker line, the
    usual header and that line, returns the one record with that name,
    the time, days, place, date range and type of the cells under these
    headers, each trimmed, the type in lower case, an empty place
    replaced by the sentinel, and the sentinel for the instructor. *)
Theorem parseCourses_tab_layout
    (name c0 timeVal daysVal place range type instr : string) :
  let data := [c0; timeVal; daysVal; place; range; type; instr] in
  name <> "" -> trimmed name -> one_line name ->
  contains "Assigned Instructor:" name = false ->
  contains "Scheduled Meeting Times" name = false ->
  Forall (lacks "009") data ->
  trimmed (join TAB data) -> one_line (join TAB data) ->
  contains "Assigned Instructor:" (join TAB data) = false ->
  parseCourses (block_of name header_cells data)
  = Ok [mkCourse name "TBA" (lower (strip type)) (strip timeVal) (strip daysVal)
                 (if truthy (strip place) then strip place else "TBA")
                 (strip range)].
Proof.
  intros data Hne Htrim Hline Hi Hs Htab Hdtrim Hdline Hdi.
  set (row := join TAB data) in *.
  set (header := join TAB header_cells).
  assert (Hrow : row <> "").
  { subst row data. cbn [join]. destruct c0; discriminate. }
  assert (Htext : block_of name header_cells data
                  = (name ++ NL ++ "Scheduled Meeting Times" ++ NL ++ header
                     ++ NL ++ row)%string) by reflexivity.
  destruct name as [|n0 name']; [congruence|].
  pose proof (strip_head _ _ _ Htrim) as Hn0.
  destruct (trimmed_parts _ Hdtrim) as [_ Hrr].
  assert (Hstrip : strip (block_of (String n0 name') header_cells data)
                   = block_of (String n0 name') header_cells data).
  { rewrite Htext. unfold strip.
    replace (lstrip (String n0 name' ++ NL ++ "Scheduled Meeting Times" ++ NL
                     ++ header ++ NL ++ row))
      with ((String n0 name' ++ NL ++ "Scheduled Meeting Times" ++ NL ++ header
             ++ NL) ++ row)%string.
    - rewrite rstrip_app_kept by assumption. now right_nested.
    - right_nested. symmetry. now apply lstrip_kept. }
  assert (Hlines : splitlines (block_of (String n0 name') header_cells data)
                   = [String n0 name'; "Scheduled Meeting Times"; header; row]).
  { rewrite Htext.
    rewrite splitlines_line by exact Hline.
    rewrite (splitlines_line "Scheduled Meeting Times") by reflexivity.
    rewrite (splitlines_line header) by reflexivity.
    now rewrite splitlines_last. }
  assert (Hblank : contains (NL ++ NL) (block_of (String n0 name') header_cells data)
                   = false).
  { rewrite Htext.
    rewrite (no_blank_line_app (String n0 name')) by (assumption || reflexivity).
    rewrite (no_blank_line_app "Scheduled Meeting Times") by reflexivity.
    rewrite (no_blank_line_app header).
    - now apply no_blank_line_last.
    - reflexivity.
    - destruct row as [|r0 row']; [reflexivity|].
      unfold one_line in Hdline. cbn [all_chars] in Hdline.
      apply andb_true_iff in Hdline. destruct Hdline as [Hr0 _].
      unfold NL. cbn [startswith].
      destruct (Ascii.eqb_spec "010" r0) as [<-|_]; [discriminate Hr0|reflexivity]. }
  unfold parseCourses. rewrite Hstrip, (split_whole _ _ Hblank).
  cbn [parseBlocks]. unfold parseBlock. rewrite Hstrip, Hlines.
  assert (Hfi : find_instructor [String n0 name'; "Scheduled Meeting Times"; header; row]
                = None).
  { unfold find_instructor. cbn [fold_left]. rewrite Hi.
    change (contains "Assigned Instructor:" "Scheduled Meeting Times") with false.
    change (contains "Assigned Instructor:" header) with false.
    cbv iota. now rewrite Hdi. }
  assert (Hfs : find_scheduled [String n0 name'; "Scheduled Meeting Times"; header; row] 0
                = Some 1%nat).
  { cbn [find_scheduled]. rewrite Hs. reflexivity. }
  rewrite Hfi, Hfs. cbn [Nat.add nth_error option_map].
  change (strip header) with header. rewrite Hdtrim.
  assert (Hex : extract (Some header) (Some row) sched_default
                = Ok (mkSched (strip timeVal) (strip daysVal) (strip place)
                              (strip range) (lower (strip type)))).
  { unfold extract.
    replace (truthy row) with true
      by (destruct row; [congruence|reflexivity]).
    cbn [negb].
    replace (contains TAB row) with true
      by (symmetry; subst row data; cbn [join]; apply contains_after).
    change (split TAB header) with header_cells.
    replace (split TAB row) with data
      by (symmetry; apply split_join_char; [discriminate|exact Htab]).
    reflexivity. }
  rewrite Hex. cbn [bind].
  unfold Course_init.
  cbn [s_meetingType s_timeVal s_days s_location s_dateRange app].
  rewrite lower_idempotent. now rewrite Htrim.
Qed.

Lemma parseCourses_tab_layout_witness :
  parseCourses (block_of "COMP 1005 A" header_cells lecture_row)
  = Ok [mkCourse "COMP 1005 A" "TBA" "lecture" "9:30 AM - 10:45 AM" "MWF" "Room 1"
                 "01/06/2025 - 04/08/2025"].
Proof.
  apply (parseCourses_tab_layout "COMP 1005 A" "Class" "9:30 AM - 10:45 AM" "MWF"
           "Room 1" "01/06/2025 - 04/08/2025" "Lecture" "Jane Doe");
    try reflexivity; try discriminate.
  repeat constructor.
Defined.


(* ===================================================================== *)
(** ** The day of an event *)
(* ===================================================================== *)

(** *** What the matcher captures *)

Lemma match_spaces_some (R : Type) (s : string) (k : string -> option R) (x : R) :
  match_spaces R s k = Some x -> exists s', k s' = Some x.
Proof.
  induction s as [|c s IH]; cbn [match_spaces]; [discriminate|].
  destruct (isspace c); [|discriminate].
  destruct (match_spaces R s k) as [y|] eqn:Hm.
  - intros [= <-]. now apply IH.
  - intros H. now exists s.
Qed.

(** *** The date part of the text

    A month or a day written on two digits and followed by a slash is
    captured whole: the shorter alternatives fail on the slash. *)

Lemma capture_two (a b : ascii) (rest : string) :
  take (String.length (String a (String b rest)) - String.length rest)
       (String a (String b rest)) = String a (String b "").
Proof.
  replace (String.length (String a (String b rest)) - String.length rest)%nat
    with 2%nat by (cbn [String.length]; lia).
  reflexivity.
Qed.

Lemma digit_not_slash (b : ascii) :
  isdigit b = true -> Ascii.eqb (lower_char "/") (lower_char b) = false.
Proof. each_char b; vm_compute; intros H; try reflexivity; discriminate H. Qed.



Lemma slash_matches : Ascii.eqb (lower_char "/") (lower_char "/") = true.
Proof. reflexivity. Qed.

Ltac by_alternatives H :=
  repeat match goal with
         | |- context [if ?c then _ else _] => destruct c
         end;
  repeat match goal with
         | |- context [match_re ?R ?r ?s ?c ?k] => destruct (match_re R r s c k)
         end;
  intros H; try discriminate H; exact H.

Lemma month_slash (R : Type) (rest : re) (a b : ascii) (tail : string)
    (caps : captures) (k : string -> captures -> option R) (x : R) :
  isdigit b = true ->
  match_re R (Seq month_re (Seq (Lit "/") rest))
           (String a (String b (String "/" tail))) caps k = Some x ->
  match_re R rest tail (("m"%char, String a (String b "")) :: caps) k = Some x.
Proof.
  intros Hb. unfold month_re. cbn [directive Ascii.eqb Bool.eqb alts].
  cbn [match_re]. rewrite (digit_not_slash b Hb), slash_matches, capture_two.
  by_alternatives H.
Qed.

Lemma day_slash (R : Type) (rest : re) (a b : ascii) (tail : string)
    (caps : captures) (k : string -> captures -> option R) (x : R) :
  isdigit b = true ->
  match_re R (Seq day_re (Seq (Lit "/") rest))
           (String a (String b (String "/" tail))) caps k = Some x ->
  match_re R rest tail (("d"%char, String a (String b "")) :: caps) k = Some x.
Proof.
  intros Hb. unfold day_re. cbn [directive Ascii.eqb Bool.eqb alts fold_left].
  cbn [match_re]. rewrite (digit_not_slash b Hb), slash_matches, capture_two.
  by_alternatives H.
Qed.

(** The year takes four digits, no more and no fewer. *)
Lemma capture_four (a b c d : ascii) (rest : string) :
  take (String.length (String a (String b (String c (String d rest))))
        - String.length rest)
       (String a (String b (String c (String d rest))))
  = String a (String b (String c (String d ""))).
Proof.
  replace (String.length (String a (String b (String c (String d rest))))
           - String.length rest)%nat
    with 4%nat by (cbn [String.length]; lia).
  reflexivity.
Qed.

Lemma year_digits (R : Type) (rest : re) (s : string)
    (caps : captures) (k : string -> captures -> option R) (x : R) :
  match_re R (Seq year_re rest) s caps k = Some x ->
  exists a b c d tail,
    s = String a (String b (String c (String d tail)))
    /\ isdigit a = true /\ isdigit b = true /\ isdigit c = true /\ isdigit d = true
    /\ match_re R rest tail
         (("Y"%char, String a (String b (String c (String d "")))) :: caps) k
       = Some x.
Proof.
  unfold year_re. cbn [directive Ascii.eqb Bool.eqb]. cbn [match_re].
  destruct s as [|a [|b [|c [|d tail]]]];
    repeat match goal with
           | |- context [if isdigit ?c then _ else _] => destruct (isdigit c) eqn:?
           end; try discriminate.
  rewrite capture_four. intros H. exists a, b, c, d, tail. now repeat split.
Qed.


(** *** Writing a number and reading it back *)

Lemma isdigit_digit (k : Z) : 0 <= k <= 9 -> isdigit (digit k) = true.
Proof.
  intros H.
  assert (Hc : k = 0 \/ k = 1 \/ k = 2 \/ k = 3 \/ k = 4 \/ k = 5 \/ k = 6
               \/ k = 7 \/ k = 8 \/ k = 9) by lia.
  repeat (destruct Hc as [->|Hc]; [reflexivity|]). now subst k.
Qed.

Lemma isdigit_units (n : Z) : isdigit (digit (n mod 10)) = true.
Proof. apply isdigit_digit. by_division. Qed.

Lemma digit_not_space (k : Z) : 0 <= k <= 9 -> isspace (digit k) = false.
Proof.
  intros H.
  assert (Hc : k = 0 \/ k = 1 \/ k = 2 \/ k = 3 \/ k = 4 \/ k = 5 \/ k = 6
               \/ k = 7 \/ k = 8 \/ k = 9) by lia.
  repeat (destruct Hc as [->|Hc]; [reflexivity|]). now subst k.
Qed.

Lemma digit_value_digit (k : Z) : 0 <= k <= 9 -> digit_value (digit k) = k.
Proof.
  intros H.
  assert (Hc : k = 0 \/ k = 1 \/ k = 2 \/ k = 3 \/ k = 4 \/ k = 5 \/ k = 6
               \/ k = 7 \/ k = 8 \/ k = 9) by lia.
  repeat (destruct Hc as [->|Hc]; [reflexivity|]). now subst k.
Qed.

Lemma int_pad2 (n : Z) : 0 <= n < 100 -> int (pad2 n) = n.
Proof.
  intros H. unfold int, pad2, strip. cbn [lstrip].
  rewrite (digit_not_space (n / 10 mod 10)) by by_division.
  cbn [rstrip]. rewrite (digit_not_space (n mod 10)) by by_division.
  cbn [list_ascii_of_string fold_left].
  rewrite !digit_value_digit by by_division. by_division.
Qed.

Lemma int_pad4 (n : Z) : 0 <= n < 10000 -> int (pad4 n) = n.
Proof.
  intros H. unfold int, pad4, pad2, strip. cbn [append lstrip].
  rewrite (digit_not_space (n / 100 / 10 mod 10)) by by_division.
  cbn [rstrip]. rewrite (digit_not_space (n mod 10)) by by_division.
  cbn [list_ascii_of_string fold_left].
  rewrite !digit_value_digit by by_division. by_division.
Qed.

(** What [strftime] makes of the format of [parseTimeRange]. *)
Lemma date_strftime_text (pads : bool) (d : date) :
  date_strftime pads d "%m/%d/%Y"
  = (pad2 (month_of d) ++ "/" ++ pad2 (day_of d) ++ "/"
     ++ year_text pads (year_of d))%string.
Proof.
  unfold date_strftime. cbn [strftime Ascii.eqb Bool.eqb].
  unfold strftime_field. cbn [Ascii.eqb Bool.eqb dt_date].
  unfold year_text. now rewrite append_empty.
Qed.

Lemma space_not_digit : isdigit " " = false.
Proof. reflexivity. Qed.

(** A year that matched is on four digits: written unpadded below 1000,
    it is followed too early by the space. *)
Lemma year_text_four (pads : bool) (y : Z) (t : string) (a b c d : ascii)
    (tail : string) :
  (year_text pads y ++ String " " t)%string
  = String a (String b (String c (String d tail))) ->
  isdigit b = true -> isdigit c = true -> isdigit d = true ->
  String a (String b (String c (String d ""))) = pad4 y /\ tail = String " " t.
Proof.
  assert (Hp4 : (pad4 y ++ String " " t)%string
                = String a (String b (String c (String d tail))) ->
                String a (String b (String c (String d ""))) = pad4 y
                /\ tail = String " " t).
  { unfold pad4, pad2. cbn [append]. intros [= <- <- <- <- <-]. now split. }
  intros Heq Hb Hc Hd. unfold year_text, unpadded in Heq.
  destruct pads; [now apply Hp4|].
  destruct (y <? 10).
  { cbn [append] in Heq. injection Heq as _ Heq _. subst b. discriminate Hb. }
  destruct (y <? 100).
  { unfold pad2 in Heq. cbn [append] in Heq. injection Heq as _ _ Heq _.
    subst c. discriminate Hc. }
  destruct (y <? 1000).
  { unfold pad2 in Heq. cbn [append] in Heq. injection Heq as _ _ _ Heq _.
    subst d. discriminate Hd. }
  now apply Hp4.
Qed.

(** *** The clock part of the text *)

Lemma clock_re_parts :
  clock_re
  = Seq Spaces (Seq hour_re (Seq (Lit ":") (Seq minute_re (Seq Spaces (Seq half_re Eps))))).
Proof. reflexivity. Qed.

(** A group of one or two digits, and the number it stands for. *)
Lemma capture_one (a : ascii) (rest : string) :
  take (String.length (String a rest) - String.length rest) (String a rest)
  = String a "".
Proof.
  replace (String.length (String a rest) - String.length rest)%nat
    with 1%nat by (cbn [String.length]; lia).
  reflexivity.
Qed.

Lemma digit_is_no_space (c : ascii) : isdigit c = true -> isspace c = false.
Proof. each_char c; vm_compute; intros H; try reflexivity; discriminate H. Qed.

Lemma int_one (a : ascii) :
  isdigit a = true -> int (String a "") = digit_value a.
Proof.
  intros Ha. unfold int, strip. cbn [lstrip]. rewrite (digit_is_no_space a Ha).
  cbn [rstrip]. rewrite (digit_is_no_space a Ha). cbn. lia.
Qed.

Lemma int_two (a b : ascii) :
  isdigit a = true -> isdigit b = true ->
  int (String a (String b "")) = 10 * digit_value a + digit_value b.
Proof.
  intros Ha Hb. unfold int, strip. cbn [lstrip]. rewrite (digit_is_no_space a Ha).
  cbn [rstrip]. rewrite (digit_is_no_space b Hb). cbn. lia.
Qed.

Lemma literal_one (a : ascii) :
  Ascii.eqb (lower_char "1") (lower_char a) = true -> a = "1"%char.
Proof. each_char a; vm_compute; intros H; try discriminate H; reflexivity. Qed.

Lemma literal_zero (a : ascii) :
  Ascii.eqb (lower_char "0") (lower_char a) = true -> a = "0"%char.
Proof. each_char a; vm_compute; intros H; try discriminate H; reflexivity. Qed.

Lemma in_range_digit (lo hi : ascii) (c : ascii) :
  isdigit lo = true -> isdigit hi = true ->
  in_range (code lo) (code hi) c = true ->
  isdigit c = true /\ digit_value lo <= digit_value c <= digit_value hi.
Proof.
  unfold isdigit, in_range, digit_value. rewrite !andb_true_iff, !Z.leb_le. lia.
Qed.

Lemma isdigit_value (c : ascii) : isdigit c = true -> 0 <= digit_value c <= 9.
Proof.
  unfold isdigit, in_range, digit_value. rewrite !andb_true_iff, !Z.leb_le. lia.
Qed.

(** The hour is between 1 and 12 and the minute below 60, whichever
    alternative matched. *)
Lemma hour_group (R : Type) (rest : re) (s : string)
    (caps : captures) (k : string -> captures -> option R) (x : R) :
  match_re R (Seq hour_re rest) s caps k = Some x ->
  exists v tail,
    1 <= int v <= 12
    /\ match_re R rest tail (("I"%char, v) :: caps) k = Some x.
Proof.
  unfold hour_re. cbn [directive Ascii.eqb Bool.eqb alts]. cbn [match_re].
  destruct s as [|a s]; [discriminate|].
  assert (H1 : in_range (code "1") (code "9") a = true ->
               match_re R rest s (("I"%char, String a "") :: caps) k = Some x ->
               exists v tail,
                 1 <= int v <= 12
                 /\ match_re R rest tail (("I"%char, v) :: caps) k = Some x).
  { intros Ha H. exists (String a ""), s. split; [|exact H].
    apply in_range_digit in Ha; try reflexivity. destruct Ha as [Hd Hv].
    rewrite (int_one a Hd). change (digit_value "1") with 1 in Hv.
    change (digit_value "9") with 9 in Hv. lia. }
  rewrite capture_one.
  destruct s as [|b t].
  - destruct (Ascii.eqb (lower_char "1") (lower_char a));
      destruct (Ascii.eqb (lower_char "0") (lower_char a));
      destruct (in_range (code "1") (code "9") a) eqn:Ha;
      try discriminate; intros H; now apply H1.
  - rewrite capture_two.
    destruct (Ascii.eqb (lower_char "1") (lower_char a)) eqn:E1.
    + apply literal_one in E1. subst a.
      destruct (in_range (code "0") (code "2") b) eqn:Hb.
      * destruct (match_re R rest t _ k) as [y|] eqn:Hm.
        -- intros [= <-]. eexists _, t. split; [|exact Hm].
           apply in_range_digit in Hb; try reflexivity. destruct Hb as [Hd Hv].
           rewrite (int_two "1" b eq_refl Hd).
           change (digit_value "1") with 1. change (digit_value "0") with 0 in Hv.
           change (digit_value "2") with 2 in Hv. lia.
        -- change (Ascii.eqb (lower_char "0") (lower_char "1")) with false.
           cbv iota. change (in_range (code "1") (code "9") "1") with true.
           cbv iota. now apply H1.
      * change (Ascii.eqb (lower_char "0") (lower_char "1")) with false.
        cbv iota. change (in_range (code "1") (code "9") "1") with true.
        cbv iota. now apply H1.
    + destruct (Ascii.eqb (lower_char "0") (lower_char a)) eqn:E0.
      * apply literal_zero in E0. subst a.
        destruct (in_range (code "1") (code "9") b) eqn:Hb.
        -- destruct (match_re R rest t _ k) as [y|] eqn:Hm.
           ++ intros [= <-]. eexists _, t. split; [|exact Hm].
              apply in_range_digit in Hb; try reflexivity. destruct Hb as [Hd Hv].
              rewrite (int_two "0" b eq_refl Hd).
              change (digit_value "0") with 0. change (digit_value "1") with 1 in Hv.
              change (digit_value "9") with 9 in Hv. lia.
           ++ change (in_range (code "1") (code "9") "0") with false.
              discriminate.
        -- change (in_range (code "1") (code "9") "0") with false. discriminate.
      * destruct (in_range (code "1") (code "9") a) eqn:Ha; [|discriminate].
        now apply H1.
Qed.

Lemma minute_group (R : Type) (rest : re) (s : string)
    (caps : captures) (k : string -> captures -> option R) (x : R) :
  match_re R (Seq minute_re rest) s caps k = Some x ->
  exists v tail,
    0 <= int v <= 59
    /\ match_re R rest tail (("M"%char, v) :: caps) k = Some x.
Proof.
  unfold minute_re. cbn [directive Ascii.eqb Bool.eqb alts]. cbn [match_re].
  destruct s as [|a s]; [discriminate|].
  assert (H1 : isdigit a = true ->
               match_re R rest s (("M"%char, String a "") :: caps) k = Some x ->
               exists v tail,
                 0 <= int v <= 59
                 /\ match_re R rest tail (("M"%char, v) :: caps) k = Some x).
  { intros Ha H. exists (String a ""), s. split; [|exact H].
    rewrite (int_one a Ha). pose proof (isdigit_value a Ha). lia. }
  rewrite capture_one.
  destruct s as [|b t].
  - destruct (in_range (code "0") (code "5") a);
      destruct (isdigit a) eqn:Ha; try discriminate; intros H; now apply H1.
  - rewrite capture_two.
    destruct (in_range (code "0") (code "5") a) eqn:Ha5.
    + destruct (isdigit b) eqn:Hb.
      * destruct (match_re R rest t _ k) as [y|] eqn:Hm.
        -- intros [= <-]. eexists _, t. split; [|exact Hm].
           apply in_range_digit in Ha5; try reflexivity. destruct Ha5 as [Hd Hv].
           rewrite (int_two a b Hd Hb). pose proof (isdigit_value b Hb).
           change (digit_value "0") with 0 in Hv.
           change (digit_value "5") with 5 in Hv. lia.
        -- destruct (isdigit a) eqn:Ha; [|discriminate]. now apply H1.
      * destruct (isdigit a) eqn:Ha; [|discriminate]. now apply H1.
    + destruct (isdigit a) eqn:Ha; [|discriminate]. now apply H1.
Qed.

Lemma literal_step (R : Type) (c : ascii) (rest : re) (s : string)
    (caps : captures) (k : string -> captures -> option R) (x : R) :
  match_re R (Seq (Lit c) rest) s caps k = Some x ->
  exists tail, match_re R rest tail caps k = Some x.
Proof.
  cbn [match_re]. destruct s as [|a s]; [discriminate|].
  destruct (Ascii.eqb _ _); [|discriminate]. intros H. now exists s.
Qed.

Lemma spaces_step (R : Type) (rest : re) (s : string)
    (caps : captures) (k : string -> captures -> option R) (x : R) :
  match_re R (Seq Spaces rest) s caps k = Some x ->
  exists tail, match_re R rest tail caps k = Some x.
Proof. cbn [match_re]. apply match_spaces_some. Qed.

Lemma literal_lower (c a : ascii) :
  Ascii.eqb (lower_char c) (lower_char a) = true -> lower_char a = lower_char c.
Proof. intros H. apply Ascii.eqb_eq in H. now symmetry. Qed.

(** The half of the day is one of the two markers, in any case. *)
Lemma half_group (R : Type) (s : string)
    (caps : captures) (k : string -> captures -> option R) (x : R) :
  match_re R (Seq half_re Eps) s caps k = Some x ->
  exists v tail,
    (lower v = "am" \/ lower v = "pm")
    /\ k tail (("p"%char, v) :: caps) = Some x.
Proof.
  unfold half_re. cbn [directive Ascii.eqb Bool.eqb word]. cbn [match_re].
  destruct s as [|a [|b t]]; try discriminate.
  - repeat match goal with
           | |- context [if ?c then _ else _] => destruct c
           end; discriminate.
  - rewrite capture_two.
    destruct (Ascii.eqb (lower_char "m") (lower_char b)) eqn:Hb.
    + apply literal_lower in Hb.
      destruct (Ascii.eqb (lower_char "a") (lower_char a)) eqn:Ha.
      * apply literal_lower in Ha.
        destruct (k t _) as [y|] eqn:Hk.
        -- intros [= <-]. eexists _, t. split; [|exact Hk].
           left. cbn [lower]. now rewrite Ha, Hb.
        -- destruct (Ascii.eqb (lower_char "p") (lower_char a)); discriminate.
      * destruct (Ascii.eqb (lower_char "p") (lower_char a)) eqn:Hp; [|discriminate].
        apply literal_lower in Hp. intros H. eexists _, t. split; [|exact H].
        right. cbn [lower]. now rewrite Hp, Hb.
    + repeat match goal with
             | |- context [if ?c then _ else _] => destruct c
             end; discriminate.
Qed.

(** What the clock part of the expression adds to the captures. *)
Lemma clock_captures (R : Type) (s : string)
    (caps : captures) (k : string -> captures -> option R) (x : R) :
  match_re R clock_re s caps k = Some x ->
  exists vI vM vp tail,
    1 <= int vI <= 12 /\ 0 <= int vM <= 59
    /\ (lower vp = "am" \/ lower vp = "pm")
    /\ k tail (("p"%char, vp) :: ("M"%char, vM) :: ("I"%char, vI) :: caps) = Some x.
Proof.
  rewrite clock_re_parts. intros H.
  apply spaces_step in H. destruct H as [s1 H].
  apply hour_group in H. destruct H as (vI & s2 & HI & H).
  apply literal_step in H. destruct H as [s3 H].
  apply minute_group in H. destruct H as (vM & s4 & HM & H).
  apply spaces_step in H. destruct H as [s5 H].
  apply half_group in H. destruct H as (vp & s6 & Hp & H).
  now exists vI, vM, vp, s6.
Qed.

(** *** The date comes back *)

Lemma days_in_month_bound (y m : Z) : 1 <= m <= 12 -> days_in_month y m <= 31.
Proof.
  intros Hm. unfold days_in_month.
  assert (Hc : m = 1 \/ m = 2 \/ m = 3 \/ m = 4 \/ m = 5 \/ m = 6 \/ m = 7
               \/ m = 8 \/ m = 9 \/ m = 10 \/ m = 11 \/ m = 12) by lia.
  clear Hm.
  destruct (is_leap y);
    repeat (destruct Hc as [Hc|Hc]; [subst m; eval_tables; lia|]);
    subst m; eval_tables; lia.
Qed.

Lemma date_fields_bounds (d : date) :
  valid_date d ->
  1 <= year_of d <= 9999 /\ 1 <= month_of d <= 12 /\ 1 <= day_of d <= 31.
Proof.
  intros Hv. pose proof (date_new_of_fields d Hv) as H. revert H.
  unfold date_new, MINYEAR, MAXYEAR.
  destruct ((1 <=? year_of d) && (year_of d <=? 9999)) eqn:Hy; [|discriminate].
  destruct ((1 <=? month_of d) && (month_of d <=? 12)) eqn:Hm; [|discriminate].
  destruct ((1 <=? day_of d) && (day_of d <=? days_in_month (year_of d) (month_of d)))
    eqn:Hd; [|discriminate].
  intros _. apply andb_true_iff in Hy, Hm, Hd. rewrite !Z.leb_le in Hy, Hm, Hd.
  pose proof (days_in_month_bound (year_of d) (month_of d) Hm). lia.
Qed.

(** [strptime] on the text that [strftime] wrote for a date, followed by
    a clock time, gives that date when it gives anything, with the hour
    on the 24-hour clock. *)
Lemma strptime_event_fields (pads : bool) (d : date) (t : string) (dt : datetime) :
  valid_date d ->
  strptime (date_strftime pads d "%m/%d/%Y" ++ " " ++ t) "%m/%d/%Y %I:%M %p" = Ok dt ->
  dt_date dt = d /\ 0 <= hour dt <= 23 /\ 0 <= minute dt <= 59
  /\ second dt = 0 /\ tzinfo dt = None.
Proof.
  intros Hv. rewrite date_strftime_text. unfold strptime.
  change (pattern "%m/%d/%Y %I:%M %p") with (Some (date_re clock_re)).
  cbv beta iota.
  match goal with
  | |- context [rematch ?r ?s] => destruct (rematch r s) as [[caps [|c rest]]|] eqn:Hm
  end; try discriminate.
  assert (Hcaps : exists vI vM vp,
             1 <= int vI <= 12 /\ 0 <= int vM <= 59
             /\ (lower vp = "am" \/ lower vp = "pm")
             /\ caps = [("p"%char, vp); ("M"%char, vM); ("I"%char, vI);
                        ("Y"%char, pad4 (year_of d));
                        ("d"%char, pad2 (day_of d));
                        ("m"%char, pad2 (month_of d))]).
  { unfold rematch, date_re in Hm. revert Hm. right_nested. unfold pad2 at 1 2.
    cbn [append]. intros Hm.
    apply month_slash in Hm; [|apply isdigit_units].
    apply day_slash in Hm; [|apply isdigit_units].
    apply year_digits in Hm.
    destruct Hm as (a & b & c & e & tail & Heq & Ha & Hb & Hc & He & Hm).
    apply year_text_four in Heq; try assumption. destruct Heq as [Hy ->].
    rewrite Hy in Hm.
    apply clock_captures in Hm.
    destruct Hm as (vI & vM & vp & s' & HI & HM & Hp & Hk).
    injection Hk as <- _. now exists vI, vM, vp. }
  destruct Hcaps as (vI & vM & vp & HI & HM & Hp & ->).
  unfold field. cbn [lookup Ascii.eqb Bool.eqb].
  destruct (date_fields_bounds d Hv) as (By & Bm & Bd).
  rewrite int_pad4, !int_pad2 by lia. cbn [bind].
  rewrite (date_new_of_fields d Hv). cbn [bind].
  intros [= <-]. cbn [dt_date hour minute second tzinfo].
  split; [reflexivity|]. split; [|now repeat split].
  destruct Hp as [-> | ->]; cbn [String.eqb Ascii.eqb Bool.eqb orb nth am_pm];
    destruct (Z.eqb_spec (int vI) 12); lia.
Qed.

Lemma strptime_event_date (pads : bool) (d : date) (t : string) (dt : datetime) :
  valid_date d ->
  strptime (date_strftime pads d "%m/%d/%Y" ++ " " ++ t) "%m/%d/%Y %I:%M %p" = Ok dt ->
  dt_date dt = d /\ second dt = 0 /\ tzinfo dt = None.
Proof.
  intros Hv H.
  destruct (strptime_event_fields pads d t dt Hv H) as (Hd & _ & _ & Hs & Hz).
  now repeat split.
Qed.

(** *** The first occurrence

    What [scan] has seen when it returns, with no bound on the start
    date: a step past the last date raises. *)

Lemma scan_returns (n : nat) (startDate current : date) (targets : list Z)
    (r : date) :
  scan n startDate current targets = Ok r ->
  (exists k, 0 <= k < Z.of_nat n
     /\ r = mkDate (toordinal current + k)
     /\ (k = 0 \/ 0 < toordinal current + k <= MAXORDINAL)
     /\ mem (weekday r) targets = true
     /\ forall j, 0 <= j < k ->
          mem (weekday (mkDate (toordinal current + j))) targets = false)
  \/ (r = startDate
      /\ forall j, 0 <= j < Z.of_nat n ->
           mem (weekday (mkDate (toordinal current + j))) targets = false).
Proof.
  revert current. induction n as [|n IH]; intros [o]; cbn [toordinal scan].
  - intros [= <-]. right. split; [reflexivity|]. intros j Hj. lia.
  - destruct (mem (weekday (mkDate o)) targets) eqn:Hm.
    + intros [= <-]. left. exists 0. rewrite Z.add_0_r.
      repeat split; try lia; try assumption.
    + unfold add_days. cbn [toordinal].
      destruct ((0 <? o + 1) && (o + 1 <=? MAXORDINAL)) eqn:Hb; [|discriminate].
      apply andb_true_iff in Hb. rewrite Z.ltb_lt, Z.leb_le in Hb.
      cbn [bind]. intros H. apply IH in H. cbn [toordinal] in H.
      destruct H as [[k [Hk [Hr [Hv [Hin Hbefore]]]]]|[Hr Hnone]].
      * left. exists (k + 1). replace (o + (k + 1)) with (o + 1 + k) by lia.
        split; [lia|]. split; [exact Hr|]. split; [right; lia|].
        split; [exact Hin|].
        intros j Hj. destruct (Z.eq_dec j 0) as [->|Hj0].
        -- now rewrite Z.add_0_r.
        -- replace (o + j) with (o + 1 + (j - 1)) by lia. apply Hbefore. lia.
      * right. split; [exact Hr|]. intros j Hj.
        destruct (Z.eq_dec j 0) as [->|Hj0].
        -- now rewrite Z.add_0_r.
        -- replace (o + j) with (o + 1 + (j - 1)) by lia. apply Hnone. lia.
Qed.

Lemma parseDays_targets (daysStr : string) :
  parseDays daysStr <> [] -> targetWeekdays (parseDays daysStr) <> [].
Proof.
  intros Hne Ht.
  pose proof (decode_days_tokens (upper (strip daysStr))) as Htok.
  fold (parseDays daysStr) in Htok.
  pose proof (targetWeekdays_length _ Htok) as Hlen.
  rewrite Ht in Hlen. destruct (parseDays daysStr); [congruence|discriminate Hlen].
Qed.

Lemma getFirstOccurrence_found (startDate first : date) (bydayList : list string) :
  valid_date startDate ->
  targetWeekdays bydayList <> [] ->
  getFirstOccurrence startDate bydayList = Ok first ->
  exists k, 0 <= k < 7
    /\ first = mkDate (toordinal startDate + k)
    /\ valid_date first
    /\ In (weekday first) (targetWeekdays bydayList)
    /\ forall j, 0 <= j < k ->
         ~ In (weekday (mkDate (toordinal startDate + j))) (targetWeekdays bydayList).
Proof.
  intros Hv Hne H. unfold getFirstOccurrence in H. apply scan_returns in H.
  destruct H as [[k [Hk [Hr [Hb [Hin Hbefore]]]]]|[_ Hnone]].
  - exists k. split; [exact Hk|]. split; [exact Hr|]. split.
    { subst first. unfold valid_date in *. cbn [toordinal].
      destruct Hb as [->|Hb]; lia. }
    split; [now apply mem_In|].
    intros j Hj. apply mem_not_In. now apply Hbefore.
  - exfalso.
    destruct (targetWeekdays bydayList) as [|t rest] eqn:Ht; [congruence|].
    assert (Hr : 0 <= t <= 6).
    { apply (targetWeekdays_range bydayList). rewrite Ht. now left. }
    destruct (week_covers (toordinal startDate) t Hr) as [j [Hj Hw]].
    specialize (Hnone j Hj). apply mem_not_In in Hnone.
    apply Hnone. rewrite Hw. now left.
Qed.

(** Both ends of a resolved time range are on the event date. *)
Lemma parseTimeRange_event_date (pads : bool) (timeStr : string) (d : date)
    (tz : string) (s e : datetime) :
  valid_date d ->
  parseTimeRange pads timeStr d tz = (Some s, Some e) ->
  dt_date s = d /\ dt_date e = d /\ second s = 0 /\ second e = 0.
Proof.
  intros Hv. unfold parseTimeRange, parseTimeRange_try.
  destruct (map _ (split "-" timeStr)) as [|a [|b [|c l]]]; try discriminate.
  cbv zeta.
  match goal with
  | |- context [bind (strptime ?x ?f)] => destruct (strptime x f) as [s'|] eqn:Hs
  end; cbn [bind]; [|discriminate].
  match goal with
  | |- context [bind (strptime ?x ?f)] => destruct (strptime x f) as [e'|] eqn:He
  end; cbn [bind]; [|discriminate].
  intros [= <- <-]. cbn [replace_tzinfo dt_date second].
  apply strptime_event_date in Hs, He; try assumption.
  destruct Hs as (-> & -> & _), He as (-> & -> & _). now repeat split.
Qed.

(** X14. An event starts and ends on the day of its first occurrence.
    The document that [generateICS] returns is the preamble, then for
    each record, in input order, nothing or a block of ten lines, then
    the closing line.  A record gives nothing exactly when there is a
    reason to skip it.  For every other record the start and the end of
    the event fall on one and the same date, the date on which
    [parseTimeRange] was called; that date is the first of the seven days
    from the start of the date range on whose weekday is among the
    decoded days, so the event never starts on a day that its BYDAY list
    leaves out; and the DTSTART and DTEND lines of the block show that
    date, with the seconds at zero. *)
Theorem generateICS_first_day (E : env) (courses : list Course)
    (calendarName doc : string) :
  generateICS E courses calendarName = Ok doc ->
  exists blocks,
    Forall2 (first_day_contribution E) courses blocks
    /\ doc = join NL (preamble calendarName ++ List.concat blocks ++ ["END:VCALENDAR"]).
Proof.
  intros H. destruct (generateICS_blocks E courses calendarName doc H)
    as (blocks & HF & Hdoc).
  exists blocks. split; [|exact Hdoc].
  eapply Forall2_impl; [|exact HF]. clear. intros c block Hem.
  destruct (emits_skip_or_event E c block Hem) as [Hs|[Hn [n Hev]]]; [now left|].
  right. split; [exact Hn|].
  destruct (course_event_emits E n c block Hev)
    as (sd & ed & first & s & e & _ & _ & _ & Hr & Hd & Hf & Ht & ->).
  destruct (parseDateRange_cases (dateRange c))
    as [Hnone|(sd' & ed' & Hr' & Hv & _)]; [congruence|].
  assert (sd' = sd) by congruence. subst sd'.
  destruct (getFirstOccurrence_found sd first (parseDays (days c)) Hv
              (parseDays_targets _ Hd) Hf)
    as (k & Hk & Hfirst & Hvf & Hin & Hbefore).
  destruct (parseTimeRange_event_date _ _ _ _ _ _ Hvf Ht) as (Hs & He & Hs0 & He0).
  subst first.
  exists sd, ed, s, e, k. rewrite Hs, He.
  split; [exact Hr|]. split; [exact Hk|]. split; [exact Hf|]. split; [exact Ht|].
  split; [reflexivity|]. split; [reflexivity|]. split; [exact Hvf|].
  split; [exact Hin|]. split; [exact Hbefore|].
  split; [reflexivity|]. split; [reflexivity|].
  cbn [vevent nth]. rewrite !formatDateTime_stamp, Hs, He, Hs0, He0.
  repeat split.
Qed.

Lemma generateICS_first_day_witness :
  exists doc blocks,
    generateICS sample_env [lecture; overnight] "Courses Calendar" = Ok doc
    /\ Forall2 (first_day_contribution sample_env) [lecture; overnight] blocks
    /\ doc = join NL (preamble "Courses Calendar" ++ List.concat blocks
                      ++ ["END:VCALENDAR"]).
Proof.
  eexists.
  match goal with
  | |- exists blocks, generateICS ?P ?cs ?name = Ok ?d /\ _ =>
      assert (H : generateICS P cs name = Ok d) by (vm_compute; reflexivity);
      destruct (generateICS_first_day sample_env cs name d H) as (blocks & HF & Hdoc)
  end.
  exists blocks. split; [exact H|]. split; [exact HF|exact Hdoc].
Defined.

(** *** The clock of an event *)

(** X17. [parseTimeRange] gives both ends or none.  When it gives them,
    both are on the event date and in the given zone, the hours are on
    the 24-hour clock, the minutes below 60 and the seconds zero: the
    hour of "%I" is between 1 and 12, and the marker of "%p" makes of
    it an hour from 0 to 11 before noon and from 12 to 23 after. *)
Theorem parseTimeRange_on_clock (pads : bool) (timeStr : string) (d : date)
    (tz : string) :
  valid_date d ->
  parseTimeRange pads timeStr d tz = (None, None)
  \/ exists startDT endDT,
       parseTimeRange pads timeStr d tz = (Some startDT, Some endDT)
       /\ dt_date startDT = d /\ dt_date endDT = d
       /\ on_clock startDT /\ on_clock endDT
       /\ tzinfo startDT = Some tz /\ tzinfo endDT = Some tz.
Proof.
  intros Hv. unfold parseTimeRange, parseTimeRange_try.
  destruct (map _ (split "-" timeStr)) as [|a [|b [|c l]]]; try (now left).
  cbv zeta.
  match goal with
  | |- context [bind (strptime ?x ?f)] => destruct (strptime x f) as [s|] eqn:Hs
  end; cbn [bind]; [|now left].
  match goal with
  | |- context [bind (strptime ?x ?f)] => destruct (strptime x f) as [e|] eqn:He
  end; cbn [bind]; [|now left].
  apply strptime_event_fields in Hs, He; try assumption.
  destruct Hs as (Hsd & Hsh & Hsm & Hss & _), He as (Hed & Heh & Hem & Hes & _).
  right. eexists _, _. split; [reflexivity|].
  unfold on_clock. cbn [replace_tzinfo dt_date hour minute second tzinfo].
  repeat split; try assumption; lia.
Qed.

Lemma parseTimeRange_on_clock_witness :
  exists startDT endDT,
    parseTimeRange true "11:00 PM - 12:30 AM" jan06 tzid = (Some startDT, Some endDT)
    /\ on_clock startDT /\ on_clock endDT.
Proof.
  assert (Hv : valid_date jan06) by (unfold valid_date; vm_compute; split; discriminate).
  destruct (parseTimeRange_on_clock true "11:00 PM - 12:30 AM" jan06 tzid Hv)
    as [Hn|(s & e & Hr & _ & _ & Hs & He & _)].
  - vm_compute in Hn. discriminate Hn.
  - exists s, e. split; [exact Hr|]. split; [exact Hs|exact He].
Defined.

(* ===================================================================== *)
(** ** The lines of the records and of the document *)
(* ===================================================================== *)

(** *** The fields of a record hold single lines *)

(** Cutting a string up keeps its characters: what holds of all the
    characters of a string holds of those of its parts. *)
Lemma within_lstrip (cls : ascii -> bool) (s : string) :
  within cls s -> within cls (lstrip s).
Proof.
  unfold within. induction s as [|c s IH]; [trivial|].
  cbn [lstrip]. destruct (isspace c); [|trivial].
  cbn [all_chars]. rewrite andb_true_iff. intros [_ H]. now apply IH.
Qed.

Lemma within_rstrip (cls : ascii -> bool) (s : string) :
  within cls s -> within cls (rstrip s).
Proof.
  unfold within. induction s as [|c s IH]; [trivial|].
  cbn [all_chars rstrip]. rewrite andb_true_iff. intros [Hc Hs].
  specialize (IH Hs). destruct (rstrip s) as [|d r].
  - destruct (isspace c); [reflexivity|]. cbn [all_chars]. now rewrite Hc.
  - cbn [all_chars] in *. now rewrite Hc.
Qed.

Lemma within_strip (cls : ascii -> bool) (s : string) :
  within cls s -> within cls (strip s).
Proof. intros H. now apply within_rstrip, within_lstrip. Qed.

Lemma within_push (cls : ascii -> bool) (c : ascii) (fields : list string) :
  cls c = true -> Forall (within cls) fields -> Forall (within cls) (push c fields).
Proof.
  unfold within. intros Hc [|f rest Hf Hrest]; cbn [push].
  - constructor; [cbn [all_chars]; now rewrite Hc|constructor].
  - constructor; [cbn [all_chars]; now rewrite Hc|assumption].
Qed.

Lemma within_split_from (cls : ascii -> bool) (sep : string) (s : string) :
  within cls s -> forall skip, Forall (within cls) (split_from sep skip s).
Proof.
  unfold within. induction s as [|c s IH]; intros Hs skip; cbn [split_from].
  - now repeat constructor.
  - cbn [all_chars] in Hs. apply andb_true_iff in Hs. destruct Hs as [Hc Hs].
    destruct skip as [|k]; [|now apply IH].
    destruct (startswith sep (String c s)).
    + constructor; [reflexivity|now apply IH].
    + apply within_push; [exact Hc|now apply IH].
Qed.

Lemma within_split (cls : ascii -> bool) (sep s : string) :
  within cls s -> Forall (within cls) (split sep s).
Proof. intros H. now apply within_split_from. Qed.

Lemma within_split_2spaces (cls : ascii -> bool) (s : string) :
  within cls s -> Forall (within cls) (split_2spaces s).
Proof.
  unfold split_2spaces, within.
  assert (H : forall inrun, all_chars cls s = true ->
                            Forall (within cls) (split_spaces_from inrun s)).
  { induction s as [|c s IH]; intros inrun Hs; cbn [split_spaces_from].
    - now repeat constructor.
    - cbn [all_chars] in Hs. apply andb_true_iff in Hs. destruct Hs as [Hc Hs].
      assert (Hp : Forall (within cls) (push c (split_spaces_from false s)))
        by (apply within_push; [exact Hc|now apply IH]).
      destruct (isspace c); [|exact Hp].
      destruct inrun; [now apply IH|].
      destruct s as [|d s']; [exact Hp|].
      destruct (isspace d); [|exact Hp].
      constructor; [reflexivity|now apply IH]. }
  apply H.
Qed.

Lemma within_nth (cls : ascii -> bool) (l : list string) (i : nat) :
  Forall (within cls) l -> within cls (nth i l "").
Proof.
  intros H. destruct (nth_in_or_default i l "") as [Hin| ->]; [|reflexivity].
  rewrite Forall_forall in H. now apply H.
Qed.

Lemma within_getitem (cls : ascii -> bool) (l : list string) (i : nat) (v : string) :
  Forall (within cls) l -> getitem l i = Ok v -> within cls v.
Proof.
  unfold getitem. intros H. destruct (nth_error l i) as [x|] eqn:Hx; [|discriminate].
  intros [= <-]. rewrite Forall_forall in H. apply H. eapply nth_error_In; eassumption.
Qed.


(** The lines that [splitlines] gives hold no line boundary. *)
Lemma splitlines_lines (s : string) : Forall one_line (splitlines s).
Proof.
  unfold splitlines. generalize false.
  induction s as [|c s IH]; intros after_cr; cbn [splitlines_from]; [constructor|].
  destruct (after_cr && (code c =? 10)); [apply IH|].
  destruct (islinebreak c) eqn:Hc.
  - constructor; [reflexivity|apply IH].
  - apply within_push; [now rewrite Hc|apply IH].
Qed.

Lemma lower_char_linebreak (c : ascii) : islinebreak (lower_char c) = islinebreak c.
Proof. each_char c; vm_compute; reflexivity. Qed.

Lemma lower_line (s : string) : one_line s -> one_line (lower s).
Proof.
  unfold one_line. induction s as [|c s IH]; [trivial|].
  cbn [lower all_chars]. rewrite lower_char_linebreak, !andb_true_iff.
  intros [Hc Hs]. split; [exact Hc|now apply IH].
Qed.

Lemma strip_line (s : string) : one_line s -> one_line (strip s).
Proof. apply within_strip. Qed.

Lemma by_header_lines (headers data : list string) (f f' : sched) (e : option exn) :
  Forall one_line data ->
  line_sched f -> by_header headers data f = (f', e) -> line_sched f'.
Proof.
  unfold by_header, assign, column, line_sched.
  intros Hd (H1 & H2 & H3 & H4 & H5).
  repeat match goal with
         | |- context [bind (Py.index ?h ?n)] => destruct (Py.index h n); cbn [bind]
         | |- context [bind (getitem ?d ?i)] =>
             let Hg := fresh "Hg" in
             destruct (getitem d i) eqn:Hg; cbn [bind];
             [apply (within_getitem _ _ _ _ Hd) in Hg|]
         end;
    intros [= <- <-];
    cbn [s_timeVal s_days s_location s_dateRange s_meetingType
         set_timeVal set_days set_location set_dateRange set_meetingType];
    repeat split;
    auto using strip_line, lower_line.
Qed.

Lemma by_position_lines (info : string) (f : sched) :
  one_line info -> line_sched f -> line_sched (by_position info f).
Proof.
  intros Hi Hf. unfold by_position. destruct (_ <=? _)%nat; [|exact Hf].
  pose proof (within_split_2spaces _ info Hi) as Hp.
  unfold line_sched.
  cbn [s_timeVal s_days s_location s_dateRange s_meetingType].
  repeat split; try apply lower_line; apply strip_line; now apply within_nth.
Qed.

Lemma extract_lines (headerLine meetingInfoLine : option string) (f f' : sched) :
  (forall info, meetingInfoLine = Some info -> one_line info) ->
  line_sched f -> extract headerLine meetingInfoLine f = Ok f' -> line_sched f'.
Proof.
  intros Hi Hf. unfold extract.
  destruct meetingInfoLine as [info|]; [|now intros [= <-]].
  specialize (Hi info eq_refl).
  destruct (negb (truthy info)); [now intros [= <-]|].
  destruct (contains TAB info).
  - destruct headerLine as [header|]; [|discriminate].
    pose proof (within_split _ TAB info Hi) as Hd.
    destruct (by_header _ _ f) as [f1 [e|]] eqn:Hb.
    + destruct e; try discriminate. intros [= <-].
      apply by_position_lines; [exact Hi|]. eapply by_header_lines; eassumption.
    + intros [= <-]. eapply by_header_lines; eassumption.
  - intros [= <-]. now apply by_position_lines.
Qed.

Lemma find_instructor_line (lines : list string) (i : string) :
  Forall one_line lines -> find_instructor lines = Some i -> one_line i.
Proof.
  unfold find_instructor. intros Hl.
  assert (H : forall acc, (forall j, acc = Some j -> one_line j) ->
              forall j,
                fold_left
                  (fun instructor line =>
                     if contains "Assigned Instructor:" line then
                       let parts := split "Assigned Instructor:" line in
                       Some (if (1 <? List.length parts)%nat
                             then strip (nth 1 parts "") else "TBA")
                     else instructor) lines acc = Some j -> one_line j).
  { induction Hl as [|line lines Hline _ IH]; intros acc Hacc j; cbn [fold_left].
    - apply Hacc.
    - apply IH. destruct (contains _ line); [|exact Hacc].
      intros k [= <-]. cbv zeta.
      destruct (_ <? _)%nat; [|reflexivity].
      apply strip_line, within_nth. now apply within_split. }
  apply H. discriminate.
Qed.

(** X15. No field of a record that [parseCourses] returns holds a line
    boundary: the lines of a block come from [splitlines], and a field
    is cut out of one line by [split], [re.split], [strip] and [lower],
    or is the sentinel. *)
Theorem parseCourses_single_lines (text : string) (courses : list Course) :
  parseCourses text = Ok courses -> Forall single_line courses.
Proof.
  unfold parseCourses. apply parseBlocks_all; [|constructor].
  intros b c. unfold parseBlock.
  pose proof (splitlines_lines (strip b)) as Hl.
  destruct (splitlines (strip b)) as [|line0 rest]; [discriminate|].
  destruct (extract _ _ _) as [f|e] eqn:He; cbn [bind]; [|discriminate].
  intros [= <-].
  assert (Hd : line_sched sched_default) by (repeat split).
  apply extract_lines in He; [|clear He|exact Hd].
  - destruct He as (H1 & H2 & H3 & H4 & H5).
    unfold single_line, Course_init.
    cbn [className instructor meetingType time days location dateRange].
    split; [apply strip_line; now inversion Hl|]. split.
    { destruct (find_instructor (line0 :: rest)) as [i|] eqn:Hi; [|reflexivity].
      destruct (truthy i); [|reflexivity].
      eapply find_instructor_line; eassumption. }
    split; [now apply lower_line|]. split; [assumption|]. split; [assumption|].
    split; [destruct (truthy (s_location f)); [assumption|reflexivity]|assumption].
  - intros info. destruct (find_scheduled _ _) as [i|]; [|discriminate].
    destruct (nth_error (line0 :: rest) (i + 2)) as [x|] eqn:Hx; [|discriminate].
    intros [= <-]. apply strip_line.
    rewrite Forall_forall in Hl. apply Hl. eapply nth_error_In; eassumption.
Qed.

Lemma parseCourses_single_lines_witness :
  Forall single_line
    [mkCourse "COMP 1005 A" "Jane Doe" "lecture" "9:30 AM - 10:45 AM" "MWF"
              "Room 1" "01/06/2025 - 04/08/2025";
     mkCourse "MATH 1007 B" "TBA" "tba" "TBA" "TBA" "TBA" "TBA"].
Proof.
  apply (parseCourses_single_lines two_courses). vm_compute. reflexivity.
Defined.

(** *** The document line by line *)

Lemma no_line_feed_app (a b : string) :
  no_line_feed a -> no_line_feed b -> no_line_feed (a ++ b).
Proof.
  unfold no_line_feed. intros Ha Hb. now rewrite all_chars_app, Ha, Hb.
Qed.

Lemma one_line_no_feed (s : string) : one_line s -> no_line_feed s.
Proof.
  apply all_chars_weaken. intros c.
  each_char c; vm_compute; intros H; try reflexivity; discriminate H.
Qed.

Lemma no_line_feed_lacks (s : string) : no_line_feed s -> lacks "010" s.
Proof.
  apply all_chars_weaken. intros c. now rewrite Ascii.eqb_sym.
Qed.

(** The digits of a stamp. *)
Lemma digit_no_feed (k : Z) (rest : string) :
  0 <= k <= 9 -> no_line_feed rest -> no_line_feed (String (digit k) rest).
Proof.
  intros H Hr. unfold no_line_feed in *. cbn [all_chars]. rewrite Hr, andb_true_r.
  assert (Hc : k = 0 \/ k = 1 \/ k = 2 \/ k = 3 \/ k = 4 \/ k = 5 \/ k = 6
               \/ k = 7 \/ k = 8 \/ k = 9) by lia.
  repeat (destruct Hc as [->|Hc]; [reflexivity|]). now subst k.
Qed.

Lemma pad2_no_feed (n : Z) : no_line_feed (pad2 n).
Proof.
  unfold pad2. apply digit_no_feed; [by_division|].
  apply digit_no_feed; [by_division|reflexivity].
Qed.

Lemma pad4_no_feed (n : Z) : no_line_feed (pad4 n).
Proof. unfold pad4. apply no_line_feed_app; apply pad2_no_feed. Qed.

Lemma unpadded_no_feed (n : Z) : 0 <= n -> no_line_feed (unpadded n).
Proof.
  intros Hn. unfold unpadded.
  destruct (Z.ltb_spec n 10); [apply digit_no_feed; [lia|reflexivity]|].
  destruct (Z.ltb_spec n 100); [apply pad2_no_feed|].
  destruct (Z.ltb_spec n 1000); [|apply pad4_no_feed].
  apply digit_no_feed; [by_division|apply pad2_no_feed].
Qed.

Lemma stamp_no_feed (pads : bool) (d : date) (h m s : Z) :
  valid_date d -> no_line_feed (stamp pads d h m s).
Proof.
  intros Hv. destruct (date_fields_bounds d Hv) as (Hy & _ & _).
  unfold stamp.
  repeat apply no_line_feed_app;
    try apply pad2_no_feed; try reflexivity.
  destruct pads; [apply pad4_no_feed|apply unpadded_no_feed; lia].
Qed.

Lemma lower_no_feed (s : string) : no_line_feed s -> no_line_feed (lower s).
Proof.
  unfold no_line_feed. induction s as [|c s IH]; [trivial|].
  cbn [lower all_chars]. rewrite !andb_true_iff. intros [Hc Hs].
  split; [|now apply IH]. revert Hc. clear.
  each_char c; vm_compute; intros H; try reflexivity; discriminate H.
Qed.

Lemma capitalize_no_feed (s : string) : no_line_feed s -> no_line_feed (capitalize s).
Proof.
  destruct s as [|c s]; [trivial|].
  unfold no_line_feed at 1. cbn [all_chars capitalize]. rewrite andb_true_iff.
  intros [Hc Hs]. apply no_line_feed_app; [|now apply lower_no_feed].
  revert Hc. clear.
  each_char c; vm_compute; intros H; try reflexivity; discriminate H.
Qed.

Lemma join_no_feed (sep : string) (l : list string) :
  no_line_feed sep -> Forall no_line_feed l -> no_line_feed (join sep l).
Proof.
  intros Hsep H. induction H as [|x l Hx Hl IH]; [reflexivity|].
  destruct l as [|y l]; [exact Hx|].
  change (join sep (x :: y :: l)) with (x ++ sep ++ join sep (y :: l))%string.
  now repeat apply no_line_feed_app.
Qed.

Lemma tokens_no_feed (l : list string) :
  Forall (fun t => In t weekday_tokens) l -> Forall no_line_feed l.
Proof.
  apply Forall_impl. intros t Ht. unfold weekday_tokens in Ht. cbn [In] in Ht.
  repeat (destruct Ht as [<-|Ht]; [reflexivity|]). destruct Ht.
Qed.

Ltac no_feed :=
  repeat match goal with
         | |- no_line_feed (_ ++ _) => apply no_line_feed_app
         | |- no_line_feed (stamp _ _ _ _ _) => apply stamp_no_feed
         | |- no_line_feed (capitalize _) => apply capitalize_no_feed
         | |- no_line_feed (join _ _) => apply join_no_feed
         end;
  try assumption; try reflexivity.

Lemma vevent_no_feed (E : env) (c : Course) (uid : string)
    (startDT endDT untilDT : datetime) (bydayList : list string) :
  unbroken c -> no_line_feed uid ->
  valid_date (dt_date (now_ny E)) -> valid_date (dt_date startDT) ->
  valid_date (dt_date endDT) -> valid_date (dt_date untilDT) ->
  Forall no_line_feed bydayList ->
  Forall no_line_feed (vevent E c uid startDT endDT untilDT bydayList).
Proof.
  intros (Hn & Hi & Hm & Hl) Hu Hnow Hs He Hun Hb. unfold vevent, rrule_of.
  rewrite !formatDateTime_stamp.
  repeat (apply Forall_cons; [no_feed|]). apply Forall_nil.
Qed.

Lemma course_event_no_feed (E : env) (n : nat) (c : Course) (block : list string) :
  unbroken c -> no_line_feed (uuid4 E n) -> valid_date (dt_date (now_ny E)) ->
  course_event E n c = Ok (Some block) ->
  Forall no_line_feed block /\ List.length block = 10%nat
  /\ event_blocks block = 1%nat.
Proof.
  intros Hc Hu Hnow H.
  destruct (course_event_emits E n c block H)
    as (sd & ed & first & s & e & _ & _ & _ & Hr & Hd & Hf & Ht & ->).
  destruct (parseDateRange_cases (dateRange c))
    as [Hn|(sd' & ed' & Hr' & Hv & Hve)]; [congruence|].
  assert (sd' = sd) by congruence. assert (ed' = ed) by congruence. subst sd' ed'.
  destruct (getFirstOccurrence_found sd first (parseDays (days c)) Hv
              (parseDays_targets _ Hd) Hf)
    as (k & _ & _ & Hvf & _ & _).
  destruct (parseTimeRange_event_date _ _ _ _ _ _ Hvf Ht) as (Hs & He & _ & _).
  split; [|split; [reflexivity|apply vevent_one_block]].
  apply vevent_no_feed; try assumption.
  - apply no_line_feed_app; [exact Hu|reflexivity].
  - now rewrite Hs.
  - now rewrite He.
  - apply tokens_no_feed. unfold parseDays. apply decode_days_tokens.
Qed.

(** The records of [parseCourses] are of that kind. *)
Lemma single_line_unbroken (c : Course) : single_line c -> unbroken c.
Proof.
  intros (H1 & H2 & H3 & _ & _ & H6 & _).
  repeat split; now apply one_line_no_feed.
Qed.

Lemma events_no_feed (E : env) (courses : list Course) :
  Forall unbroken courses ->
  (forall i, no_line_feed (uuid4 E i)) ->
  valid_date (dt_date (now_ny E)) ->
  forall n lines0 lines,
    events E n courses lines0 = Ok lines ->
    exists body,
      lines = lines0 ++ body
      /\ Forall no_line_feed body
      /\ List.length body = (10 * event_blocks body)%nat.
Proof.
  intros Hc Hu Hnow. induction Hc as [|c courses Hc _ IH];
    intros n lines0 lines; cbn [events].
  - intros [= <-]. exists []. rewrite app_nil_r. repeat split. constructor.
  - destruct (course_event E n c) as [[block|]|e] eqn:Hev; cbn [bind];
      [| |discriminate].
    + intros H. destruct (IH _ _ _ H) as (body & -> & Hb & Hlen).
      destruct (course_event_no_feed E n c block Hc (Hu n) Hnow Hev)
        as (Hbf & Hbl & Hbe).
      exists (block ++ body). rewrite app_assoc. split; [reflexivity|].
      split; [apply Forall_app; now split|].
      rewrite length_app, event_blocks_app, Hbl, Hbe, Hlen. lia.
    + apply IH.
Qed.

(** A joined text among texts to join can be joined piece by piece. *)
Lemma join_app (sep : string) (a b : list string) :
  a <> [] -> b <> [] ->
  join sep (a ++ b) = (join sep a ++ sep ++ join sep b)%string.
Proof.
  intros Ha Hb. induction a as [|x a IH]; [congruence|].
  destruct a as [|y a].
  - destruct b as [|z b]; [congruence|]. reflexivity.
  - change (join sep ((x :: y :: a) ++ b))
      with (x ++ sep ++ join sep ((y :: a) ++ b))%string.
    rewrite IH by discriminate.
    change (join sep (x :: y :: a)) with (x ++ sep ++ join sep (y :: a))%string.
    now rewrite !append_assoc.
Qed.

Lemma join_inner (sep : string) (a inner b : list string) :
  inner <> [] ->
  join sep (a ++ join sep inner :: b) = join sep (a ++ inner ++ b).
Proof.
  intros Hi.
  assert (Hcons : forall b', join sep (join sep inner :: b') = join sep (inner ++ b')).
  { intros [|z b']; [now rewrite app_nil_r|].
    rewrite (join_app sep inner (z :: b')) by (assumption || discriminate).
    reflexivity. }
  destruct a as [|x a]; [apply Hcons|].
  rewrite !(join_app sep (x :: a)); try discriminate.
  - now rewrite Hcons.
  - destruct inner; [congruence|discriminate].
Qed.

(** X16. Read line by line, the document is what [generateICS] put
    together line by line.  Take records whose name, instructor, type
    and place hold no line feed, as those of [parseCourses] do, a
    calendar name and identifiers without a line feed, and a valid
    current date.  Then the lines of [generateICS] are the preamble, ten
    lines for each event, none with a line feed in it, and the closing
    line; and splitting the document at the line feeds gives the four
    lines of the head, the eighteen of the time zone block, those event
    lines and the closing line: 23 lines and ten more for each event. *)
Theorem generateICS_line_by_line (E : env) (courses : list Course)
    (calendarName : string) (lines : list string) :
  Forall unbroken courses ->
  no_line_feed calendarName ->
  (forall i, no_line_feed (uuid4 E i)) ->
  valid_date (dt_date (now_ny E)) ->
  generateICS_lines E courses calendarName = Ok lines ->
  exists body,
    lines = preamble calendarName ++ body ++ ["END:VCALENDAR"]
    /\ Forall no_line_feed body
    /\ List.length body = (10 * event_blocks lines)%nat
    /\ generateICS E courses calendarName = Ok (join NL lines)
    /\ split NL (join NL lines)
       = firstn 4 (preamble calendarName) ++ split NL (generateVTimezone tzid)
         ++ body ++ ["END:VCALENDAR"]
    /\ List.length (split NL (join NL lines)) = (23 + 10 * event_blocks lines)%nat.
Proof.
  intros Hc Hname Hu Hnow H.
  assert (Hdoc : generateICS E courses calendarName = Ok (join NL lines))
    by (unfold generateICS; now rewrite H).
  unfold generateICS_lines in H. cbv zeta in H. fold (preamble calendarName) in H.
  destruct (events E 0 courses (preamble calendarName)) as [ls|e] eqn:Hev;
    cbn [bind] in H; [|discriminate].
  injection H as <-.
  destruct (events_no_feed E courses Hc Hu Hnow _ _ _ Hev) as (body & -> & Hb & Hlen).
  exists body. rewrite <- app_assoc.
  assert (Hcount : event_blocks (preamble calendarName ++ body ++ ["END:VCALENDAR"])
                   = event_blocks body).
  { rewrite !event_blocks_app.
    assert (Hp : event_blocks (preamble calendarName) = 0%nat).
    { unfold event_blocks, preamble.
      do 5 (rewrite count_occ_cons_neq
              by (let H := fresh in intros H; cbn [append] in H; discriminate H)).
      reflexivity. }
    rewrite Hp. cbn. lia. }
  rewrite Hcount.
  assert (Hsplit : split NL (join NL (preamble calendarName ++ body ++ ["END:VCALENDAR"]))
                   = firstn 4 (preamble calendarName)
                     ++ split NL (generateVTimezone tzid) ++ body ++ ["END:VCALENDAR"]).
  { unfold preamble at 1. unfold generateVTimezone at 1.
    change ([?a; ?b; ?c; ?d; ?t] ++ ?r) with ([a; b; c; d] ++ t :: r).
    rewrite join_inner by discriminate.
    unfold NL at 1 2. rewrite split_join_char.
    - reflexivity.
    - discriminate.
    - apply Forall_app. split.
      { unfold preamble. cbn [firstn].
        repeat constructor. apply no_line_feed_lacks.
        apply no_line_feed_app; [reflexivity|exact Hname]. }
      apply Forall_app. split; [repeat constructor|].
      apply Forall_app. split; [|repeat constructor].
      eapply Forall_impl; [|exact Hb]. apply no_line_feed_lacks. }
  split; [reflexivity|]. split; [exact Hb|]. split; [exact Hlen|].
  split; [exact Hdoc|]. split; [exact Hsplit|].
  rewrite Hsplit, !length_app, Hlen.
  change (List.length (split NL (generateVTimezone tzid))) with 18%nat.
  cbn [preamble firstn List.length]. lia.
Qed.

Lemma generateICS_line_by_line_witness :
  exists lines,
    generateICS_lines sample_env [lecture; overnight] "Courses Calendar" = Ok lines
    /\ List.length (split NL (join NL lines)) = 43%nat.
Proof.
  eexists. split; [vm_compute; reflexivity|].
  match goal with
  | |- List.length (split NL (join NL ?l)) = _ =>
      assert (H : generateICS_lines sample_env [lecture; overnight]
                    "Courses Calendar" = Ok l) by (vm_compute; reflexivity);
      assert (Hc : Forall unbroken [lecture; overnight])
        by (repeat constructor);
      assert (Hn : no_line_feed "Courses Calendar") by reflexivity;
      assert (Hu : forall i, no_line_feed (uuid4 sample_env i))
        by (intros i; reflexivity);
      assert (Hv : valid_date (dt_date (now_ny sample_env)))
        by (unfold valid_date; vm_compute; split; discriminate);
      destruct (generateICS_line_by_line sample_env [lecture; overnight]
                  "Courses Calendar" l Hc Hn Hu Hv H)
        as (body & _ & _ & _ & _ & _ & Hlen)
  end.
  rewrite Hlen. vm_compute. reflexivity.
Defined.
